(** * DICL: disentangled in-context learning, prediction and reconstruction

    Shallow embedding of [src/dicl/dicl.py]: the [IdentityTransformer], the
    [DICL] pipeline object with [predict_single_step], [predict_multi_step],
    [compute_metrics], [plot_single_step] and [plot_multi_step], and the
    [vICL] and [DICL_PCA] variants; and of [predict_single_step] and [vICL]
    of the earlier copy of the class in [src/dicl/main/dicl.py].

    Conventions of the embedding.
    - A Python exception is a value of [exception]; a call that may raise
      returns a [result].  A method of the pipeline object is a state
      transformer [M DICL A]: the attribute assignments made before an
      exception is raised stay on the object, as in Python.
    - numpy arithmetic is written over an interface [Arith] of the scalar
      operations the source uses.  It has two instances below: IEEE binary64
      ([PrimFloat.float], the numbers numpy computes with) and the real
      numbers (used where a statement needs field laws).
    - A 1-D array is the list of its entries, a 2-D array the list of its
      rows.  The column count of an array without rows is not represented.
    - sklearn estimators and the in-context trainer are interfaces
      ([TransformerMixin], [ICLTrainer]); their implementations are not part
      of the repository slice and enter as parameters. *)

From Stdlib Require Import PrimFloat.
From Stdlib Require Import ZArith Reals Lra Lia String.
From Stdlib Require Uint63.
From Stdlib Require FloatAxioms.
From stdpp Require Import base list gmap strings.
From stdpp Require Import pretty.

Set Default Proof Using "Type".

(** ** Python: exceptions and the state-and-exception monad *)

Module Py.

Inductive exception : Type :=
| AssertionError
| AttributeError (name : string)
| IndexError
| ValueError.

Inductive result (A : Type) : Type :=
| Ok (a : A)
| Raise (e : exception).
Arguments Ok {A} a.
Arguments Raise {A} e.

#[global] Instance result_ret : MRet result := @Ok.
#[global] Instance result_bind : MBind result := λ A B f r,
  match r with
  | Ok a => f a
  | Raise e => Raise e
  end.
#[global] Instance result_fmap : FMap result := λ A B f r,
  match r with
  | Ok a => Ok (f a)
  | Raise e => Raise e
  end.

(** A method body: runs on the object state [S]; the state it leaves is
    returned also when it raises. *)
Definition M (S A : Type) : Type := S → result A * S.

#[global] Instance M_ret {S} : MRet (M S) := λ A a s, (Ok a, s).
#[global] Instance M_bind {S} : MBind (M S) := λ A B f m s,
  match m s with
  | (Ok a, s') => f a s'
  | (Raise e, s') => (Raise e, s')
  end.

Definition get {S} : M S S := λ s, (Ok s, s).
Definition modify {S} (f : S → S) : M S unit := λ s, (Ok tt, f s).
Definition lift {S A} (r : result A) : M S A := λ s, (r, s).
Definition raise {S A} (e : exception) : M S A := lift (Raise e).

(** [assert cond] *)
Definition assert {S} (cond : bool) : M S unit :=
  if cond then mret tt else raise AssertionError.

(** [self.name], for an attribute that is unset until first assigned. *)
Definition getattr {S A} (name : string) (field : S → option A) : M S A := λ s,
  match field s with
  | Some v => (Ok v, s)
  | None => (Raise (AttributeError name), s)
  end.

(** [l[i]] for [0 <= i]. *)
Definition getitem {A} (l : list A) (i : nat) : result A :=
  match l !! i with
  | Some x => Ok x
  | None => Raise IndexError
  end.

(** [l[:stop]] and [l[start:]]: a negative index counts from the end, and
    indices are clipped to the range of the list. *)
Definition slice_to {A} (l : list A) (stop : Z) : list A :=
  take (Z.to_nat (if (stop <? 0)%Z then Z.of_nat (length l) + stop else stop)%Z) l.
Definition slice_from {A} (l : list A) (start : Z) : list A :=
  drop (Z.to_nat (if (start <? 0)%Z then Z.of_nat (length l) + start else start)%Z) l.

End Py.
Import Py.

(** ** Scalars *)

(** The scalar operations of numpy's [float64] that the source relies on. *)
Class Arith (num : Type) : Type := {
  zero : num;
  one : num;
  add : num → num → num;
  sub : num → num → num;
  mul : num → num → num;
  div : num → num → num;
  sqrt : num → num;
  of_nat : nat → num;
  leb : num → num → bool
}.

Declare Scope arith_scope.
Delimit Scope arith_scope with A.
Infix "+" := add : arith_scope.
Infix "-" := sub : arith_scope.
Infix "*" := mul : arith_scope.
Infix "/" := div : arith_scope.

(** ** numpy *)

Module Np.

Abbreviation vector num := (list num) (only parsing).
Abbreviation matrix num := (list (list num)) (only parsing).

Section Np.
Context {num : Type} `{!Arith num}.

Inductive ndarray : Type :=
| Scalar (x : num)
| Array1 (v : vector num)
| Array2 (a : matrix num).

(** [a.shape[0]] and [a.shape[1]] of a 2-D array ([0] columns for an array
    without rows). *)
Definition shape0 (a : matrix num) : nat := length a.
Definition shape1 (a : matrix num) : nat :=
  match a with
  | [] => 0
  | r :: _ => length r
  end.

(** [a] has [r] rows of [c] entries each. *)
Definition has_shape (a : matrix num) (r c : nat) : Prop :=
  length a = r ∧ Forall (λ row : vector num, length row = c) a.

(** Broadcasting a binary operation over two arrays of shape [(n,)] (or over
    two columns of shape [(n, 1)]): equal lengths, or one of them 1. *)
Definition broadcast1 (f : num → num → num) (a b : vector num) : result (vector num) :=
  if length a =? length b then Ok (zip_with f a b)
  else match a, b with
       | [x], _ => Ok (f x <$> b)
       | _, [y] => Ok ((λ x, f x y) <$> a)
       | _, _ => Raise ValueError
       end.

(** The same over two 2-D arrays, first along the rows, then in each row. *)
Definition broadcast2 (f : num → num → num) (a b : matrix num) : result (matrix num) :=
  rows ← (if length a =? length b then Ok (zip a b)
          else match a, b with
               | [r], _ => Ok (pair r <$> b)
               | _, [r] => Ok ((λ x, (x, r)) <$> a)
               | _, _ => Raise ValueError
               end);
  mapM (λ p, broadcast1 f p.1 p.2) rows.

(** [np.zeros_like(a)] *)
Definition zeros_like (a : matrix num) : matrix num := (λ row : vector num, (λ _, zero) <$> row) <$> a.

(** [a ** 2], entry by entry. *)
Definition square (a : matrix num) : matrix num := (λ row : vector num, (λ x, x * x)%A <$> row) <$> a.

(** [a.sum()] of a 1-D array, accumulated from the left; NumPy adds the
    entries of a long array pairwise, in blocks, an order the embedding
    does not follow. *)
Definition sum (v : vector num) : num := foldl add zero v.

(** [v.mean(axis=0)] of a 1-D array: a scalar. *)
Definition mean (v : vector num) : num := (sum v / of_nat (length v))%A.

(** Rows to columns.  [np.concatenate(cols, axis=1)] of columns of shape
    [(n, 1)] has the columns' transpose as its rows. *)
Fixpoint transpose (a : matrix num) : matrix num :=
  match a with
  | [] => []
  | r :: rs =>
      match rs with
      | [] => (λ x, [x]) <$> r
      | _ => zip_with cons r (transpose rs)
      end
  end.

(** [a.mean(axis=0)] of a 2-D array: the mean of every column.  A list of
    rows does not record the number of columns of an array without rows,
    which gives the empty array here and one NaN for every column in
    NumPy. *)
Definition mean_axis0 (a : matrix num) : vector num := mean <$> transpose a.

(** [np.linalg.norm(a, axis=1)]: the Euclidean norm of every row. *)
Definition linalg_norm_axis1 (a : matrix num) : vector num :=
  (λ row : vector num, sqrt (sum ((λ x, x * x)%A <$> row))) <$> a.

(** [np.concatenate(cols, axis=1)] of a Python list of [(n, 1)] columns:
    raises on an empty list and on columns of different lengths. *)
Definition concatenate_axis1 (cols : list (vector num)) : result (matrix num) :=
  match cols with
  | [] => Raise ValueError
  | c :: cs =>
      if forallb (λ d, length d =? length c) cs then Ok (transpose cols)
      else Raise ValueError
  end.

End Np.
Arguments ndarray : clear implicits.
End Np.
Import Np.

(** ** sklearn *)

Module Sklearn.

(** The estimator interface the pipeline relies on ([fit], [transform],
    [inverse_transform]); an estimator value carries its fitted state.  The
    methods are total: the errors scikit-learn's validation of its input
    raises (on an array without rows, on an infinite entry) are not part of
    the embedding. *)
Class TransformerMixin (num E : Type) : Type := {
  fit : E → matrix num → E;
  transform : E → matrix num → matrix num;
  inverse_transform : E → matrix num → matrix num
}.

(** [make_pipeline(e0, e1, e2)]: fitting fits each step on the data
    transformed by the steps before it, [transform] applies the steps in
    order, [inverse_transform] undoes them in reverse order. *)
Record Pipeline (E0 E1 E2 : Type) : Type := make_pipeline {
  step0 : E0;
  step1 : E1;
  step2 : E2
}.
Arguments make_pipeline {E0 E1 E2} step0 step1 step2.
Arguments step0 {E0 E1 E2} p.
Arguments step1 {E0 E1 E2} p.
Arguments step2 {E0 E1 E2} p.

#[global] Instance Pipeline_transformer {num E0 E1 E2}
    `{!TransformerMixin num E0, !TransformerMixin num E1, !TransformerMixin num E2} :
    TransformerMixin num (Pipeline E0 E1 E2) := {|
  fit p X :=
    let s0 := fit (step0 p) X in
    let X1 := transform s0 X in
    let s1 := fit (step1 p) X1 in
    let X2 := transform s1 X1 in
    make_pipeline s0 s1 (fit (step2 p) X2);
  transform p X :=
    transform (step2 p) (transform (step1 p) (transform (step0 p) X));
  inverse_transform p X :=
    inverse_transform (step0 p) (inverse_transform (step1 p) (inverse_transform (step2 p) X))
|}.

End Sklearn.
Import (hints) Sklearn.

(** ** The in-context trainer *)

(** What the trainer hands back for one component: the statistics of the
    predicted distributions, in rescaled units, and the minimum and maximum
    with which the component's context was rescaled.  The arrays are taken
    flattened. *)
Record ICLObject (num : Type) : Type := {
  rescaling_min : num;
  rescaling_max : num;
  mean_arr : vector num;
  mode_arr : vector num;
  sigma_arr : vector num
}.
Arguments rescaling_min {num} _.
Arguments rescaling_max {num} _.
Arguments mean_arr {num} _.
Arguments mode_arr {num} _.
Arguments sigma_arr {num} _.

(** The methods of [MultiVariateICLTrainer] that [DICL] calls, on a trainer
    state [Tr].  [icl] is called with and without [if_true_mean_else_mode];
    an omitted keyword is [None]. *)
Class ICLTrainer (num Model Tokenizer Tr : Type) : Type := {
  MultiVariateICLTrainer :
    Model → Tokenizer → ∀ (n_features : nat) (rescale_factor up_shift : num), Tr;
  update_context :
    Tr → ∀ (time_series mean_series sigma_series : matrix num)
           (context_length : nat) (update_min_max : bool), Tr;
  icl : Tr → ∀ (verbose : Z) (stochastic : bool) (if_true_mean_else_mode : option bool), Tr;
  compute_statistics : Tr → list (ICLObject num) * Tr;
  predict_long_horizon_llm :
    Tr → ∀ (prediction_horizon : Z) (stochastic if_true_mean_else_mode : bool) (verbose : Z),
      list (ICLObject num) * Tr
}.

(** ** The pipeline *)

(** [IdentityTransformer]: its constructor does nothing, [fit] returns the
    estimator, both transforms return [input_array * 1]. *)
Inductive IdentityTransformer : Type := IdentityTransformer_init.

#[global] Instance IdentityTransformer_transformer {num} `{!Arith num} :
    Sklearn.TransformerMixin num IdentityTransformer := {|
  Sklearn.fit self input_array := self;
  Sklearn.transform self input_array :=
    (λ row : vector num, (λ x, x * one)%A <$> row) <$> input_array;
  Sklearn.inverse_transform self input_array :=
    (λ row : vector num, (λ x, x * one)%A <$> row) <$> input_array
|}.

Section Dicl.
Context {num : Type} `{!Arith num}.
(** sklearn's scalers, with their constructors. *)
Context {MinMaxScaler StandardScaler : Type}
        `{!Sklearn.TransformerMixin num MinMaxScaler}
        `{!Sklearn.TransformerMixin num StandardScaler}
        (MinMaxScaler_init : MinMaxScaler) (StandardScaler_init : StandardScaler).
(** The disentangler handed to the constructor. *)
Context {D : Type} `{!Sklearn.TransformerMixin num D}.
(** The language model, its tokenizer and the trainer built on them. *)
Context {Model Tokenizer Tr : Type} `{!ICLTrainer num Model Tokenizer Tr}.
(** [dicl.utils.calibration.compute_ks_metric]: returns the per-feature
    statistic and the quantile data. *)
Context {Quantiles : Type}
        (compute_ks_metric :
           ∀ (groundtruth : matrix num) (icl_object : list (ICLObject num))
             (n_components n_features : nat)
             (inverse_transform : matrix num → matrix num) (burnin : Z),
             vector num * Quantiles).

Import Sklearn (Pipeline, make_pipeline).

(** The attributes of a [DICL] object.  The last eight are not set by the
    constructor: they are [None] until a method assigns them. *)
Record DICL : Type := {
  n_features : nat;
  n_components : nat;
  rescale_factor : num;
  up_shift : num;
  disentangler : Pipeline MinMaxScaler StandardScaler D;
  iclearner : Tr;
  context_length : option nat;
  X : option (matrix num);
  prediction_horizon : option Z;
  icl_object : option (list (ICLObject num));
  mean : option (matrix num);
  mode : option (matrix num);
  lb : option (matrix num);
  ub : option (matrix num)
}.

Definition set_iclearner (v : Tr) (self : DICL) : DICL :=
  {| n_features := n_features self;
     n_components := n_components self;
     rescale_factor := rescale_factor self;
     up_shift := up_shift self;
     disentangler := disentangler self;
     iclearner := v;
     context_length := context_length self;
     X := X self;
     prediction_horizon := prediction_horizon self;
     icl_object := icl_object self;
     mean := mean self;
     mode := mode self;
     lb := lb self;
     ub := ub self |}.
Definition set_context_length (v : nat) (self : DICL) : DICL :=
  {| n_features := n_features self;
     n_components := n_components self;
     rescale_factor := rescale_factor self;
     up_shift := up_shift self;
     disentangler := disentangler self;
     iclearner := iclearner self;
     context_length := Some v;
     X := X self;
     prediction_horizon := prediction_horizon self;
     icl_object := icl_object self;
     mean := mean self;
     mode := mode self;
     lb := lb self;
     ub := ub self |}.
Definition set_X (v : matrix num) (self : DICL) : DICL :=
  {| n_features := n_features self;
     n_components := n_components self;
     rescale_factor := rescale_factor self;
     up_shift := up_shift self;
     disentangler := disentangler self;
     iclearner := iclearner self;
     context_length := context_length self;
     X := Some v;
     prediction_horizon := prediction_horizon self;
     icl_object := icl_object self;
     mean := mean self;
     mode := mode self;
     lb := lb self;
     ub := ub self |}.
Definition set_prediction_horizon (v : Z) (self : DICL) : DICL :=
  {| n_features := n_features self;
     n_components := n_components self;
     rescale_factor := rescale_factor self;
     up_shift := up_shift self;
     disentangler := disentangler self;
     iclearner := iclearner self;
     context_length := context_length self;
     X := X self;
     prediction_horizon := Some v;
     icl_object := icl_object self;
     mean := mean self;
     mode := mode self;
     lb := lb self;
     ub := ub self |}.
Definition set_icl_object (v : list (ICLObject num)) (self : DICL) : DICL :=
  {| n_features := n_features self;
     n_components := n_components self;
     rescale_factor := rescale_factor self;
     up_shift := up_shift self;
     disentangler := disentangler self;
     iclearner := iclearner self;
     context_length := context_length self;
     X := X self;
     prediction_horizon := prediction_horizon self;
     icl_object := Some v;
     mean := mean self;
     mode := mode self;
     lb := lb self;
     ub := ub self |}.
Definition set_mean (v : matrix num) (self : DICL) : DICL :=
  {| n_features := n_features self;
     n_components := n_components self;
     rescale_factor := rescale_factor self;
     up_shift := up_shift self;
     disentangler := disentangler self;
     iclearner := iclearner self;
     context_length := context_length self;
     X := X self;
     prediction_horizon := prediction_horizon self;
     icl_object := icl_object self;
     mean := Some v;
     mode := mode self;
     lb := lb self;
     ub := ub self |}.
Definition set_mode (v : matrix num) (self : DICL) : DICL :=
  {| n_features := n_features self;
     n_components := n_components self;
     rescale_factor := rescale_factor self;
     up_shift := up_shift self;
     disentangler := disentangler self;
     iclearner := iclearner self;
     context_length := context_length self;
     X := X self;
     prediction_horizon := prediction_horizon self;
     icl_object := icl_object self;
     mean := mean self;
     mode := Some v;
     lb := lb self;
     ub := ub self |}.
Definition set_lb (v : matrix num) (self : DICL) : DICL :=
  {| n_features := n_features self;
     n_components := n_components self;
     rescale_factor := rescale_factor self;
     up_shift := up_shift self;
     disentangler := disentangler self;
     iclearner := iclearner self;
     context_length := context_length self;
     X := X self;
     prediction_horizon := prediction_horizon self;
     icl_object := icl_object self;
     mean := mean self;
     mode := mode self;
     lb := Some v;
     ub := ub self |}.
Definition set_ub (v : matrix num) (self : DICL) : DICL :=
  {| n_features := n_features self;
     n_components := n_components self;
     rescale_factor := rescale_factor self;
     up_shift := up_shift self;
     disentangler := disentangler self;
     iclearner := iclearner self;
     context_length := context_length self;
     X := X self;
     prediction_horizon := prediction_horizon self;
     icl_object := icl_object self;
     mean := mean self;
     mode := mode self;
     lb := lb self;
     ub := Some v |}.

(** [DICL.__init__] *)
Definition DICL_init (disentangler : D) (n_features n_components : nat)
    (model : Model) (tokenizer : Tokenizer) (rescale_factor up_shift : num) : DICL :=
  {| n_features := n_features;
     n_components := n_components;
     rescale_factor := rescale_factor;
     up_shift := up_shift;
     disentangler := make_pipeline MinMaxScaler_init StandardScaler_init disentangler;
     iclearner :=
       MultiVariateICLTrainer model tokenizer n_components rescale_factor up_shift;
     context_length := None;
     X := None;
     prediction_horizon := None;
     icl_object := None;
     mean := None;
     mode := None;
     lb := None;
     ub := None |}.


Definition transform (X : matrix num) : M DICL (matrix num) :=
  self ← get;
  mret (Sklearn.transform (disentangler self) X).

Definition inverse_transform (X_transformed : matrix num) : M DICL (matrix num) :=
  self ← get;
  mret (Sklearn.inverse_transform (disentangler self) X_transformed).

(** The four Python lists filled by the loop over the components. *)
Record columns : Type := {
  all_mean : list (vector num);
  all_mode : list (vector num);
  all_lb : list (vector num);
  all_ub : list (vector num)
}.

(** [for x in l: body], threading the loop's variables. *)
Fixpoint for_each {A V : Type} (l : list A) (body : A → V → result V) (v : V) : result V :=
  match l with
  | [] => Ok v
  | x :: rest => v' ← body x v; for_each rest body v'
  end.

(** The body of [for dim in range(self.n_components)]. *)
Definition inverse_rescale_dim (self : DICL) (icl_object : list (ICLObject num))
    (dim : nat) (acc : columns) : result columns :=
  o ← getitem icl_object dim;
  let ts_max := rescaling_max o in
  let ts_min := rescaling_min o in
  let mode_arr :=
    (λ x, (x - up_shift self) / rescale_factor self * (ts_max - ts_min) + ts_min)%A
      <$> mode_arr o in
  let mean_arr :=
    (λ x, (x - up_shift self) / rescale_factor self * (ts_max - ts_min) + ts_min)%A
      <$> mean_arr o in
  let sigma_arr :=
    (λ x, x / rescale_factor self * (ts_max - ts_min))%A <$> sigma_arr o in
  lb ← broadcast1 sub mean_arr sigma_arr;
  ub ← broadcast1 add mean_arr sigma_arr;
  mret {| all_mean := all_mean acc ++ [mean_arr];
          all_mode := all_mode acc ++ [mode_arr];
          all_lb := all_lb acc ++ [lb];
          all_ub := all_ub acc ++ [ub] |}.

Definition predict_single_step (X : matrix num) :
    M DICL (matrix num * matrix num * matrix num * matrix num) :=
  self ← get;
  assert (shape1 X =? n_features self);;
  modify (set_context_length (shape0 X));;
  modify (set_X X);;
  (* Step 1: Transform the time series *)
  X_transformed ← transform (slice_to X (-1));
  (* Step 2: Perform time series forecasting *)
  modify (λ self,
    set_iclearner
      (update_context (iclearner self) X_transformed X_transformed
         (zeros_like X_transformed) (shape0 X_transformed) true) self);;
  modify (λ self, set_iclearner (icl (iclearner self) 0 true None) self);;
  self ← get;
  let '(stats, tr) := compute_statistics (iclearner self) in
  modify (set_iclearner tr);;
  modify (set_icl_object stats);;
  (* Step 3: Inverse transform the predictions *)
  self ← get;
  icl_object ← getattr "icl_object" icl_object;
  cols ← lift (for_each (seq 0 (n_components self)) (inverse_rescale_dim self icl_object)
                 {| all_mean := []; all_mode := []; all_lb := []; all_ub := [] |});
  a ← lift (concatenate_axis1 (all_mean cols));
  v ← inverse_transform a;
  modify (set_mean v);;
  a ← lift (concatenate_axis1 (all_mode cols));
  v ← inverse_transform a;
  modify (set_mode v);;
  a ← lift (concatenate_axis1 (all_lb cols));
  v ← inverse_transform a;
  modify (set_lb v);;
  a ← lift (concatenate_axis1 (all_ub cols));
  v ← inverse_transform a;
  modify (set_ub v);;
  mean ← getattr "mean" mean;
  mode ← getattr "mode" mode;
  lb ← getattr "lb" lb;
  ub ← getattr "ub" ub;
  mret (mean, mode, lb, ub).

Definition predict_multi_step (X : matrix num) (prediction_horizon : Z)
    (stochastic if_true_mean_else_mode : bool) :
    M DICL (matrix num * matrix num * matrix num * matrix num) :=
  self ← get;
  assert (shape1 X =? n_features self);;
  modify (set_context_length (shape0 X));;
  modify (set_X X);;
  modify (set_prediction_horizon prediction_horizon);;
  (* Step 1: Transform the time series *)
  X_transformed ← transform (slice_to X (-1 - prediction_horizon));
  (* Step 2: Perform time series forecasting *)
  modify (λ self,
    set_iclearner
      (update_context (iclearner self) X_transformed X_transformed
         (zeros_like X_transformed) (shape0 X_transformed) true) self);;
  modify (λ self,
    set_iclearner (icl (iclearner self) 0 stochastic (Some if_true_mean_else_mode)) self);;
  self ← get;
  let '(stats, tr) :=
    predict_long_horizon_llm (iclearner self) prediction_horizon stochastic
      if_true_mean_else_mode 1 in
  modify (set_iclearner tr);;
  modify (set_icl_object stats);;
  (* Step 3: Inverse transform the predictions *)
  self ← get;
  icl_object ← getattr "icl_object" icl_object;
  cols ← lift (for_each (seq 0 (n_components self)) (inverse_rescale_dim self icl_object)
                 {| all_mean := []; all_mode := []; all_lb := []; all_ub := [] |});
  a ← lift (concatenate_axis1 (all_mean cols));
  v ← inverse_transform a;
  modify (set_mean v);;
  a ← lift (concatenate_axis1 (all_mode cols));
  v ← inverse_transform a;
  modify (set_mode v);;
  a ← lift (concatenate_axis1 (all_lb cols));
  v ← inverse_transform a;
  modify (set_lb v);;
  a ← lift (concatenate_axis1 (all_ub cols));
  v ← inverse_transform a;
  modify (set_ub v);;
  mean ← getattr "mean" mean;
  mode ← getattr "mode" mode;
  lb ← getattr "lb" lb;
  ub ← getattr "ub" ub;
  mret (mean, mode, lb, ub).

Definition compute_metrics (burnin : Z) : M DICL (gmap string (ndarray num)) :=
  let metrics : gmap string (ndarray num) := ∅ in
  (* ------- MSE -------- *)
  X_ ← getattr "X" X;
  mean_ ← getattr "mean" mean;
  d ← lift (broadcast2 sub (slice_from X_ 1) mean_);
  let perdim_squared_errors := square d in
  X_ ← getattr "X" X;
  mean_ ← getattr "mean" mean;
  d ← lift (broadcast2 sub (slice_from X_ 1) mean_);
  let agg_squared_error := linalg_norm_axis1 d in
  let metrics :=
    <["average_agg_squared_error" := Scalar (Np.mean (slice_from agg_squared_error burnin))]>
      metrics in
  let metrics := <["agg_squared_error" := Array1 agg_squared_error]> metrics in
  let metrics :=
    <["average_perdim_squared_error" :=
        Array1 (mean_axis0 (slice_from perdim_squared_errors burnin))]> metrics in
  let metrics := <["perdim_squared_error" := Array1 agg_squared_error]> metrics in
  (* ------ KS ------- *)
  X_ ← getattr "X" X;
  icl_object_ ← getattr "icl_object" icl_object;
  self ← get;
  let '(kss, _) :=
    compute_ks_metric (slice_from X_ 1) icl_object_ (n_components self) (n_features self)
      (Sklearn.inverse_transform (disentangler self)) burnin in
  let metrics := <["perdim_ks" := Array1 kss]> metrics in
  let metrics := <["agg_ks" := Scalar (Np.mean kss)]> metrics in
  mret metrics.

End Dicl.

Arguments DICL num MinMaxScaler StandardScaler D Tr : clear implicits.
Arguments columns num : clear implicits.

(** [vICL.__init__]: no disentangler ([IdentityTransformer]), as many
    components as features. *)
Definition vICL_init {num} `{!Arith num} {MinMaxScaler StandardScaler : Type}
    `{!Sklearn.TransformerMixin num MinMaxScaler}
    `{!Sklearn.TransformerMixin num StandardScaler}
    (MinMaxScaler_init : MinMaxScaler) (StandardScaler_init : StandardScaler)
    {Model Tokenizer Tr : Type} `{!ICLTrainer num Model Tokenizer Tr}
    (n_features : nat) (model : Model) (tokenizer : Tokenizer)
    (rescale_factor up_shift : num) :
    DICL num MinMaxScaler StandardScaler IdentityTransformer Tr :=
  DICL_init MinMaxScaler_init StandardScaler_init IdentityTransformer_init
    n_features n_features model tokenizer rescale_factor up_shift.

(** [DICL_PCA.__init__], given sklearn's [PCA(n_components=n_components)]. *)
Definition DICL_PCA_init {num} `{!Arith num} {MinMaxScaler StandardScaler PCA : Type}
    `{!Sklearn.TransformerMixin num MinMaxScaler}
    `{!Sklearn.TransformerMixin num StandardScaler}
    `{!Sklearn.TransformerMixin num PCA}
    (MinMaxScaler_init : MinMaxScaler) (StandardScaler_init : StandardScaler)
    (PCA_init : nat → PCA)
    {Model Tokenizer Tr : Type} `{!ICLTrainer num Model Tokenizer Tr}
    (n_features n_components : nat) (model : Model) (tokenizer : Tokenizer)
    (rescale_factor up_shift : num) :
    DICL num MinMaxScaler StandardScaler PCA Tr :=
  DICL_init MinMaxScaler_init StandardScaler_init (PCA_init n_components)
    n_features n_components model tokenizer rescale_factor up_shift.

(** The default values of the keyword arguments [rescale_factor=7.0] and
    [up_shift=1.5]. *)
Definition default_rescale_factor {num} `{!Arith num} : num := of_nat 7.
Definition default_up_shift {num} `{!Arith num} : num := (of_nat 3 / of_nat 2)%A.

(** ** The two scalar instances *)

(** IEEE 754 binary64, as numpy's [float64]. *)
#[global] Instance float_Arith : Arith float := {|
  zero := 0%float;
  one := 1%float;
  add := PrimFloat.add;
  sub := PrimFloat.sub;
  mul := PrimFloat.mul;
  div := PrimFloat.div;
  sqrt := PrimFloat.sqrt;
  of_nat n := PrimFloat.of_uint63 (Uint63.of_Z (Z.of_nat n));
  leb := PrimFloat.leb
|}.

(** The real numbers: arithmetic without rounding. *)
#[global] Instance R_Arith : Arith R := {|
  zero := 0%R;
  one := 1%R;
  add := Rplus;
  sub := Rminus;
  mul := Rmult;
  div := Rdiv;
  sqrt := R_sqrt.sqrt;
  of_nat := INR;
  leb x y := if Rle_dec x y then true else false
|}.

(** ** Test doubles for the external parts *)

(** A fitted column-wise scaler, [x * scale + shift] on every column, used
    in the places of sklearn's [MinMaxScaler] and [StandardScaler].  It is
    not refitted. *)
Record AffineScaler (num : Type) : Type := {
  scale_ : vector num;
  shift_ : vector num
}.
Arguments scale_ {num} _.
Arguments shift_ {num} _.

#[global] Instance AffineScaler_transformer {num} `{!Arith num} :
    Sklearn.TransformerMixin num (AffineScaler num) := {|
  Sklearn.fit self _ := self;
  Sklearn.transform self X :=
    (λ row : vector num,
       zip_with add (zip_with mul row (scale_ self)) (shift_ self)) <$> X;
  Sklearn.inverse_transform self X :=
    (λ row : vector num,
       zip_with div (zip_with sub row (shift_ self)) (scale_ self)) <$> X
|}.

(** A trainer that keeps the context it is given and predicts, at every
    position and for every further step, the rescaled image [up_shift] of
    the component's smallest context value, with dispersion zero.  It
    records the minimum and maximum of every component of the context. *)
Record StubTrainer (num : Type) : Type := {
  stub_n_features : nat;
  stub_up_shift : num;
  stub_context : matrix num
}.
Arguments stub_n_features {num} _.
Arguments stub_up_shift {num} _.
Arguments stub_context {num} _.

Section Stub.
Context {num : Type} `{!Arith num}.

Definition stub_min (v : vector num) : num :=
  match v with
  | [] => zero
  | x :: rest => foldl (λ m y, if leb y m then y else m) x rest
  end.

Definition stub_max (v : vector num) : num :=
  match v with
  | [] => zero
  | x :: rest => foldl (λ m y, if leb m y then y else m) x rest
  end.

Definition stub_statistics (tr : StubTrainer num) (extra : nat) : list (ICLObject num) :=
  (λ dim,
     let column := (λ row : vector num, default zero (row !! dim)) <$> stub_context tr in
     let n := length column + extra in
     {| rescaling_min := stub_min column;
        rescaling_max := stub_max column;
        mean_arr := replicate n (stub_up_shift tr);
        mode_arr := replicate n (stub_up_shift tr);
        sigma_arr := replicate n zero |}) <$> seq 0 (stub_n_features tr).

#[global] Instance StubTrainer_trainer : ICLTrainer num unit unit (StubTrainer num) := {|
  MultiVariateICLTrainer _ _ n_features rescale_factor up_shift :=
    {| stub_n_features := n_features; stub_up_shift := up_shift; stub_context := [] |};
  update_context tr time_series _ _ _ _ :=
    {| stub_n_features := stub_n_features tr;
       stub_up_shift := stub_up_shift tr;
       stub_context := time_series |};
  icl tr _ _ _ := tr;
  compute_statistics tr := (stub_statistics tr 0, tr);
  predict_long_horizon_llm tr prediction_horizon _ _ _ :=
    (stub_statistics tr (Z.to_nat prediction_horizon), tr)
|}.

End Stub.

(** A calibration helper that reports statistic zero for every feature. *)
Definition stub_ks_metric {num} `{!Arith num} (groundtruth : matrix num)
    (icl_object : list (ICLObject num)) (n_components n_features : nat)
    (inverse_transform : matrix num → matrix num) (burnin : Z) : vector num * unit :=
  (replicate n_features zero, tt).

(** ** Plotting *)

(** The calls made on matplotlib, with the data and the colour they are
    given; the other keyword arguments, which only style the drawing (line
    styles, sizes, transparency, legend placement), are left out. *)
Module Plt.

(** [color="red"], or [color=sns.color_palette("colorblind")[i]]. *)
Inductive color : Type :=
| named (name : string)
| colorblind (i : nat).

Inductive call (num : Type) : Type :=
| subplots (nrows ncols : nat)
| plot (x : list Z) (y : vector num) (label : string) (color : option color)
| fill_between (x : list Z) (y1 y2 : vector num) (color : option color)
| set_ylabel (ylabel : string)
| set_yticklabels (labels : list string)
| set_xlim (lim : list num + list Z)
| legend
| savefig (fname : string)
| show.
Arguments subplots {num} nrows ncols.
Arguments plot {num} x y label color.
Arguments fill_between {num} x y1 y2 color.
Arguments set_ylabel {num} ylabel.
Arguments set_yticklabels {num} labels.
Arguments set_xlim {num} lim.
Arguments legend {num}.
Arguments savefig {num} fname.
Arguments show {num}.

(** A call on the axes [axes[ax]] of the flattened grid, or on [plt]. *)
Inductive event (num : Type) : Type :=
| on_axes (ax : nat) (c : call num)
| on_plt (c : call num).
Arguments on_axes {num} ax c.
Arguments on_plt {num} c.

(** A plotting method returns after its calls, raises an exception, or
    raises [UnboundLocalError] for a local variable that was never bound.
    What matplotlib does with a call is not part of the embedding: [Drawn]
    lists the calls the method makes when matplotlib returns from each. *)
Inductive outcome (num : Type) : Type :=
| Drawn (events : list (event num))
| Raised (e : exception)
| RaisedUnboundLocal (name : string).
Arguments Drawn {num} events.
Arguments Raised {num} e.
Arguments RaisedUnboundLocal {num} name.

(** The two data arguments of a call have the same number of entries. *)
Definition aligned {num} (e : event num) : Prop :=
  match e with
  | on_axes _ (plot x y _ _) => length x = length y
  | on_axes _ (fill_between x y1 y2 _) => length x = length y1 ∧ length x = length y2
  | _ => True
  end.

End Plt.

Section Plotting.
Context {num : Type} `{!Arith num}.
Context {MinMaxScaler StandardScaler : Type}
        `{!Sklearn.TransformerMixin num MinMaxScaler}
        `{!Sklearn.TransformerMixin num StandardScaler}.
Context {D : Type} `{!Sklearn.TransformerMixin num D}.
Context {Model Tokenizer Tr : Type} `{!ICLTrainer num Model Tokenizer Tr}.

Local Abbreviation pipeline := (DICL num MinMaxScaler StandardScaler D Tr).

(** [self.name] in code that assigns no attribute. *)
Definition attr {A} (name : string) (v : option A) : result A :=
  match v with
  | Some a => Ok a
  | None => Raise (AttributeError name)
  end.

(** [np.arange(stop)] and [np.arange(start, stop)] on integers. *)
Definition arange (stop : Z) : list Z := Z.of_nat <$> seq 0 (Z.to_nat stop).
Definition arange_from (start stop : Z) : list Z :=
  (λ i, start + Z.of_nat i)%Z <$> seq 0 (Z.to_nat (stop - start)).

(** [a[:, dim]] *)
Definition column (a : matrix num) (dim : nat) : result (vector num) :=
  mapM (λ row : vector num, getitem row dim) a.

(** [[f"f{i}" for i in range(self.n_features)]] *)
Definition default_feature_names (self : pipeline) : list string :=
  (λ i : nat, "f" +:+ pretty i) <$> seq 0 (n_features self).

(** The axes of [plt.subplots((self.n_features // 3) + 1, 3)], flattened:
    an axes object is named by its place in the list. *)
Definition axes_grid (self : pipeline) : list nat :=
  seq 0 ((n_features self / 3 + 1) * 3).

(** The body of the loop of [plot_single_step]; the loop's variables are
    the calls made so far and the local variable [ax]. *)
Definition plot_single_step_dim (self : pipeline) (feature_names : list string)
    (xlim : option (list num)) (dim : nat) (acc : list (Plt.event num) * option nat) :
    result (list (Plt.event num) * option nat) :=
  ax ← getitem (axes_grid self) dim;
  context_length_ ← attr "context_length" (context_length self);
  X_ ← attr "X" (X self);
  y ← column (slice_from X_ 1) dim;
  let groundtruth :=
    Plt.on_axes ax
      (Plt.plot (arange (Z.of_nat context_length_ - 1)) y "groundtruth"
         (Some (Plt.named "red"))) in
  mode_ ← attr "mode" (mode self);
  y ← column mode_ dim;
  let mode_line :=
    Plt.on_axes ax
      (Plt.plot (arange (Z.of_nat context_length_ - 1)) y "mode" (Some (Plt.named "black"))) in
  mean_ ← attr "mean" (mean self);
  y ← column mean_ dim;
  let mean_line :=
    Plt.on_axes ax
      (Plt.plot (arange (Z.of_nat context_length_ - 1)) y "mean $\pm$ std"
         (Some (Plt.colorblind 0))) in
  lb_ ← attr "lb" (lb self);
  y1 ← column lb_ dim;
  ub_ ← attr "ub" (ub self);
  y2 ← column ub_ dim;
  let band :=
    Plt.on_axes ax
      (Plt.fill_between (arange (Z.of_nat context_length_ - 1)) y1 y2
         (Some (Plt.colorblind 0))) in
  name ← getitem feature_names dim;
  let lim :=
    match xlim with
    | Some l => inl l
    | None => inr [0; Z.of_nat context_length_ - 1]%Z
    end in
  Ok (acc.1 ++ [groundtruth; mode_line; mean_line; band;
                Plt.on_axes ax (Plt.set_ylabel name);
                Plt.on_axes ax (Plt.set_yticklabels []);
                Plt.on_axes ax (Plt.set_xlim lim)],
      Some ax).

(** The end of both plotting methods: [ax.legend(...)] on the axes bound
    last in the loop, [plt.savefig] for a non-empty path, [plt.show()]. *)
Definition finish_plot (self : pipeline) (savefigpath : option string)
    (r : result (list (Plt.event num) * option nat)) : Plt.outcome num :=
  match r with
  | Raise e => Plt.Raised e
  | Ok (events, None) => Plt.RaisedUnboundLocal "ax"
  | Ok (events, Some ax) =>
      Plt.Drawn
        ([Plt.on_plt (Plt.subplots (n_features self / 3 + 1) 3)] ++ events ++
         [Plt.on_axes ax Plt.legend] ++
         match savefigpath with
         | Some (String c p) => [Plt.on_plt (Plt.savefig (String c p))]
         | _ => []
         end ++
         [Plt.on_plt Plt.show])
  end.

(** [if not feature_names: feature_names = [...]] *)
Definition feature_names_or_default (self : pipeline) (feature_names : option (list string)) :
    list string :=
  match feature_names with
  | Some (name :: names) => name :: names
  | _ => default_feature_names self
  end.

Definition plot_single_step (feature_names : option (list string))
    (xlim : option (list num)) (savefigpath : option string) (self : pipeline) :
    Plt.outcome num :=
  let feature_names := feature_names_or_default self feature_names in
  finish_plot self savefigpath
    (for_each (seq 0 (n_features self)) (plot_single_step_dim self feature_names xlim)
       ([], None)).

(** The body of the loop of [plot_multi_step]. *)
Definition plot_multi_step_dim (self : pipeline) (feature_names : list string)
    (xlim : option (list num)) (dim : nat) (acc : list (Plt.event num) * option nat) :
    result (list (Plt.event num) * option nat) :=
  ax ← getitem (axes_grid self) dim;
  context_length_ ← attr "context_length" (context_length self);
  X_ ← attr "X" (X self);
  y ← column (slice_from X_ 1) dim;
  let groundtruth :=
    Plt.on_axes ax
      (Plt.plot (arange (Z.of_nat context_length_ - 1)) y "groundtruth"
         (Some (Plt.named "red"))) in
  mode_ ← attr "mode" (mode self);
  y ← column mode_ dim;
  let mode_line :=
    Plt.on_axes ax
      (Plt.plot (arange (Z.of_nat context_length_ - 1)) y "mode" (Some (Plt.named "black"))) in
  prediction_horizon_ ← attr "prediction_horizon" (prediction_horizon self);
  let one_step := (Z.of_nat context_length_ - prediction_horizon_)%Z in
  mean_ ← attr "mean" (mean self);
  y ← column (slice_to mean_ one_step) dim;
  let mean_line :=
    Plt.on_axes ax
      (Plt.plot (arange one_step) y "mean $\pm$ std" (Some (Plt.colorblind 0))) in
  lb_ ← attr "lb" (lb self);
  y1 ← column (slice_to lb_ one_step) dim;
  ub_ ← attr "ub" (ub self);
  y2 ← column (slice_to ub_ one_step) dim;
  let band :=
    Plt.on_axes ax (Plt.fill_between (arange one_step) y1 y2 (Some (Plt.colorblind 0))) in
  let multi_x :=
    arange_from (Z.of_nat context_length_ - prediction_horizon_ - 1)
      (Z.of_nat context_length_ - 1) in
  y ← column (slice_from mean_ (- prediction_horizon_)) dim;
  let multi_line :=
    Plt.on_axes ax (Plt.plot multi_x y "multi-step" (Some (Plt.colorblind 1))) in
  y1 ← column (slice_from lb_ (- prediction_horizon_)) dim;
  y2 ← column (slice_from ub_ (- prediction_horizon_)) dim;
  let multi_band :=
    Plt.on_axes ax (Plt.fill_between multi_x y1 y2 (Some (Plt.colorblind 1))) in
  name ← getitem feature_names dim;
  let lim :=
    match xlim with
    | Some l => inl l
    | None => inr [0; Z.of_nat context_length_ - 1]%Z
    end in
  Ok (acc.1 ++ [groundtruth; mode_line; mean_line; band; multi_line; multi_band;
                Plt.on_axes ax (Plt.set_ylabel name);
                Plt.on_axes ax (Plt.set_yticklabels []);
                Plt.on_axes ax (Plt.set_xlim lim)],
      Some ax).

Definition plot_multi_step (feature_names : option (list string))
    (xlim : option (list num)) (savefigpath : option string) (self : pipeline) :
    Plt.outcome num :=
  let feature_names := feature_names_or_default self feature_names in
  finish_plot self savefigpath
    (for_each (seq 0 (n_features self)) (plot_multi_step_dim self feature_names xlim)
       ([], None)).

End Plotting.

(** ** The earlier copy of the class, [src/dicl/main/dicl.py] *)

Module Main.
Section Main.
Context {num : Type} `{!Arith num}.
Context {MinMaxScaler StandardScaler : Type}
        `{!Sklearn.TransformerMixin num MinMaxScaler}
        `{!Sklearn.TransformerMixin num StandardScaler}
        (MinMaxScaler_init : MinMaxScaler) (StandardScaler_init : StandardScaler).
Context {D : Type} `{!Sklearn.TransformerMixin num D}.
Context {Model Tokenizer Tr : Type} `{!ICLTrainer num Model Tokenizer Tr}.

Local Abbreviation pipeline := (DICL num MinMaxScaler StandardScaler D Tr).

(** [DICL.predict_single_step] of the earlier copy: the trainer's output
    is the local variable [icl_object], not an attribute. *)
Definition predict_single_step (X : matrix num) :
    M pipeline (matrix num * matrix num * matrix num * matrix num) :=
  self ← get;
  assert (shape1 X =? n_features self);;
  modify (set_context_length (shape0 X));;
  modify (set_X X);;
  (* Step 1: Transform the time series *)
  X_transformed ← transform (slice_to X (-1));
  (* Step 2: Perform time series forecasting *)
  modify (λ self,
    set_iclearner
      (update_context (iclearner self) X_transformed X_transformed
         (zeros_like X_transformed) (shape0 X_transformed) true) self);;
  modify (λ self, set_iclearner (icl (iclearner self) 0 true None) self);;
  self ← get;
  let '(icl_object, tr) := compute_statistics (iclearner self) in
  modify (set_iclearner tr);;
  (* Step 3: Inverse transform the predictions *)
  self ← get;
  cols ← lift (for_each (seq 0 (n_components self)) (inverse_rescale_dim self icl_object)
                 {| all_mean := []; all_mode := []; all_lb := []; all_ub := [] |});
  a ← lift (concatenate_axis1 (all_mean cols));
  v ← inverse_transform a;
  modify (set_mean v);;
  a ← lift (concatenate_axis1 (all_mode cols));
  v ← inverse_transform a;
  modify (set_mode v);;
  a ← lift (concatenate_axis1 (all_lb cols));
  v ← inverse_transform a;
  modify (set_lb v);;
  a ← lift (concatenate_axis1 (all_ub cols));
  v ← inverse_transform a;
  modify (set_ub v);;
  mean ← getattr "mean" mean;
  mode ← getattr "mode" mode;
  lb ← getattr "lb" lb;
  ub ← getattr "ub" ub;
  mret (mean, mode, lb, ub).

(** [vICL.__init__] of the earlier copy: it takes [n_components] and
    asserts that it is [n_features]. *)
Definition vICL_init (n_features n_components : nat) (model : Model) (tokenizer : Tokenizer)
    (rescale_factor up_shift : num) :
    result (DICL num MinMaxScaler StandardScaler IdentityTransformer Tr) :=
  if n_features =? n_components
  then Ok (DICL_init MinMaxScaler_init StandardScaler_init IdentityTransformer_init
             n_features n_components model tokenizer rescale_factor up_shift)
  else Raise AssertionError.

(** The body of the loop of [plot_single_step] of the earlier copy: the
    mean curve and the band are given no colour, the default limits are set
    before the label is, and [xlim] after it. *)
Definition plot_single_step_dim (self : pipeline) (feature_names : list string)
    (xlim : option (list num)) (dim : nat) (acc : list (Plt.event num) * option nat) :
    result (list (Plt.event num) * option nat) :=
  ax ← getitem (axes_grid self) dim;
  context_length_ ← attr "context_length" (context_length self);
  X_ ← attr "X" (X self);
  y ← column (slice_from X_ 1) dim;
  let groundtruth :=
    Plt.on_axes ax
      (Plt.plot (arange (Z.of_nat context_length_ - 1)) y "groundtruth"
         (Some (Plt.named "red"))) in
  mode_ ← attr "mode" (mode self);
  y ← column mode_ dim;
  let mode_line :=
    Plt.on_axes ax
      (Plt.plot (arange (Z.of_nat context_length_ - 1)) y "mode" (Some (Plt.named "black"))) in
  mean_ ← attr "mean" (mean self);
  y ← column mean_ dim;
  let mean_line :=
    Plt.on_axes ax
      (Plt.plot (arange (Z.of_nat context_length_ - 1)) y "mean $\pm$ std" None) in
  lb_ ← attr "lb" (lb self);
  y1 ← column lb_ dim;
  ub_ ← attr "ub" (ub self);
  y2 ← column ub_ dim;
  let band :=
    Plt.on_axes ax
      (Plt.fill_between (arange (Z.of_nat context_length_ - 1)) y1 y2 None) in
  let default_lim :=
    Plt.on_axes ax (Plt.set_xlim (inr [0; Z.of_nat context_length_ - 1]%Z)) in
  name ← getitem feature_names dim;
  Ok (acc.1 ++ [groundtruth; mode_line; mean_line; band; default_lim;
                Plt.on_axes ax (Plt.set_ylabel name);
                Plt.on_axes ax (Plt.set_yticklabels [])] ++
               match xlim with
               | Some l => [Plt.on_axes ax (Plt.set_xlim (inl l))]
               | None => []
               end,
      Some ax).

(** [DICL.plot_single_step] of the earlier copy. *)
Definition plot_single_step (feature_names : option (list string))
    (xlim : option (list num)) (savefigpath : option string) (self : pipeline) :
    Plt.outcome num :=
  let feature_names := feature_names_or_default self feature_names in
  finish_plot self savefigpath
    (for_each (seq 0 (n_features self)) (plot_single_step_dim self feature_names xlim)
       ([], None)).

End Main.
End Main.

(** ** Vocabulary of the statements *)

Section EstimatorSpec.
Context {num : Type} `{!Arith num} {E : Type} `{!Sklearn.TransformerMixin num E}.

(** [transform] keeps the rows and maps [F] columns to [C]. *)
Definition transform_shape (e : E) (F C : nat) : Prop :=
  ∀ ctx n, has_shape ctx n F → has_shape (Sklearn.transform e ctx) n C.

(** [inverse_transform] keeps the rows and maps [C] columns to [F]. *)
Definition inverse_transform_shape (e : E) (C F : nat) : Prop :=
  ∀ ctx n, has_shape ctx n C → has_shape (Sklearn.inverse_transform e ctx) n F.

(** [inverse_transform] works row by row: the first [n] rows of its output
    are its output on the first [n] rows. *)
Definition inverse_transform_rowwise (e : E) : Prop :=
  ∀ ctx n, take n (Sklearn.inverse_transform e ctx) = Sklearn.inverse_transform e (take n ctx).

(** [inverse_transform] undoes [transform] on arrays of [F] columns. *)
Definition invertible_on (e : E) (F : nat) : Prop :=
  ∀ ctx n, has_shape ctx n F →
    Sklearn.inverse_transform e (Sklearn.transform e ctx) = ctx.

End EstimatorSpec.

Section DiclSpec.
Context {num : Type} `{!Arith num}.
Context {MinMaxScaler StandardScaler : Type}
        `{!Sklearn.TransformerMixin num MinMaxScaler}
        `{!Sklearn.TransformerMixin num StandardScaler}.
Context {D : Type} `{!Sklearn.TransformerMixin num D}.
Context {Model Tokenizer Tr : Type} `{!ICLTrainer num Model Tokenizer Tr}.

Local Abbreviation pipeline := (DICL num MinMaxScaler StandardScaler D Tr).
Local Abbreviation bundles :=
  (matrix num * matrix num * matrix num * matrix num)%type.

(** "Step 3: Inverse transform the predictions": the block with which
    [predict_single_step] and [predict_multi_step] both end, line for line
    the same. *)
Definition inverse_transform_predictions : M pipeline bundles :=
  self ← get;
  icl_object ← getattr "icl_object" icl_object;
  cols ← lift (for_each (seq 0 (n_components self)) (inverse_rescale_dim self icl_object)
                 {| all_mean := []; all_mode := []; all_lb := []; all_ub := [] |});
  a ← lift (concatenate_axis1 (all_mean cols));
  v ← inverse_transform a;
  modify (set_mean v);;
  a ← lift (concatenate_axis1 (all_mode cols));
  v ← inverse_transform a;
  modify (set_mode v);;
  a ← lift (concatenate_axis1 (all_lb cols));
  v ← inverse_transform a;
  modify (set_lb v);;
  a ← lift (concatenate_axis1 (all_ub cols));
  v ← inverse_transform a;
  modify (set_ub v);;
  mean ← getattr "mean" mean;
  mode ← getattr "mode" mode;
  lb ← getattr "lb" lb;
  ub ← getattr "ub" ub;
  mret (mean, mode, lb, ub).

(** The three arrays of a component after the loop body has mapped them
    back from rescaled units. *)
Definition raw_mean (self : pipeline) (o : ICLObject num) : vector num :=
  (λ x, (x - up_shift self) / rescale_factor self
        * (rescaling_max o - rescaling_min o) + rescaling_min o)%A <$> mean_arr o.
Definition raw_mode (self : pipeline) (o : ICLObject num) : vector num :=
  (λ x, (x - up_shift self) / rescale_factor self
        * (rescaling_max o - rescaling_min o) + rescaling_min o)%A <$> mode_arr o.
Definition raw_sigma (self : pipeline) (o : ICLObject num) : vector num :=
  (λ x, x / rescale_factor self * (rescaling_max o - rescaling_min o))%A <$> sigma_arr o.

(** The object after the four assignments that end a prediction. *)
Definition store_bundles (b : bundles) (self : pipeline) : pipeline :=
  set_ub b.2 (set_lb b.1.2 (set_mode b.1.1.2 (set_mean b.1.1.1 self))).

(** The object as [predict_single_step] leaves it when step 3 begins. *)
Definition single_step_forecast (X : matrix num) (self : pipeline) : pipeline :=
  let self := set_X X (set_context_length (shape0 X) self) in
  let X_transformed := Sklearn.transform (disentangler self) (slice_to X (-1)) in
  let tr :=
    icl (update_context (iclearner self) X_transformed X_transformed
           (zeros_like X_transformed) (shape0 X_transformed) true) 0 true None in
  set_icl_object (compute_statistics tr).1
    (set_iclearner (compute_statistics tr).2 (set_iclearner tr self)).

(** The object as [predict_multi_step] leaves it when step 3 begins. *)
Definition multi_step_forecast (X : matrix num) (prediction_horizon : Z)
    (stochastic if_true_mean_else_mode : bool) (self : pipeline) : pipeline :=
  let self :=
    set_prediction_horizon prediction_horizon
      (set_X X (set_context_length (shape0 X) self)) in
  let X_transformed :=
    Sklearn.transform (disentangler self) (slice_to X (-1 - prediction_horizon)) in
  let tr :=
    icl (update_context (iclearner self) X_transformed X_transformed
           (zeros_like X_transformed) (shape0 X_transformed) true)
      0 stochastic (Some if_true_mean_else_mode) in
  let r := predict_long_horizon_llm tr prediction_horizon stochastic
             if_true_mean_else_mode 1 in
  set_icl_object r.1 (set_iclearner r.2 (set_iclearner tr self)).

(** [np.concatenate(..., axis=1)] of each of the four lists, followed by
    the disentangler's [inverse_transform], gives the bundles [b]. *)
Definition stacked_and_inverted (self : pipeline) (cols : columns num) (b : bundles) : Prop :=
  ∃ a_mean a_mode a_lb a_ub,
    concatenate_axis1 (all_mean cols) = Ok a_mean ∧
    concatenate_axis1 (all_mode cols) = Ok a_mode ∧
    concatenate_axis1 (all_lb cols) = Ok a_lb ∧
    concatenate_axis1 (all_ub cols) = Ok a_ub ∧
    b = (Sklearn.inverse_transform (disentangler self) a_mean,
         Sklearn.inverse_transform (disentangler self) a_mode,
         Sklearn.inverse_transform (disentangler self) a_lb,
         Sklearn.inverse_transform (disentangler self) a_ub).

(** Step 3 in closed form, for trainer output whose arrays all have one
    length. *)
Definition bundles_of (self : pipeline) (objs : list (ICLObject num)) : bundles :=
  (Sklearn.inverse_transform (disentangler self) (transpose (raw_mean self <$> objs)),
   Sklearn.inverse_transform (disentangler self) (transpose (raw_mode self <$> objs)),
   Sklearn.inverse_transform (disentangler self)
     (transpose ((λ o, zip_with sub (raw_mean self o) (raw_sigma self o)) <$> objs)),
   Sklearn.inverse_transform (disentangler self)
     (transpose ((λ o, zip_with add (raw_mean self o) (raw_sigma self o)) <$> objs))).

(** Modelled from the spec: the trainer ([dicl.icl.iclearner], outside the
    source tree) returns, per component, a mean, a mode and a dispersion for
    every step: one record per component, every array with one entry per
    step. *)
Definition stats_cover (n_components steps : nat) (objs : list (ICLObject num)) : Prop :=
  length objs = n_components ∧
  Forall (λ o, length (mean_arr o) = steps ∧ length (mode_arr o) = steps ∧
               length (sigma_arr o) = steps) objs.

(** The trainer calls of [predict_single_step] and of [predict_multi_step]
    on the context [ctx], from the trainer state [tr]. *)
Definition one_step_statistics (tr : Tr) (ctx : matrix num) : list (ICLObject num) :=
  (compute_statistics
     (icl (update_context tr ctx ctx (zeros_like ctx) (shape0 ctx) true) 0 true None)).1.
Definition long_horizon_statistics (tr : Tr) (ctx : matrix num) (prediction_horizon : Z)
    (stochastic if_true_mean_else_mode : bool) : list (ICLObject num) :=
  (predict_long_horizon_llm
     (icl (update_context tr ctx ctx (zeros_like ctx) (shape0 ctx) true)
        0 stochastic (Some if_true_mean_else_mode))
     prediction_horizon stochastic if_true_mean_else_mode 1).1.

(** Modelled from the spec: the one-step statistics cover every position
    of the context; the long-horizon statistics cover [prediction_horizon]
    steps more. *)
Definition one_step_covers (n_components : nat) (tr : Tr) : Prop :=
  ∀ ctx n, has_shape ctx n n_components →
    stats_cover n_components n (one_step_statistics tr ctx).
Definition long_horizon_covers (n_components : nat) (tr : Tr) : Prop :=
  ∀ ctx n prediction_horizon stochastic if_true_mean_else_mode,
    has_shape ctx n n_components → (0 ≤ prediction_horizon)%Z →
    stats_cover n_components (n + Z.to_nat prediction_horizon)
      (long_horizon_statistics tr ctx prediction_horizon stochastic if_true_mean_else_mode).

(** Modelled from the spec: the long-horizon statistics are the one-step
    statistics with [k] further summaries "concatenated after" them, under
    the rescaling minimum and maximum of the initial context.  [o'] continues
    [o]: the same minimum and maximum, and the arrays of [o] followed by [k]
    further entries. *)
Definition continues (k : nat) (o o' : ICLObject num) : Prop :=
  rescaling_min o' = rescaling_min o ∧
  rescaling_max o' = rescaling_max o ∧
  (∃ ext, length ext = k ∧ mean_arr o' = mean_arr o ++ ext) ∧
  (∃ ext, length ext = k ∧ mode_arr o' = mode_arr o ++ ext) ∧
  (∃ ext, length ext = k ∧ sigma_arr o' = sigma_arr o ++ ext).

(** The trainer behaves the same in a single-step call from state [tr] and in
    a multi-step call from state [tr']: on every context, the long-horizon
    statistics continue the one-step statistics. *)
Definition same_trainer_behaviour (n_components : nat) (tr tr' : Tr)
    (prediction_horizon : Z) (stochastic if_true_mean_else_mode : bool) : Prop :=
  ∀ ctx n, has_shape ctx n n_components →
    Forall2 (continues (Z.to_nat prediction_horizon))
      (one_step_statistics tr ctx)
      (long_horizon_statistics tr' ctx prediction_horizon stochastic if_true_mean_else_mode).

(** The four lists of columns in closed form, for trainer output whose
    arrays all have one length. *)
Definition columns_of (self : pipeline) (objs : list (ICLObject num)) : columns num :=
  {| all_mean := raw_mean self <$> objs;
     all_mode := raw_mode self <$> objs;
     all_lb := (λ o, zip_with sub (raw_mean self o) (raw_sigma self o)) <$> objs;
     all_ub := (λ o, zip_with add (raw_mean self o) (raw_sigma self o)) <$> objs |}.

(** Two states of a pipeline object with the attributes set by the
    constructor unchanged, the trainer apart. *)
Definition same_configuration (self self' : pipeline) : Prop :=
  n_features self' = n_features self ∧
  n_components self' = n_components self ∧
  rescale_factor self' = rescale_factor self ∧
  up_shift self' = up_shift self ∧
  disentangler self' = disentangler self.

(** A [predict_*] call on [self] has returned [b] and left the object [self']. *)
Definition predict_completed (self : pipeline) (b : bundles) (self' : pipeline) : Prop :=
  (∃ X, predict_single_step X self = (Ok b, self')) ∨
  (∃ X prediction_horizon stochastic if_true_mean_else_mode,
     predict_multi_step X prediction_horizon stochastic if_true_mean_else_mode self
     = (Ok b, self')).

End DiclSpec.

(** ** Worked examples *)

(** A scaler that leaves [F] columns as they are. *)
Definition unit_scaler {num} `{!Arith num} (F : nat) : AffineScaler num :=
  {| scale_ := replicate F one; shift_ := replicate F zero |}.

(** The identity variant on two features, in binary64, with the stub
    trainer and the default [rescale_factor] and [up_shift]. *)
Definition example_vICL :
    DICL float (AffineScaler float) (AffineScaler float) IdentityTransformer
      (StubTrainer float) :=
  vICL_init (unit_scaler 2) (unit_scaler 2) 2 tt tt
    default_rescale_factor default_up_shift.

(** A window of four observations of two features; in its first three
    rows the first feature is constant. *)
Definition example_window : matrix float := [[1; 2]; [1; 3]; [1; 5]; [2; 4]]%float.

(** The bundles [predict_single_step] returns on it, and the object it
    leaves. *)
Definition example_bundles :
    matrix float * matrix float * matrix float * matrix float :=
  ([[1; 2]; [1; 2]; [1; 2]], [[1; 2]; [1; 2]; [1; 2]],
   [[1; 2]; [1; 2]; [1; 2]], [[1; 2]; [1; 2]; [1; 2]])%float.
Definition example_predicted :
    DICL float (AffineScaler float) (AffineScaler float) IdentityTransformer
      (StubTrainer float) :=
  (predict_single_step example_window example_vICL).2.

(** A window of two observations: the forecast of its second row is
    [[0; 0]]. *)
Definition error_window : matrix float := [[0; 0]; [3; 4]]%float.

(** The identity variant over the real numbers, with scalers that do
    change the data. *)
Definition example_scaler_R : AffineScaler R :=
  {| scale_ := [2; 4]%R; shift_ := [1; -1]%R |}.
Definition example_vICL_R :
    DICL R (AffineScaler R) (AffineScaler R) IdentityTransformer (StubTrainer R) :=
  vICL_init example_scaler_R example_scaler_R 2 tt tt
    default_rescale_factor default_up_shift.
Definition example_window_R : matrix R := [[1; 2]; [1; 3]; [1; 5]; [2; 4]]%R.

(** ** Vocabulary of the further statements *)

Section StoredSpec.
Context {num : Type} `{!Arith num}.
Context {MinMaxScaler StandardScaler : Type}
        `{!Sklearn.TransformerMixin num MinMaxScaler}
        `{!Sklearn.TransformerMixin num StandardScaler}.
Context {D : Type} `{!Sklearn.TransformerMixin num D}.
Context {Model Tokenizer Tr : Type} `{!ICLTrainer num Model Tokenizer Tr}.

Local Abbreviation pipeline := (DICL num MinMaxScaler StandardScaler D Tr).
Local Abbreviation bundles :=
  (matrix num * matrix num * matrix num * matrix num)%type.

(** Step 3 on the trainer output [objs], outcome by outcome: the loop or a
    concatenation raises, and the bundles assigned before stay assigned. *)
Definition step3 (objs : list (ICLObject num)) (self : pipeline) : result bundles * pipeline :=
  match for_each (seq 0 (n_components self)) (inverse_rescale_dim self objs)
          {| all_mean := []; all_mode := []; all_lb := []; all_ub := [] |} with
  | Raise e => (Raise e, self)
  | Ok cols =>
      match concatenate_axis1 (all_mean cols) with
      | Raise e => (Raise e, self)
      | Ok a_mean =>
          let mean_ := Sklearn.inverse_transform (disentangler self) a_mean in
          match concatenate_axis1 (all_mode cols) with
          | Raise e => (Raise e, set_mean mean_ self)
          | Ok a_mode =>
              let mode_ := Sklearn.inverse_transform (disentangler self) a_mode in
              match concatenate_axis1 (all_lb cols) with
              | Raise e => (Raise e, set_mode mode_ (set_mean mean_ self))
              | Ok a_lb =>
                  let lb_ := Sklearn.inverse_transform (disentangler self) a_lb in
                  match concatenate_axis1 (all_ub cols) with
                  | Raise e => (Raise e, set_lb lb_ (set_mode mode_ (set_mean mean_ self)))
                  | Ok a_ub =>
                      let ub_ := Sklearn.inverse_transform (disentangler self) a_ub in
                      (Ok (mean_, mode_, lb_, ub_),
                       set_ub ub_ (set_lb lb_ (set_mode mode_ (set_mean mean_ self))))
                  end
              end
          end
      end
  end.

(** The object as the earlier copy's [predict_single_step] leaves it when
    step 3 begins: the trainer output is not stored. *)
Definition main_single_step_forecast (X : matrix num) (self : pipeline) : pipeline :=
  let self := set_X X (set_context_length (shape0 X) self) in
  let X_transformed := Sklearn.transform (disentangler self) (slice_to X (-1)) in
  let tr :=
    icl (update_context (iclearner self) X_transformed X_transformed
           (zeros_like X_transformed) (shape0 X_transformed) true) 0 true None in
  set_iclearner (compute_statistics tr).2 (set_iclearner tr self).

(** Two objects with the same attributes, [icl_object] apart. *)
Definition same_but_icl_object (self self' : pipeline) : Prop :=
  n_features self' = n_features self ∧
  n_components self' = n_components self ∧
  rescale_factor self' = rescale_factor self ∧
  up_shift self' = up_shift self ∧
  disentangler self' = disentangler self ∧
  iclearner self' = iclearner self ∧
  context_length self' = context_length self ∧
  X self' = X self ∧
  prediction_horizon self' = prediction_horizon self ∧
  mean self' = mean self ∧ mode self' = mode self ∧
  lb self' = lb self ∧ ub self' = ub self.

(** The object holds a forecast of a window of [T] rows and [F] columns:
    the window, its length, and four bundles of [T - 1] rows and [F]
    columns. *)
Definition forecast_stored (self : pipeline) (T F : nat) : Prop :=
  n_features self = F ∧
  context_length self = Some T ∧
  (∃ a, X self = Some a ∧ has_shape a T F) ∧
  (∃ a, mean self = Some a ∧ has_shape a (T - 1) F) ∧
  (∃ a, mode self = Some a ∧ has_shape a (T - 1) F) ∧
  (∃ a, lb self = Some a ∧ has_shape a (T - 1) F) ∧
  (∃ a, ub self = Some a ∧ has_shape a (T - 1) F).

End StoredSpec.

(** ** Vocabulary of the statements on plots *)

Section PlotSpec.
Context {num : Type} `{!Arith num}.

(** The names given cover the [F] features; the default names always do. *)
Definition feature_names_cover (F : nat) (feature_names : option (list string)) : Prop :=
  match feature_names with
  | Some (name :: names) => F ≤ length (name :: names)
  | _ => True
  end.

(** A call on one of the first [F] axes of the grid, or on [plt]. *)
Definition within_axes (F : nat) (e : Plt.event num) : Prop :=
  match e with
  | Plt.on_axes ax _ => ax < F
  | Plt.on_plt _ => True
  end.


(** The calls that set the limits of the x axis, and the others. *)
Definition is_set_xlim (e : Plt.event num) : bool :=
  match e with
  | Plt.on_axes _ (Plt.set_xlim _) => true
  | _ => false
  end.
Definition without_xlim (events : list (Plt.event num)) : list (Plt.event num) :=
  List.filter (λ e, negb (is_set_xlim e)) events.

(** The limits of the x axis of the axes [ax] after the calls: those set
    last. *)
Definition xlim_on (ax : nat) (events : list (Plt.event num)) :
    option (list num + list Z) :=
  last (omap (λ e, match e with
                   | Plt.on_axes a (Plt.set_xlim l) => if a =? ax then Some l else None
                   | _ => None
                   end) events).

(** A call without the colour of the mean curve or of a band. *)
Definition without_mean_color (e : Plt.event num) : Plt.event num :=
  match e with
  | Plt.on_axes ax (Plt.plot x y label color) =>
      if String.eqb label "mean $\pm$ std" then Plt.on_axes ax (Plt.plot x y label None)
      else e
  | Plt.on_axes ax (Plt.fill_between x y1 y2 color) =>
      Plt.on_axes ax (Plt.fill_between x y1 y2 None)
  | _ => e
  end.

(** Two runs of a plotting method raise the same exception, or make the
    same calls, with the same data and colours, apart from the colour of
    the mean curve and of the band and from the place of the calls that set
    the limits of the x axis, and leave the same limits on every axes. *)
Definition same_drawing (o o' : Plt.outcome num) : Prop :=
  match o, o' with
  | Plt.Drawn events, Plt.Drawn events' =>
      without_xlim (without_mean_color <$> events)
      = without_xlim (without_mean_color <$> events') ∧
      ∀ ax, xlim_on ax events = xlim_on ax events'
  | Plt.Raised e, Plt.Raised e' => e = e'
  | Plt.RaisedUnboundLocal name, Plt.RaisedUnboundLocal name' => name = name'
  | _, _ => False
  end.

End PlotSpec.

Section PlotCopiesSpec.
Context {num : Type} `{!Arith num}.

(** The accumulators of the loops of two runs after the same number of
    rounds, and the results of a round. *)
Definition same_so_far (acc acc' : list (Plt.event num) * option nat) : Prop :=
  without_xlim (without_mean_color <$> acc.1)
  = without_xlim (without_mean_color <$> acc'.1) ∧
  (∀ ax, xlim_on ax acc.1 = xlim_on ax acc'.1) ∧
  acc.2 = acc'.2.
Definition same_result (r r' : result (list (Plt.event num) * option nat)) : Prop :=
  match r, r' with
  | Ok acc, Ok acc' => same_so_far acc acc'
  | Raise e, Raise e' => e = e'
  | _, _ => False
  end.

End PlotCopiesSpec.

(** ** Further worked examples *)

(** The object [predict_multi_step] leaves on the example window, for the
    horizon 1. *)
Definition example_multi_predicted :
    DICL float (AffineScaler float) (AffineScaler float) IdentityTransformer
      (StubTrainer float) :=
  (predict_multi_step example_window 1 false false example_vICL).2.


(** A window of one observation of three features. *)
Definition wide_window : matrix float := [[1; 2; 3]]%float.

(** The identity variant configured with no feature. *)
Definition example_no_features :
    DICL float (AffineScaler float) (AffineScaler float) IdentityTransformer
      (StubTrainer float) :=
  vICL_init (unit_scaler 0) (unit_scaler 0) 0 tt tt
    default_rescale_factor default_up_shift.

(** The object [predict_single_step] leaves on the example window over the
    real numbers. *)
Definition example_predicted_R :
    DICL R (AffineScaler R) (AffineScaler R) IdentityTransformer (StubTrainer R) :=
  (predict_single_step example_window_R example_vICL_R).2.

(** ** Vocabulary of the statements on binary64 *)

(** [np.isfinite] and [np.isnan] of a binary64 number. *)
Definition isfinite (x : float) : bool :=
  match FloatOps.Prim2SF x with
  | SpecFloat.S754_zero _ | SpecFloat.S754_finite _ _ _ => true
  | _ => false
  end.
Definition isnan (x : float) : bool :=
  match FloatOps.Prim2SF x with
  | SpecFloat.S754_nan => true
  | _ => false
  end.

(** What a degenerate range leaves of a statistic: the recorded minimum [m]
    where the minimum and the statistic are finite, NaN where one is not. *)
Definition min_or_nan (m : float) (finite : bool) (r : float) : Prop :=
  if finite then PrimFloat.eqb r m = true else isnan r = true.

(** Two binary64 values that are the same, or two zeros. *)
Definition SFsame (a b : SpecFloat.spec_float) : Prop :=
  a = b ∨ ∃ s s', a = SpecFloat.S754_zero s ∧ b = SpecFloat.S754_zero s'.

Section DegenerateSpec.
Context {MinMaxScaler StandardScaler D Tr : Type}.

(** A column of a component with a degenerate range and the recorded
    minimum [m]: every entry is [m] where [m] and the trainer's statistic,
    unshifted and unscaled, are finite, and NaN where one is not. *)
Definition degenerate_column (self : DICL float MinMaxScaler StandardScaler D Tr)
    (m : float) (stats column : vector float) : Prop :=
  Forall2 (λ x r,
    min_or_nan m
      (isfinite m && isfinite ((x - up_shift self) / rescale_factor self)%float) r)
    stats column.

(** The same for a bound, which takes the mean and the dispersion. *)
Definition degenerate_bound (self : DICL float MinMaxScaler StandardScaler D Tr)
    (m : float) (mean_stats sigma_stats column : vector float) : Prop :=
  Forall2 (λ (xs : float * float) r,
    min_or_nan m
      (isfinite m &&
       isfinite ((xs.1 - up_shift self) / rescale_factor self)%float &&
       isfinite (xs.2 / rescale_factor self)%float) r)
    (zip mean_stats sigma_stats) column.

End DegenerateSpec.

(** The identity variant on one feature, in binary64, behind a fitted
    min-max stage of scale 3 and a standardization stage that changes
    nothing. *)
Definition example_scaler_three : AffineScaler float :=
  {| scale_ := [3]%float; shift_ := [0]%float |}.
Definition example_vICL_three :
    DICL float (AffineScaler float) (AffineScaler float) IdentityTransformer
      (StubTrainer float) :=
  vICL_init example_scaler_three (unit_scaler 1) 1 tt tt
    default_rescale_factor default_up_shift.

(** The identity variant on one feature, in binary64, with scalers that
    change nothing, and a trainer output for it with a degenerate range
    ([max = min = 2]), an infinite mean and mode at the second step and an
    infinite dispersion at the third. *)
Definition example_vICL_one :
    DICL float (AffineScaler float) (AffineScaler float) IdentityTransformer
      (StubTrainer float) :=
  vICL_init (unit_scaler 1) (unit_scaler 1) 1 tt tt
    default_rescale_factor default_up_shift.
Definition example_degenerate_object : ICLObject float :=
  {| rescaling_min := 2; rescaling_max := 2;
     mean_arr := [3; infinity; 100]; mode_arr := [3; infinity; 100];
     sigma_arr := [1; 1; infinity] |}%float.

(** The binary64 numbers nearest to 0.1 and to 0.10000000000000002, one
    unit in the last place apart. *)
Definition tenth : float := 0x1.999999999999ap-4%float.
Definition tenth_above : float := 0x1.999999999999bp-4%float.

(** * Properties *)

(** ** The monads *)

Lemma bind_Ok {A B} (a : A) (f : A → result B) : (Ok a ≫= f) = f a.
Proof. done. Qed.

Lemma bind_Ok_inv {A B} (r : result A) (f : A → result B) (b : B) :
  (r ≫= f) = Ok b → ∃ a, r = Ok a ∧ f a = Ok b.
Proof. destruct r as [a|e]; [|done]. intros Hf. by exists a. Qed.

Lemma for_each_cons {A V} (x : A) (l : list A) (body : A → V → result V) (v : V) :
  for_each (x :: l) body v = (body x v ≫= for_each l body).
Proof. done. Qed.

(** Reading an attribute. *)
Lemma bind_getattr {S A B} (name : string) (field : S → option A) (f : A → M S B) (s : S) :
  (getattr name field ≫= f) s =
  match field s with
  | Some v => f v s
  | None => (Raise (AttributeError name), s)
  end.
Proof. unfold mbind, M_bind, getattr. by destruct (field s). Qed.

Lemma bind_lift {S A B} (r : result A) (f : A → M S B) (s : S) :
  (lift r ≫= f) s =
  match r with
  | Ok a => f a s
  | Raise e => (Raise e, s)
  end.
Proof. unfold mbind, M_bind, lift. by destruct r. Qed.

Lemma bind_get {S B} (f : S → M S B) (s : S) : (get ≫= f) s = f s s.
Proof. done. Qed.

Lemma bind_modify {S B} (g : S → S) (f : unit → M S B) (s : S) :
  (modify g ≫= f) s = f tt (g s).
Proof. done. Qed.

Lemma bind_assert {S B} (cond : bool) (f : unit → M S B) (s : S) :
  (Py.assert cond ≫= f) s = if cond then f tt s else (Raise AssertionError, s).
Proof. by destruct cond. Qed.

(** ** Arrays *)

Section NpFacts.
Context {num : Type} `{!Arith num}.
Implicit Types (a : matrix num) (v : vector num) (cols : list (vector num)).

Lemma has_shape_nil c : has_shape (num := num) [] 0 c.
Proof. by split. Qed.

Lemma has_shape_take a r c k : has_shape a r c → has_shape (take k a) (k `min` r) c.
Proof.
  intros [Hr Hc]. split.
  - rewrite length_take. lia.
  - by apply Forall_take.
Qed.

Lemma has_shape_drop a r c k : has_shape a r c → has_shape (drop k a) (r - k) c.
Proof.
  intros [Hr Hc]. split.
  - rewrite length_drop. lia.
  - by apply Forall_drop.
Qed.

Lemma shape1_has_shape a r c : has_shape a r c → 0 < r → shape1 a = c.
Proof.
  intros [Hr Hc] Hpos. destruct a as [|row a]; simpl in *; [lia|].
  by inversion Hc.
Qed.

(** Python's [a[:-k]] for [k >= 1] drops the last [k] rows. *)
Lemma slice_to_neg {A} (l : list A) (k : Z) :
  (0 < k)%Z → slice_to l (- k) = take (length l - Z.to_nat k) l.
Proof.
  intros Hk. unfold slice_to.
  destruct (Z.ltb_spec (- k) 0); [|lia].
  f_equal. lia.
Qed.

(** Python's [a[k:]] for [k >= 0] drops the first [k] rows. *)
Lemma slice_from_nonneg {A} (l : list A) (k : Z) :
  (0 ≤ k)%Z → slice_from l k = drop (Z.to_nat k) l.
Proof.
  intros Hk. unfold slice_from.
  destruct (Z.ltb_spec k 0); [lia|done].
Qed.

Lemma transpose_cons v cols :
  cols ≠ [] → transpose (v :: cols) = zip_with cons v (transpose cols).
Proof. by destruct cols. Qed.

(** The transpose of [C >= 1] columns of length [n] has [n] rows of [C]
    entries. *)
Lemma transpose_shape cols n :
  cols ≠ [] → Forall (λ c : vector num, length c = n) cols →
  has_shape (transpose cols) n (length cols).
Proof.
  induction cols as [|c cols IH]; [done|].
  intros _ Hall. apply Forall_cons in Hall as [Hc Hall].
  destruct cols as [|c' cols].
  - simpl. split; [by rewrite length_fmap|].
    apply Forall_fmap, Forall_forall. by intros.
  - destruct IH as [IHr IHc]; [done..|].
    rewrite transpose_cons by done. split.
    + rewrite length_zip_with. lia.
    + apply Forall_forall. intros row Hrow.
      apply elem_of_lookup_zip_with in Hrow as (i & x & r & -> & _ & Hr).
      rewrite Forall_forall in IHc. simpl. f_equal.
      apply IHc. by eapply list_elem_of_lookup_2.
Qed.

(** Keeping the first [k] rows of stacked columns is stacking the first [k]
    entries of every column. *)
Lemma take_transpose cols k : take k (transpose cols) = transpose (take k <$> cols).
Proof.
  induction cols as [|c cols IH]; [by destruct k|].
  destruct cols as [|c' cols].
  - simpl. by rewrite fmap_take.
  - rewrite transpose_cons by done.
    rewrite !fmap_cons. rewrite (transpose_cons (take k c)) by done.
    rewrite <- fmap_cons.
    by rewrite zip_with_take, IH.
Qed.

Lemma concatenate_axis1_uniform cols n :
  cols ≠ [] → Forall (λ c : vector num, length c = n) cols →
  concatenate_axis1 cols = Ok (transpose cols).
Proof.
  destruct cols as [|c cs]; [done|].
  intros _ Hall. apply Forall_cons in Hall as [Hc Hall].
  unfold concatenate_axis1.
  replace (forallb (λ d : vector num, length d =? length c) cs) with true; [done|].
  symmetry. apply forallb_forall. intros d Hd.
  apply Nat.eqb_eq. rewrite Hc.
  rewrite Forall_forall in Hall. apply Hall. by apply list_elem_of_In.
Qed.

Lemma concatenate_axis1_Ok cols a :
  concatenate_axis1 cols = Ok a →
  a = transpose cols ∧ cols ≠ [] ∧
  ∃ n, Forall (λ c : vector num, length c = n) cols.
Proof.
  destruct cols as [|c cs]; [done|]. unfold concatenate_axis1.
  destruct (forallb _ cs) eqn:Hall; [|done].
  intros [= <-]. split; [done|]. split; [done|]. exists (length c).
  apply Forall_cons. split; [done|].
  apply Forall_forall. intros d Hd.
  rewrite forallb_forall in Hall. apply Nat.eqb_eq, Hall. by apply list_elem_of_In.
Qed.

(** On arrays of one length, broadcasting is entry-by-entry. *)
Lemma broadcast1_same_length f v1 v2 :
  length v1 = length v2 → broadcast1 f v1 v2 = Ok (zip_with f v1 v2).
Proof. intros Hlen. unfold broadcast1. by rewrite Hlen, Nat.eqb_refl. Qed.

Lemma zip_with_zip_with_cons (f : num → num → num) v1 v2 a1 a2 :
  zip_with (zip_with f) (zip_with cons v1 a1) (zip_with cons v2 a2) =
  zip_with cons (zip_with f v1 v2) (zip_with (zip_with f) a1 a2).
Proof.
  revert v2 a1 a2.
  induction v1 as [|x v1 IH]; intros [|y v2] [|r1 a1] [|r2 a2]; simpl; try done.
  by rewrite IH.
Qed.

(** Combining two lists of columns entry by entry and stacking the result
    is combining the two stacked arrays entry by entry. *)
Lemma transpose_zip_with (f : num → num → num) cols1 : ∀ cols2,
  length cols1 = length cols2 →
  transpose (zip_with (zip_with f) cols1 cols2) =
  zip_with (zip_with f) (transpose cols1) (transpose cols2).
Proof.
  induction cols1 as [|c1 cols1 IH]; intros [|c2 cols2] Hlen; try done.
  destruct cols1 as [|d1 cols1], cols2 as [|d2 cols2]; try done.
  - simpl. clear. revert c2. induction c1 as [|x c1 IH]; intros [|y c2]; simpl; try done.
    by rewrite IH.
  - rewrite (transpose_cons c1), (transpose_cons c2) by done.
    rewrite zip_with_zip_with_cons, <- IH by (simpl in *; lia).
    by rewrite <- transpose_cons.
Qed.

End NpFacts.

(** ** Running a prediction *)

Section DiclFacts.
Context {num : Type} `{!Arith num}.
Context {MinMaxScaler StandardScaler : Type}
        `{!Sklearn.TransformerMixin num MinMaxScaler}
        `{!Sklearn.TransformerMixin num StandardScaler}.
Context {D : Type} `{!Sklearn.TransformerMixin num D}.
Context {Model Tokenizer Tr : Type} `{!ICLTrainer num Model Tokenizer Tr}.

Local Abbreviation pipeline := (DICL num MinMaxScaler StandardScaler D Tr).
Implicit Types (self : pipeline) (o : ICLObject num) (objs : list (ICLObject num)).

Ltac run :=
  unfold mbind, mret, M_bind, M_ret, get, modify, lift, raise, getattr, Py.assert,
    transform, inverse_transform in *;
  simpl in *.

Lemma inverse_rescale_dim_Some self objs dim o acc :
  objs !! dim = Some o →
  inverse_rescale_dim self objs dim acc =
  (lb ← broadcast1 sub (raw_mean self o) (raw_sigma self o);
   ub ← broadcast1 add (raw_mean self o) (raw_sigma self o);
   Ok {| all_mean := all_mean acc ++ [raw_mean self o];
         all_mode := all_mode acc ++ [raw_mode self o];
         all_lb := all_lb acc ++ [lb];
         all_ub := all_ub acc ++ [ub] |}).
Proof. intros Ho. unfold inverse_rescale_dim, getitem. by rewrite Ho. Qed.

Lemma inverse_rescale_dim_None self objs dim acc :
  objs !! dim = None → inverse_rescale_dim self objs dim acc = Raise IndexError.
Proof. intros Ho. unfold inverse_rescale_dim, getitem. by rewrite Ho. Qed.

(** The loop, read off a successful run: it visited the records
    [dim = a, ..., a + n - 1] of [icl_object] and appended one column per
    record to each list. *)
Lemma for_each_inverse_rescale self objs n : ∀ a acc cols,
  for_each (seq a n) (inverse_rescale_dim self objs) acc = Ok cols →
  ∃ ls us,
    length (take n (drop a objs)) = n ∧
    all_mean cols = all_mean acc ++ (raw_mean self <$> take n (drop a objs)) ∧
    all_mode cols = all_mode acc ++ (raw_mode self <$> take n (drop a objs)) ∧
    all_lb cols = all_lb acc ++ ls ∧
    all_ub cols = all_ub acc ++ us ∧
    Forall2 (λ o l, broadcast1 sub (raw_mean self o) (raw_sigma self o) = Ok l)
      (take n (drop a objs)) ls ∧
    Forall2 (λ o u, broadcast1 add (raw_mean self o) (raw_sigma self o) = Ok u)
      (take n (drop a objs)) us.
Proof.
  induction n as [|n IH]; intros a acc cols.
  - intros [= <-]. exists [], []. simpl. by rewrite !app_nil_r.
  - rewrite <- cons_seq, for_each_cons.
    intros (acc' & Hbody & Hrest)%bind_Ok_inv.
    destruct (objs !! a) as [o|] eqn:Ho;
      [|by rewrite inverse_rescale_dim_None in Hbody].
    rewrite (inverse_rescale_dim_Some _ _ _ o) in Hbody by done.
    apply bind_Ok_inv in Hbody as (l & Hl & Hbody).
    apply bind_Ok_inv in Hbody as (u & Hu & [= <-]).
    apply IH in Hrest as (ls & us & Hlen & Hm & Hmo & Hlb & Hub & Hls & Hus).
    simpl in Hm, Hmo, Hlb, Hub.
    rewrite (drop_S _ _ _ Ho), firstn_cons.
    exists (l :: ls), (u :: us).
    rewrite Hm, Hmo, Hlb, Hub, <- !app_assoc, !fmap_cons, length_cons, Hlen.
    repeat split; by try constructor.
Qed.

(** The loop, run forward: when the records [dim = a, ..., a + n - 1] exist
    and each has a mean and a dispersion array of one length, the loop
    returns, and each bound column is the mean column minus/plus the
    dispersion column, entry by entry. *)
Lemma for_each_inverse_rescale_covered self objs n : ∀ a acc,
  length (take n (drop a objs)) = n →
  Forall (λ o, length (mean_arr o) = length (sigma_arr o)) (take n (drop a objs)) →
  for_each (seq a n) (inverse_rescale_dim self objs) acc =
  Ok {| all_mean := all_mean acc ++ (raw_mean self <$> take n (drop a objs));
        all_mode := all_mode acc ++ (raw_mode self <$> take n (drop a objs));
        all_lb := all_lb acc ++
          ((λ o, zip_with sub (raw_mean self o) (raw_sigma self o))
             <$> take n (drop a objs));
        all_ub := all_ub acc ++
          ((λ o, zip_with add (raw_mean self o) (raw_sigma self o))
             <$> take n (drop a objs)) |}.
Proof.
  induction n as [|n IH]; intros a acc.
  - intros _ _. simpl. rewrite !app_nil_r. by destruct acc.
  - destruct (objs !! a) as [o|] eqn:Ho.
    2:{ apply lookup_ge_None in Ho. by rewrite drop_ge. }
    rewrite (drop_S _ _ _ Ho), firstn_cons, length_cons.
    intros [= Hlen] [Ho_len Hall]%Forall_cons.
    rewrite <- cons_seq, for_each_cons.
    rewrite (inverse_rescale_dim_Some _ _ _ o) by done.
    rewrite !broadcast1_same_length
      by (unfold raw_mean, raw_sigma; by rewrite !length_fmap).
    rewrite !bind_Ok, IH by done. simpl.
    by rewrite <- !app_assoc.
Qed.

(** Step 3, read off a successful run. *)
Lemma inverse_transform_predictions_Ok self b self' :
  inverse_transform_predictions self = (Ok b, self') →
  ∃ objs cols,
    icl_object self = Some objs ∧
    for_each (seq 0 (n_components self)) (inverse_rescale_dim self objs)
      {| all_mean := []; all_mode := []; all_lb := []; all_ub := [] |} = Ok cols ∧
    stacked_and_inverted self cols b ∧
    self' = store_bundles b self.
Proof.
  unfold inverse_transform_predictions. run.
  destruct (icl_object self) as [objs|] eqn:Hobjs; [|done].
  destruct (for_each _ _ _) as [cols|] eqn:Hcols; [|done].
  destruct (concatenate_axis1 (all_mean cols)) as [a_mean|] eqn:Hmean; [|done].
  destruct (concatenate_axis1 (all_mode cols)) as [a_mode|] eqn:Hmode; [|done].
  destruct (concatenate_axis1 (all_lb cols)) as [a_lb|] eqn:Hlb; [|done].
  destruct (concatenate_axis1 (all_ub cols)) as [a_ub|] eqn:Hub; [|done].
  intros [= <- <-]. exists objs, cols. repeat split; [done|].
  by exists a_mean, a_mode, a_lb, a_ub.
Qed.

(** Step 3, run forward on trainer output of the contracted size. *)
Lemma inverse_transform_predictions_covered self objs steps :
  icl_object self = Some objs →
  0 < n_components self →
  stats_cover (n_components self) steps objs →
  inverse_transform_predictions self =
  (Ok (bundles_of self objs), store_bundles (bundles_of self objs) self).
Proof.
  intros Hobjs Hpos [Hlen Hall].
  assert (Hne : objs ≠ []) by (intros ->; simpl in Hlen; lia).
  unfold inverse_transform_predictions. run. rewrite Hobjs.
  rewrite for_each_inverse_rescale_covered; simpl; rewrite drop_0, <- Hlen, firstn_all.
  2:{ done. }
  2:{ eapply Forall_impl; [done|]. intros o (-> & _ & ->). done. }
  rewrite !(concatenate_axis1_uniform _ steps); try by destruct objs.
  - apply Forall_fmap. eapply Forall_impl; [done|]. intros o (Hm & _ & Hs). simpl.
    rewrite length_zip_with. unfold raw_mean, raw_sigma. rewrite !length_fmap. lia.
  - apply Forall_fmap. eapply Forall_impl; [done|]. intros o (Hm & _ & Hs). simpl.
    rewrite length_zip_with. unfold raw_mean, raw_sigma. rewrite !length_fmap. lia.
  - apply Forall_fmap. eapply Forall_impl; [done|]. intros o (_ & Hm & _). simpl.
    unfold raw_mode. by rewrite length_fmap.
  - apply Forall_fmap. eapply Forall_impl; [done|]. intros o (Hm & _ & _). simpl.
    unfold raw_mean. by rewrite length_fmap.
Qed.

Lemma bind_transform {B} X (f : matrix num → M pipeline B) self :
  (transform X ≫= f) self = f (Sklearn.transform (disentangler self) X) self.
Proof. done. Qed.

(** The two prediction methods: the assertion, the state at the start of
    step 3, and step 3. *)
Lemma predict_single_step_eq X self :
  predict_single_step X self =
  if shape1 X =? n_features self
  then inverse_transform_predictions (single_step_forecast X self)
  else (Raise AssertionError, self).
Proof.
  unfold predict_single_step. rewrite bind_get, bind_assert.
  destruct (shape1 X =? n_features self); [|done].
  rewrite !bind_modify, bind_transform, !bind_modify, bind_get.
  unfold single_step_forecast, inverse_transform_predictions. cbv zeta.
  cbn [iclearner set_iclearner disentangler set_X set_context_length].
  destruct (compute_statistics _) as [stats tr].
  by rewrite !bind_modify.
Qed.

Lemma predict_multi_step_eq X prediction_horizon stochastic if_true_mean_else_mode self :
  predict_multi_step X prediction_horizon stochastic if_true_mean_else_mode self =
  if shape1 X =? n_features self
  then inverse_transform_predictions
         (multi_step_forecast X prediction_horizon stochastic if_true_mean_else_mode self)
  else (Raise AssertionError, self).
Proof.
  unfold predict_multi_step. rewrite bind_get, bind_assert.
  destruct (shape1 X =? n_features self); [|done].
  rewrite !bind_modify, bind_transform, !bind_modify, bind_get.
  unfold multi_step_forecast, inverse_transform_predictions. cbv zeta.
  cbn [iclearner set_iclearner disentangler set_X set_context_length
       set_prediction_horizon].
  destruct (predict_long_horizon_llm _ _ _ _ _) as [stats tr].
  by rewrite !bind_modify.
Qed.

(** A completed prediction, component by component: the columns that
    were stacked and inverted. *)
Lemma predict_completed_columns self b self' :
  predict_completed self b self' →
  ∃ objs cols,
    icl_object self' = Some objs ∧
    stacked_and_inverted self cols b ∧
    all_mean cols = raw_mean self <$> take (n_components self) objs ∧
    all_mode cols = raw_mode self <$> take (n_components self) objs ∧
    length (take (n_components self) objs) = n_components self ∧
    Forall2 (λ o l, broadcast1 sub (raw_mean self o) (raw_sigma self o) = Ok l)
      (take (n_components self) objs) (all_lb cols) ∧
    Forall2 (λ o u, broadcast1 add (raw_mean self o) (raw_sigma self o) = Ok u)
      (take (n_components self) objs) (all_ub cols).
Proof.
  intros [(X & Hrun)|(X & h & st & m & Hrun)].
  - rewrite predict_single_step_eq in Hrun.
    destruct (shape1 X =? n_features self); [|done].
    apply inverse_transform_predictions_Ok in Hrun as (objs & cols & Hobjs & Hloop & Hinv & ->).
    apply for_each_inverse_rescale in Hloop as (ls & us & Hlen & Hm & Hmo & Hl & Hu & Hls & Hus).
    rewrite drop_0 in *. simpl in Hl, Hu. subst ls us.
    exists objs, cols.
    split; [exact Hobjs|]. split; [exact Hinv|]. split; [exact Hm|].
    split; [exact Hmo|]. split; [exact Hlen|]. split; [exact Hls|exact Hus].
  - rewrite predict_multi_step_eq in Hrun.
    destruct (shape1 X =? n_features self); [|done].
    apply inverse_transform_predictions_Ok in Hrun as (objs & cols & Hobjs & Hloop & Hinv & ->).
    apply for_each_inverse_rescale in Hloop as (ls & us & Hlen & Hm & Hmo & Hl & Hu & Hls & Hus).
    rewrite drop_0 in *. simpl in Hl, Hu. subst ls us.
    exists objs, cols.
    split; [exact Hobjs|]. split; [exact Hinv|]. split; [exact Hm|].
    split; [exact Hmo|]. split; [exact Hlen|]. split; [exact Hls|exact Hus].
Qed.

End DiclFacts.

(** ** Reconstruction of the forecast *)

Section Reconstruction.
Context {num : Type} `{!Arith num}.
Context {MinMaxScaler StandardScaler : Type}
        `{!Sklearn.TransformerMixin num MinMaxScaler}
        `{!Sklearn.TransformerMixin num StandardScaler}.
Context {D : Type} `{!Sklearn.TransformerMixin num D}.
Context {Model Tokenizer Tr : Type} `{!ICLTrainer num Model Tokenizer Tr}.

Local Abbreviation pipeline := (DICL num MinMaxScaler StandardScaler D Tr).
Implicit Types (self : pipeline) (o : ICLObject num) (objs : list (ICLObject num)).

(** Results determined by the same record are the same list. *)
Lemma Forall2_Ok_fmap {A B} (g : A → result B) (h : A → B) (l : list A) (k : list B) :
  Forall2 (λ x y, g x = Ok y) l k →
  Forall (λ x, g x = Ok (h x)) l →
  k = h <$> l.
Proof.
  induction 1 as [|x y l k Hxy _ IH]; [done|].
  intros [Hx Hl]%Forall_cons. rewrite fmap_cons, <- IH by done.
  f_equal. congruence.
Qed.

(** C2: whenever [predict_single_step] or [predict_multi_step] returns, the
    column stacked for component [c] holds, for the mean and for the mode,
    [(rescaled - up_shift) / rescale_factor * (max - min) + min] of the
    trainer's rescaled array, with the component's recorded [min] and
    [max]; the dispersion that enters the bound columns is
    [rescaled / rescale_factor * (max - min)]: scaled, not unshifted. *)
Theorem rescaled_statistics_mapped_back self b self' :
  predict_completed self b self' →
  ∃ objs cols,
    icl_object self' = Some objs ∧
    stacked_and_inverted self cols b ∧
    ∀ c, c < n_components self →
      ∃ o l u,
        objs !! c = Some o ∧
        all_mean cols !! c =
          Some ((λ x, (x - up_shift self) / rescale_factor self
                      * (rescaling_max o - rescaling_min o) + rescaling_min o)%A
                <$> mean_arr o) ∧
        all_mode cols !! c =
          Some ((λ x, (x - up_shift self) / rescale_factor self
                      * (rescaling_max o - rescaling_min o) + rescaling_min o)%A
                <$> mode_arr o) ∧
        all_lb cols !! c = Some l ∧
        all_ub cols !! c = Some u ∧
        broadcast1 sub
          ((λ x, (x - up_shift self) / rescale_factor self
                 * (rescaling_max o - rescaling_min o) + rescaling_min o)%A
           <$> mean_arr o)
          ((λ x, x / rescale_factor self * (rescaling_max o - rescaling_min o))%A
           <$> sigma_arr o) = Ok l ∧
        broadcast1 add
          ((λ x, (x - up_shift self) / rescale_factor self
                 * (rescaling_max o - rescaling_min o) + rescaling_min o)%A
           <$> mean_arr o)
          ((λ x, x / rescale_factor self * (rescaling_max o - rescaling_min o))%A
           <$> sigma_arr o) = Ok u.
Proof.
  intros (objs & cols & Hobjs & Hinv & Hm & Hmo & Hlen & Hls & Hus)%predict_completed_columns.
  exists objs, cols. do 2 (split; [done|]). intros c Hc.
  destruct (lookup_lt_is_Some_2 (take (n_components self) objs) c) as [o Ho]; [lia|].
  destruct (Forall2_lookup_l _ _ _ _ _ Hls Ho) as (l & Hl & Hsub).
  destruct (Forall2_lookup_l _ _ _ _ _ Hus Ho) as (u & Hu & Hadd).
  exists o, l, u. rewrite Hm, Hmo, !list_lookup_fmap, Ho.
  rewrite lookup_take_lt in Ho by done.
  by repeat split.
Qed.

(** C3: whenever a [predict_*] call returns, the lower and the upper bundle
    are the disentangler's [inverse_transform] of stacked columns, as the
    mean bundle is; the column of component [c] is the raw mean column
    minus, respectively plus, the raw dispersion column, formed in component
    space.  On trainer output of the contracted size the array that is
    inverted is the raw mean array minus (plus) the raw dispersion array,
    entry by entry. *)
Theorem bounds_formed_before_inversion self mean_ mode_ lb_ ub_ self' :
  predict_completed self (mean_, mode_, lb_, ub_) self' →
  ∃ objs cols a_mean a_lb a_ub,
    icl_object self' = Some objs ∧
    concatenate_axis1 (all_mean cols) = Ok a_mean ∧
    concatenate_axis1 (all_lb cols) = Ok a_lb ∧
    concatenate_axis1 (all_ub cols) = Ok a_ub ∧
    mean_ = Sklearn.inverse_transform (disentangler self) a_mean ∧
    lb_ = Sklearn.inverse_transform (disentangler self) a_lb ∧
    ub_ = Sklearn.inverse_transform (disentangler self) a_ub ∧
    (∀ c, c < n_components self →
       ∃ o m l u,
         objs !! c = Some o ∧
         all_mean cols !! c = Some m ∧
         all_lb cols !! c = Some l ∧
         all_ub cols !! c = Some u ∧
         broadcast1 sub m (raw_sigma self o) = Ok l ∧
         broadcast1 add m (raw_sigma self o) = Ok u) ∧
    (∀ steps, stats_cover (n_components self) steps objs →
       a_lb = zip_with (zip_with sub) a_mean (transpose (raw_sigma self <$> objs)) ∧
       a_ub = zip_with (zip_with add) a_mean (transpose (raw_sigma self <$> objs))).
Proof.
  intros (objs & cols & Hobjs & Hinv & Hm & Hmo & Hlen & Hls & Hus)%predict_completed_columns.
  destruct Hinv as (a_mean & a_mode & a_lb & a_ub & Ha_mean & _ & Ha_lb & Ha_ub & [= -> _ -> ->]).
  exists objs, cols, a_mean, a_lb, a_ub. do 7 (split; [done|]). split.
  - intros c Hc.
    destruct (lookup_lt_is_Some_2 (take (n_components self) objs) c) as [o Ho]; [lia|].
    destruct (Forall2_lookup_l _ _ _ _ _ Hls Ho) as (l & Hl & Hsub).
    destruct (Forall2_lookup_l _ _ _ _ _ Hus Ho) as (u & Hu & Hadd).
    exists o, (raw_mean self o), l, u. rewrite Hm, !list_lookup_fmap, Ho.
    rewrite lookup_take_lt in Ho by done.
    by repeat split.
  - intros steps [Hcount Hall].
    rewrite <- Hcount, firstn_all in *.
    assert (Hsame : Forall (λ o, length (raw_mean self o) = length (raw_sigma self o)) objs).
    { eapply Forall_impl; [done|]. intros o (Hme & _ & Hsi).
      unfold raw_mean, raw_sigma. rewrite !length_fmap. congruence. }
    apply concatenate_axis1_Ok in Ha_mean as (-> & _ & _).
    apply concatenate_axis1_Ok in Ha_lb as (-> & _ & _).
    apply concatenate_axis1_Ok in Ha_ub as (-> & _ & _).
    rewrite Hm, <- !transpose_zip_with by (by rewrite !length_fmap).
    rewrite !zip_with_fmap_l, !zip_with_fmap_r, !zip_with_diag.
    split; f_equal.
    + apply (Forall2_Ok_fmap
               (λ o, broadcast1 sub (raw_mean self o) (raw_sigma self o))); [done|].
      eapply Forall_impl; [done|]. intros o Ho. by apply broadcast1_same_length.
    + apply (Forall2_Ok_fmap
               (λ o, broadcast1 add (raw_mean self o) (raw_sigma self o))); [done|].
      eapply Forall_impl; [done|]. intros o Ho. by apply broadcast1_same_length.
Qed.

End Reconstruction.

(** ** Shapes *)

Section Shapes.
Context {num : Type} `{!Arith num}.
Context {MinMaxScaler StandardScaler : Type}
        `{!Sklearn.TransformerMixin num MinMaxScaler}
        `{!Sklearn.TransformerMixin num StandardScaler}.
Context {D : Type} `{!Sklearn.TransformerMixin num D}.
Context {Model Tokenizer Tr : Type} `{!ICLTrainer num Model Tokenizer Tr}.

Local Abbreviation pipeline := (DICL num MinMaxScaler StandardScaler D Tr).
Implicit Types (self : pipeline) (o : ICLObject num) (objs : list (ICLObject num)).

Lemma stats_cover_columns (g : ICLObject num → vector num) C steps objs :
  stats_cover C steps objs → 0 < C →
  (∀ o, length (mean_arr o) = steps ∧ length (mode_arr o) = steps ∧
        length (sigma_arr o) = steps → length (g o) = steps) →
  has_shape (transpose (g <$> objs)) steps C.
Proof.
  intros [Hcount Hall] Hpos Hg.
  rewrite <- Hcount, <- (length_fmap g). apply transpose_shape.
  - destruct objs; simpl in *; [lia|done].
  - apply Forall_fmap. eapply Forall_impl; [done|]. intros o Ho. by apply Hg.
Qed.

(** On trainer output of the contracted size, every bundle has one row per
    step and one column per feature. *)
Lemma bundles_of_shape self objs steps F :
  stats_cover (n_components self) steps objs →
  0 < n_components self →
  inverse_transform_shape (disentangler self) (n_components self) F →
  has_shape (bundles_of self objs).1.1.1 steps F ∧
  has_shape (bundles_of self objs).1.1.2 steps F ∧
  has_shape (bundles_of self objs).1.2 steps F ∧
  has_shape (bundles_of self objs).2 steps F.
Proof.
  intros Hcover Hpos Hinv. unfold bundles_of. cbn [fst snd].
  split; [|split; [|split]]; apply Hinv; (eapply stats_cover_columns; [done..|]);
    intros o (Hme & Hmo & Hsi); cbn beta;
    rewrite ?length_zip_with; unfold raw_mean, raw_mode, raw_sigma;
    rewrite ?length_fmap; lia.
Qed.


End Shapes.

(** ** Single-step and multi-step forecasts of one window *)

Section Horizons.
Context {num : Type} `{!Arith num}.
Context {MinMaxScaler StandardScaler : Type}
        `{!Sklearn.TransformerMixin num MinMaxScaler}
        `{!Sklearn.TransformerMixin num StandardScaler}.
Context {D : Type} `{!Sklearn.TransformerMixin num D}.
Context {Model Tokenizer Tr : Type} `{!ICLTrainer num Model Tokenizer Tr}.

Local Abbreviation pipeline := (DICL num MinMaxScaler StandardScaler D Tr).
Implicit Types (self : pipeline) (o : ICLObject num) (objs : list (ICLObject num)).

Lemma stats_cover_continues C n k objs objs' :
  stats_cover C n objs → Forall2 (continues k) objs objs' →
  stats_cover C (n + k) objs'.
Proof.
  intros [Hcount Hall] Hcont. split.
  - by rewrite <- (Forall2_length _ _ _ Hcont).
  - clear Hcount. induction Hcont as [|o o' objs objs' Ho _ IH]; [done|].
    apply Forall_cons in Hall as [(Hme & Hmo & Hsi) Hall].
    constructor; [|by apply IH].
    destruct Ho as (_ & _ & (e1 & He1 & ->) & (e2 & He2 & ->) & (e3 & He3 & ->)).
    rewrite !length_app. lia.
Qed.

(** The first [n] entries of the columns of a continued record are the
    columns of the record it continues. *)
Lemma continues_take self self' o o' n k :
  same_configuration self self' → continues k o o' →
  length (mean_arr o) = n ∧ length (mode_arr o) = n ∧ length (sigma_arr o) = n →
  take n (raw_mean self' o') = raw_mean self o ∧
  take n (raw_mode self' o') = raw_mode self o ∧
  take n (raw_sigma self' o') = raw_sigma self o.
Proof.
  intros (_ & _ & Hrf & Hup & _) (Hmin & Hmax & (e1 & _ & He1) & (e2 & _ & He2) & (e3 & _ & He3)).
  intros (Hme & Hmo & Hsi).
  unfold raw_mean, raw_mode, raw_sigma.
  rewrite Hrf, Hup, Hmin, Hmax, He1, He2, He3, <- !fmap_take.
  by rewrite <- Hme, take_app_length, Hme, <- Hmo, take_app_length, Hmo, <- Hsi, take_app_length.
Qed.

Lemma continues_columns (g g' : ICLObject num → vector num) n k objs objs' :
  Forall2 (continues k) objs objs' →
  Forall (λ o, length (mean_arr o) = n ∧ length (mode_arr o) = n ∧
               length (sigma_arr o) = n) objs →
  (∀ o o', continues k o o' →
     length (mean_arr o) = n ∧ length (mode_arr o) = n ∧ length (sigma_arr o) = n →
     take n (g' o') = g o) →
  take n <$> (g' <$> objs') = g <$> objs.
Proof.
  intros Hcont Hall Hg.
  induction Hcont as [|o o' objs objs' Ho _ IH]; [done|].
  apply Forall_cons in Hall as [Hlen Hall].
  rewrite !fmap_cons, IH by done. f_equal. by apply Hg.
Qed.

(** C7: for a [T]x[F] window with [T >= 3], rows [0..T-3] of every bundle
    returned by [predict_multi_step(X, 1)] are the bundle returned by
    [predict_single_step(X[:T-1])], when the trainer behaves the same in the
    two calls (its long-horizon statistics continue its one-step statistics
    by one step, with the same recorded minimum and maximum) and the
    disentangler's inverse works row by row. *)
Theorem multi_step_one_step_portion self self' X T F stochastic if_true_mean_else_mode :
  has_shape X T F → 3 ≤ T → F = n_features self → 0 < n_components self →
  same_configuration self self' →
  transform_shape (disentangler self) F (n_components self) →
  inverse_transform_rowwise (disentangler self) →
  one_step_covers (n_components self) (iclearner self) →
  same_trainer_behaviour (n_components self) (iclearner self) (iclearner self') 1
    stochastic if_true_mean_else_mode →
  ∃ mean1 mode1 lb1 ub1 self1 mean2 mode2 lb2 ub2 self2,
    predict_single_step (slice_to X (Z.of_nat T - 1)) self
    = (Ok (mean1, mode1, lb1, ub1), self1) ∧
    predict_multi_step X 1 stochastic if_true_mean_else_mode self'
    = (Ok (mean2, mode2, lb2, ub2), self2) ∧
    take (T - 2) mean2 = mean1 ∧
    take (T - 2) mode2 = mode1 ∧
    take (T - 2) lb2 = lb1 ∧
    take (T - 2) ub2 = ub1.
Proof.
  intros HX HT -> Hpos Hcfg Htr Hrow Hone Hsame.
  pose proof Hcfg as (Hnf & Hnc & Hrf & Hup & Hdis).
  pose proof HX as [HXlen HXrows].
  (* the truncated window and the two contexts *)
  assert (Htrunc : slice_to X (Z.of_nat T - 1) = take (T - 1) X).
  { unfold slice_to. destruct (Z.ltb_spec (Z.of_nat T - 1) 0); [lia|]. f_equal. lia. }
  assert (Hctx1 : slice_to (take (T - 1) X) (-1) = take (T - 2) X).
  { replace (slice_to (take (T - 1) X) (-1))
      with (take (length (take (T - 1) X) - Z.to_nat 1) (take (T - 1) X))
      by (symmetry; apply (slice_to_neg _ 1); lia).
    rewrite length_take, take_take. f_equal. lia. }
  assert (Hctx2 : slice_to X (-1 - 1) = take (T - 2) X).
  { replace (slice_to X (-1 - 1)) with (take (length X - Z.to_nat 2) X)
      by (symmetry; apply (slice_to_neg _ 2); lia).
    f_equal. lia. }
  set (context := Sklearn.transform (disentangler self) (take (T - 2) X)).
  assert (Hctx : has_shape context (T - 2) (n_components self)).
  { apply Htr. replace (T - 2) with ((T - 2) `min` T) at 2 by lia. by apply has_shape_take. }
  set (objs1 := one_step_statistics (iclearner self) context).
  set (objs2 := long_horizon_statistics (iclearner self') context 1
                  stochastic if_true_mean_else_mode).
  pose proof (Hone _ _ Hctx) as Hcover1. fold objs1 in Hcover1.
  pose proof (Hsame _ _ Hctx) as Hcont. fold objs1 objs2 in Hcont.
  pose proof (stats_cover_continues _ _ _ _ _ Hcover1 Hcont) as Hcover2.
  (* the single-step call *)
  assert (Hshape1 : shape1 (take (T - 1) X) = n_features self).
  { eapply (shape1_has_shape _ ((T - 1) `min` T)); [by apply has_shape_take|lia]. }
  assert (Hshape2 : shape1 X = n_features self') by (rewrite Hnf; eapply shape1_has_shape; [done|lia]).
  rewrite predict_single_step_eq, predict_multi_step_eq, Htrunc, Hshape1, Hshape2, !Nat.eqb_refl.
  erewrite (inverse_transform_predictions_covered _ objs1);
    [| by (unfold single_step_forecast; simpl; rewrite Hctx1) |done|done].
  erewrite (inverse_transform_predictions_covered _ objs2);
    [| by (unfold multi_step_forecast; simpl; rewrite Hctx2, Hdis) |
       by (simpl; rewrite Hnc) | by (simpl; rewrite Hnc)].
  eexists _, _, _, _, _, _, _, _, _, _.
  do 2 (split; [reflexivity|]).
  destruct Hcover1 as [_ Hall1].
  assert (Hdis1 : disentangler (single_step_forecast (take (T - 1) X) self) = disentangler self)
    by done.
  assert (Hdis2 : disentangler (multi_step_forecast X 1 stochastic if_true_mean_else_mode self')
                  = disentangler self) by done.
  rewrite Hdis1, Hdis2, !Hrow, !take_transpose.
  assert (Hcfg' : same_configuration (single_step_forecast (take (T - 1) X) self)
                    (multi_step_forecast X 1 stochastic if_true_mean_else_mode self'))
    by done.
  repeat split; do 2 f_equal; apply (continues_columns _ _ (T - 2) (Z.to_nat 1)); try done;
    intros o o' Ho Hlen;
    destruct (continues_take _ _ _ _ _ _ Hcfg' Ho Hlen) as (Hme & Hmo & Hsi); try done;
    by rewrite zip_with_take, Hme, Hsi.
Qed.

End Horizons.

(** ** Metrics *)

Section Metrics.
Context {num : Type} `{!Arith num}.
Context {MinMaxScaler StandardScaler : Type}
        `{!Sklearn.TransformerMixin num MinMaxScaler}
        `{!Sklearn.TransformerMixin num StandardScaler}
        (MinMaxScaler_init : MinMaxScaler) (StandardScaler_init : StandardScaler).
Context {D : Type} `{!Sklearn.TransformerMixin num D}.
Context {Model Tokenizer Tr : Type} `{!ICLTrainer num Model Tokenizer Tr}.
Context {Quantiles : Type}
        (compute_ks_metric :
           matrix num → list (ICLObject num) → nat → nat →
           (matrix num → matrix num) → Z → vector num * Quantiles).

Local Abbreviation pipeline := (DICL num MinMaxScaler StandardScaler D Tr).
Implicit Types (self : pipeline).

(** What [compute_metrics] returns, when it returns. *)
Lemma compute_metrics_Ok burnin self m self' :
  compute_metrics compute_ks_metric burnin self = (Ok m, self') →
  ∃ X_ mean_ icl_object_ d,
    X self = Some X_ ∧ mean self = Some mean_ ∧ icl_object self = Some icl_object_ ∧
    broadcast2 sub (slice_from X_ 1) mean_ = Ok d ∧
    let kss :=
      (compute_ks_metric (slice_from X_ 1) icl_object_ (n_components self)
         (n_features self) (Sklearn.inverse_transform (disentangler self)) burnin).1 in
    m = <["agg_ks" := Scalar (Np.mean kss)]>
          (<["perdim_ks" := Array1 kss]>
             (<["perdim_squared_error" := Array1 (linalg_norm_axis1 d)]>
                (<["average_perdim_squared_error" :=
                     Array1 (mean_axis0 (slice_from (square d) burnin))]>
                   (<["agg_squared_error" := Array1 (linalg_norm_axis1 d)]>
                      (<["average_agg_squared_error" :=
                           Scalar (Np.mean (slice_from (linalg_norm_axis1 d) burnin))]>
                         ∅))))).
Proof.
  unfold compute_metrics. rewrite bind_getattr.
  destruct (X self) as [X_|] eqn:HX; [|done]. rewrite bind_getattr.
  destruct (mean self) as [mean_|] eqn:Hmean; [|done]. rewrite bind_lift.
  destruct (broadcast2 sub (slice_from X_ 1) mean_) as [d|] eqn:Hd; [|done].
  rewrite bind_getattr, HX, bind_getattr, Hmean, bind_lift, Hd.
  rewrite bind_getattr, HX, bind_getattr.
  destruct (icl_object self) as [icl_object_|] eqn:Hobjs; [|done]. rewrite bind_get.
  destruct (compute_ks_metric _ _ _ _ _ _) as [kss q] eqn:Hks.
  intros [= <- <-]. exists X_, mean_, icl_object_, d.
  do 4 (split; [done|]). cbv zeta. by rewrite Hks.
Qed.

(** [compute_metrics] returns when the window, the mean bundle and the
    trainer output are set and the window's rows from the second on can be
    compared with the mean bundle. *)
Lemma compute_metrics_run burnin self X_ mean_ icl_object_ d :
  X self = Some X_ → mean self = Some mean_ → icl_object self = Some icl_object_ →
  broadcast2 sub (slice_from X_ 1) mean_ = Ok d →
  ∃ m, compute_metrics compute_ks_metric burnin self = (Ok m, self).
Proof.
  intros HX Hmean Hobjs Hd. unfold compute_metrics.
  rewrite bind_getattr, HX, bind_getattr, Hmean, bind_lift, Hd.
  rewrite bind_getattr, HX, bind_getattr, Hmean, bind_lift, Hd.
  rewrite bind_getattr, HX, bind_getattr, Hobjs, bind_get.
  destruct (compute_ks_metric _ _ _ _ _ _) as [kss q]. by eexists.
Qed.


(** C9: [compute_metrics] assigns no attribute: the object it leaves is
    the object it was called on, with the same window, context length,
    bundles and trainer output; calling it again with the same burn-in
    returns the same result. *)
Theorem compute_metrics_preserves_state burnin self :
  let self' := (compute_metrics compute_ks_metric burnin self).2 in
  X self' = X self ∧
  context_length self' = context_length self ∧
  mean self' = mean self ∧ mode self' = mode self ∧
  lb self' = lb self ∧ ub self' = ub self ∧
  icl_object self' = icl_object self ∧
  self' = self ∧
  (compute_metrics compute_ks_metric burnin self').1
  = (compute_metrics compute_ks_metric burnin self).1.
Proof.
  assert (Hframe : (compute_metrics compute_ks_metric burnin self).2 = self).
  { unfold compute_metrics. rewrite bind_getattr.
    destruct (X self) as [X_|] eqn:HX; [|done]. rewrite bind_getattr.
    destruct (mean self) as [mean_|] eqn:Hmean; [|done]. rewrite bind_lift.
    destruct (broadcast2 sub (slice_from X_ 1) mean_) as [d|] eqn:Hd; [|done].
    rewrite bind_getattr, HX, bind_getattr, Hmean, bind_lift, Hd.
    rewrite bind_getattr, HX, bind_getattr.
    destruct (icl_object self) as [icl_object_|] eqn:Hobjs; [|done]. rewrite bind_get.
    by destruct (compute_ks_metric _ _ _ _ _ _). }
  simpl. by rewrite !Hframe.
Qed.

(** C10: in the record returned by [compute_metrics], the aggregate
    calibration entry is the arithmetic mean of the per-feature calibration
    entry, and the mean aggregate error entry is the arithmetic mean of the
    per-step aggregate error entry over the steps from [burnin] on. *)
Theorem metrics_record_consistent burnin self m self' :
  (0 ≤ burnin)%Z →
  compute_metrics compute_ks_metric burnin self = (Ok m, self') →
  ∃ kss agg,
    m !! "perdim_ks" = Some (Array1 kss) ∧
    m !! "agg_ks" = Some (Scalar (foldl add zero kss / of_nat (length kss))%A) ∧
    m !! "agg_squared_error" = Some (Array1 agg) ∧
    m !! "average_agg_squared_error" =
      Some (Scalar (foldl add zero (drop (Z.to_nat burnin) agg)
                    / of_nat (length (drop (Z.to_nat burnin) agg)))%A).
Proof.
  intros Hb (X_ & mean_ & icl_object_ & d & _ & _ & _ & _ & ->)%compute_metrics_Ok.
  eexists _, _. rewrite !(slice_from_nonneg _ burnin) by done.
  repeat split; by simplify_map_eq.
Qed.

(** The entry ["perdim_squared_error"] is the entry ["agg_squared_error"]:
    the norm of every row, not the squared error of every feature. *)
Lemma perdim_squared_error_entry burnin self m self' :
  compute_metrics compute_ks_metric burnin self = (Ok m, self') →
  m !! "perdim_squared_error" = m !! "agg_squared_error" ∧
  ∃ X_ mean_ d,
    X self = Some X_ ∧ mean self = Some mean_ ∧
    broadcast2 sub (slice_from X_ 1) mean_ = Ok d ∧
    m !! "perdim_squared_error" = Some (Array1 (linalg_norm_axis1 d)) ∧
    m !! "average_perdim_squared_error" =
      Some (Array1 (mean_axis0 (slice_from (square d) burnin))).
Proof.
  intros (X_ & mean_ & icl_object_ & d & HX & Hmean & _ & Hd & ->)%compute_metrics_Ok.
  split; [by simplify_map_eq|].
  exists X_, mean_, d. repeat split; try done; by simplify_map_eq.
Qed.

End Metrics.

(** ** Degenerate rescaling range *)

Section Covered.
Context {num : Type} `{!Arith num}.
Context {MinMaxScaler StandardScaler : Type}
        `{!Sklearn.TransformerMixin num MinMaxScaler}
        `{!Sklearn.TransformerMixin num StandardScaler}.
Context {D : Type} `{!Sklearn.TransformerMixin num D}.
Context {Model Tokenizer Tr : Type} `{!ICLTrainer num Model Tokenizer Tr}.

Local Abbreviation pipeline := (DICL num MinMaxScaler StandardScaler D Tr).
Implicit Types (self : pipeline) (o : ICLObject num) (objs : list (ICLObject num)).

Lemma columns_of_stacked self objs steps :
  stats_cover (n_components self) steps objs → 0 < n_components self →
  stacked_and_inverted self (columns_of self objs) (bundles_of self objs).
Proof.
  intros [Hcount Hall] Hpos.
  assert (Hne : objs ≠ []) by (intros ->; simpl in Hcount; lia).
  eexists _, _, _, _. unfold columns_of. cbn [all_mean all_mode all_lb all_ub].
  rewrite !(concatenate_axis1_uniform _ steps);
    [by repeat split|try by destruct objs..];
    apply Forall_fmap; (eapply Forall_impl; [done|]); intros o (Hme & Hmo & Hsi); simpl;
    rewrite ?length_zip_with; unfold raw_mean, raw_mode, raw_sigma;
    rewrite ?length_fmap; lia.
Qed.

(** A window whose trainer output has the contracted size is forecast:
    [predict_single_step] returns the bundles of the closed form. *)
Lemma predict_single_step_covered self X T F :
  has_shape X T F → 1 ≤ T → F = n_features self → 0 < n_components self →
  transform_shape (disentangler self) F (n_components self) →
  one_step_covers (n_components self) (iclearner self) →
  ∃ objs,
    stats_cover (n_components self) (T - 1) objs ∧
    icl_object (single_step_forecast X self) = Some objs ∧
    predict_single_step X self =
    (Ok (bundles_of self objs),
     store_bundles (bundles_of self objs) (single_step_forecast X self)).
Proof.
  intros HX HT -> Hpos Htr Hone.
  assert (Hcols : shape1 X = n_features self) by (eapply shape1_has_shape; [done|lia]).
  pose proof HX as [HXlen _].
  set (context := Sklearn.transform (disentangler self) (slice_to X (-1))).
  assert (Hctx : has_shape context (T - 1) (n_components self)).
  { apply Htr. unfold context.
    replace (slice_to X (-1)) with (take (T - 1) X)
      by (symmetry; rewrite <- HXlen; apply (slice_to_neg X 1); lia).
    replace (T - 1) with ((T - 1) `min` T) at 2 by lia.
    by apply has_shape_take. }
  exists (one_step_statistics (iclearner self) context).
  split; [by apply Hone|]. split; [done|].
  rewrite predict_single_step_eq, Hcols, Nat.eqb_refl.
  by erewrite (inverse_transform_predictions_covered _
                 (one_step_statistics (iclearner self) context)); [|done|done|apply Hone].
Qed.

Lemma predict_multi_step_covered self X T F (h : Z) stochastic if_true_mean_else_mode :
  has_shape X T F → 1 ≤ T → F = n_features self → 0 < n_components self →
  transform_shape (disentangler self) F (n_components self) →
  (1 ≤ h < Z.of_nat T - 1)%Z →
  long_horizon_covers (n_components self) (iclearner self) →
  ∃ objs,
    stats_cover (n_components self) (T - 1) objs ∧
    icl_object (multi_step_forecast X h stochastic if_true_mean_else_mode self)
    = Some objs ∧
    predict_multi_step X h stochastic if_true_mean_else_mode self =
    (Ok (bundles_of self objs),
     store_bundles (bundles_of self objs)
       (multi_step_forecast X h stochastic if_true_mean_else_mode self)).
Proof.
  intros HX HT -> Hpos Htr Hh Hlong.
  assert (Hcols : shape1 X = n_features self) by (eapply shape1_has_shape; [done|lia]).
  pose proof HX as [HXlen _].
  set (context := Sklearn.transform (disentangler self) (slice_to X (-1 - h))).
  assert (Hctx : has_shape context (T - 1 - Z.to_nat h) (n_components self)).
  { apply Htr. unfold context.
    replace (-1 - h)%Z with (- (1 + h))%Z by lia. rewrite slice_to_neg by lia.
    replace (T - 1 - Z.to_nat h) with ((length X - Z.to_nat (1 + h)) `min` T) by lia.
    by apply has_shape_take. }
  assert (Hcover : stats_cover (n_components self) (T - 1)
            (long_horizon_statistics (iclearner self) context h
               stochastic if_true_mean_else_mode)).
  { replace (T - 1) with (T - 1 - Z.to_nat h + Z.to_nat h) by lia.
    apply Hlong; [done|lia]. }
  eexists. split; [exact Hcover|]. split; [done|].
  rewrite predict_multi_step_eq, Hcols, Nat.eqb_refl.
  by erewrite (inverse_transform_predictions_covered
                 (multi_step_forecast X h stochastic if_true_mean_else_mode self)
                 _ (T - 1)); [|done|done|exact Hcover].
Qed.

End Covered.

Section ExactArithmetic.
Context {MinMaxScaler StandardScaler : Type}
        `{!Sklearn.TransformerMixin R MinMaxScaler}
        `{!Sklearn.TransformerMixin R StandardScaler}.
Context {Model Tokenizer Tr : Type} `{!ICLTrainer R Model Tokenizer Tr}.

(** With [max = min] the factor [max - min] is zero: the raw mean and mode
    are the recorded minimum at every step, the raw dispersion is zero. *)
Lemma degenerate_raw_columns {D} `{!Sklearn.TransformerMixin R D}
    (self : DICL R MinMaxScaler StandardScaler D Tr) (o : ICLObject R) (steps : nat) :
  rescaling_max o = rescaling_min o →
  length (mean_arr o) = steps ∧ length (mode_arr o) = steps ∧ length (sigma_arr o) = steps →
  raw_mean self o = replicate steps (rescaling_min o) ∧
  raw_mode self o = replicate steps (rescaling_min o) ∧
  zip_with sub (raw_mean self o) (raw_sigma self o) = replicate steps (rescaling_min o) ∧
  zip_with add (raw_mean self o) (raw_sigma self o) = replicate steps (rescaling_min o).
Proof.
  intros Hdeg (Hme & Hmo & Hsi).
  assert (Hmean : raw_mean self o = replicate steps (rescaling_min o)).
  { unfold raw_mean. rewrite <- Hme. apply const_fmap. intros _ x _. simpl.
    rewrite Hdeg. unfold Rdiv. ring. }
  assert (Hmode : raw_mode self o = replicate steps (rescaling_min o)).
  { unfold raw_mode. rewrite <- Hmo. apply const_fmap. intros _ x _. simpl.
    rewrite Hdeg. unfold Rdiv. ring. }
  assert (Hsigma : raw_sigma self o = replicate steps 0%R).
  { unfold raw_sigma. rewrite <- Hsi. apply const_fmap. intros _ x _. simpl.
    rewrite Hdeg. unfold Rdiv. ring. }
  rewrite Hmean, Hmode, Hsigma, !zip_with_replicate. simpl.
  repeat split; f_equal; ring.
Qed.

(** In arithmetic without rounding, where every statistic is a real
    number: when the trainer returns arrays of the contracted size,
    [predict_single_step] and [predict_multi_step] return their bundles,
    and for a component with [max = min] the stacked mean, mode, lower and
    upper columns all hold the recorded minimum at every step. *)
Lemma degenerate_range_not_rejected {D} `{!Sklearn.TransformerMixin R D}
    (self : DICL R MinMaxScaler StandardScaler D Tr) (X : matrix R) (T F : nat) :
  has_shape X T F → 1 ≤ T → F = n_features self → 0 < n_components self →
  transform_shape (disentangler self) F (n_components self) →
  one_step_covers (n_components self) (iclearner self) →
  (∃ b self' objs cols,
     predict_single_step X self = (Ok b, self') ∧
     icl_object self' = Some objs ∧
     stacked_and_inverted self cols b ∧
     ∀ c o, objs !! c = Some o → rescaling_max o = rescaling_min o →
       all_mean cols !! c = Some (replicate (T - 1) (rescaling_min o)) ∧
       all_mode cols !! c = Some (replicate (T - 1) (rescaling_min o)) ∧
       all_lb cols !! c = Some (replicate (T - 1) (rescaling_min o)) ∧
       all_ub cols !! c = Some (replicate (T - 1) (rescaling_min o))) ∧
  (∀ (h : Z) stochastic if_true_mean_else_mode,
     (1 ≤ h < Z.of_nat T - 1)%Z →
     long_horizon_covers (n_components self) (iclearner self) →
     ∃ b self' objs cols,
       predict_multi_step X h stochastic if_true_mean_else_mode self = (Ok b, self') ∧
       icl_object self' = Some objs ∧
       stacked_and_inverted self cols b ∧
       ∀ c o, objs !! c = Some o → rescaling_max o = rescaling_min o →
         all_mean cols !! c = Some (replicate (T - 1) (rescaling_min o)) ∧
         all_mode cols !! c = Some (replicate (T - 1) (rescaling_min o)) ∧
         all_lb cols !! c = Some (replicate (T - 1) (rescaling_min o)) ∧
         all_ub cols !! c = Some (replicate (T - 1) (rescaling_min o))).
Proof.
  intros HX HT HF Hpos Htr Hone.
  assert (Hcolumns : ∀ objs, stats_cover (n_components self) (T - 1) objs →
    ∀ c o, objs !! c = Some o → rescaling_max o = rescaling_min o →
      all_mean (columns_of self objs) !! c = Some (replicate (T - 1) (rescaling_min o)) ∧
      all_mode (columns_of self objs) !! c = Some (replicate (T - 1) (rescaling_min o)) ∧
      all_lb (columns_of self objs) !! c = Some (replicate (T - 1) (rescaling_min o)) ∧
      all_ub (columns_of self objs) !! c = Some (replicate (T - 1) (rescaling_min o))).
  { intros objs [_ Hall] c o Ho Hdeg.
    pose proof (Forall_lookup_1 _ _ _ _ Hall Ho) as Hlen.
    destruct (degenerate_raw_columns self o (T - 1) Hdeg Hlen) as (Hme & Hmo & Hlb & Hub).
    unfold columns_of. cbn [all_mean all_mode all_lb all_ub].
    rewrite !list_lookup_fmap, Ho. cbn [fmap option_fmap option_map].
    by rewrite Hlb, Hub, Hme, Hmo. }
  split.
  - destruct (predict_single_step_covered self X T F) as (objs & Hcover & Hobjs & Hrun);
      [done..|].
    eexists (bundles_of self objs), _, objs, (columns_of self objs).
    split; [exact Hrun|]. split; [exact Hobjs|].
    split; [by eapply columns_of_stacked|]. by apply Hcolumns.
  - intros h st m Hh Hlong.
    destruct (predict_multi_step_covered self X T F h st m) as (objs & Hcover & Hobjs & Hrun);
      [done..|].
    eexists (bundles_of self objs), _, objs, (columns_of self objs).
    split; [exact Hrun|]. split; [exact Hobjs|].
    split; [by eapply columns_of_stacked|]. by apply Hcolumns.
Qed.

(** The identity stage changes nothing: [x * 1 * 1 = x]. *)
Lemma IdentityTransformer_round_trip (a : matrix R) :
  Sklearn.inverse_transform IdentityTransformer_init
    (Sklearn.transform IdentityTransformer_init a) = a.
Proof.
  simpl. induction a as [|row a IH]; [done|].
  rewrite !fmap_cons, IH. f_equal. clear.
  induction row as [|x row IH]; [done|].
  rewrite !fmap_cons, IH. f_equal. ring.
Qed.

(** In arithmetic without rounding, for scalers whose [inverse_transform]
    undoes their [transform]: on every array of the configured number of
    columns, [inverse_transform(transform(X))] of the identity variant is
    [X]. *)
Lemma identity_variant_round_trip
    (self : DICL R MinMaxScaler StandardScaler IdentityTransformer Tr)
    (X : matrix R) (n F : nat) :
  has_shape X n F → F = n_features self →
  invertible_on (Sklearn.step0 (disentangler self)) F →
  transform_shape (Sklearn.step0 (disentangler self)) F F →
  invertible_on (Sklearn.step1 (disentangler self)) F →
  (X_transformed ← transform X; inverse_transform X_transformed) self = (Ok X, self) ∧
  (transform X self).1 =
    Ok (Sklearn.transform IdentityTransformer_init
          (Sklearn.transform (Sklearn.step1 (disentangler self))
             (Sklearn.transform (Sklearn.step0 (disentangler self)) X))) ∧
  ∀ a, (inverse_transform a self).1 =
    Ok (Sklearn.inverse_transform (Sklearn.step0 (disentangler self))
          (Sklearn.inverse_transform (Sklearn.step1 (disentangler self))
             (Sklearn.inverse_transform IdentityTransformer_init a))).
Proof.
  intros HX _ Hinv0 Hshape0 Hinv1.
  split; [|split].
  - unfold transform, inverse_transform, mbind, M_bind, mret, M_ret, get.
    cbn [Sklearn.transform Sklearn.inverse_transform Sklearn.Pipeline_transformer].
    destruct (Sklearn.step2 (disentangler self)).
    rewrite IdentityTransformer_round_trip.
    rewrite (Hinv1 _ n) by by apply Hshape0.
    by rewrite (Hinv0 _ n).
  - unfold transform, mbind, M_bind, mret, M_ret, get.
    cbn [Sklearn.transform Sklearn.Pipeline_transformer fst].
    by destruct (Sklearn.step2 (disentangler self)).
  - intros a. unfold inverse_transform, mbind, M_bind, mret, M_ret, get.
    cbn [Sklearn.inverse_transform Sklearn.Pipeline_transformer fst].
    by destruct (Sklearn.step2 (disentangler self)).
Qed.

End ExactArithmetic.

(** ** Binary64 *)

Section Binary64Facts.
Import SpecFloat FloatOps FloatAxioms.

Lemma SFcompare_refl s m e :
  SFcompare (S754_finite s m e) (S754_finite s m e) = Some Eq.
Proof.
  unfold SFcompare. destruct s; rewrite Z.compare_refl, Pos.compare_cont_refl; reflexivity.
Qed.

Lemma SFsame_eqb (r m : float) :
  SFsame (Prim2SF r) (Prim2SF m) → isfinite m = true → PrimFloat.eqb r m = true.
Proof.
  unfold isfinite. intros [Heq|(s & s' & Hr & Hm)] Hfin; rewrite eqb_spec; unfold SFeqb.
  - rewrite Heq. destruct (Prim2SF m) as [s|s| |s mx ex]; try discriminate; [done|].
    by rewrite SFcompare_refl.
  - by rewrite Hr, Hm.
Qed.

(** [m - m] is [+0] for a finite [m]. *)
Lemma sub_diag_finite (m : float) :
  isfinite m = true → Prim2SF (m - m) = S754_zero false.
Proof.
  unfold isfinite. intros Hfin. rewrite sub_spec. unfold SF64sub, SFsub.
  destruct (Prim2SF m) as [s|s| |s mx ex]; try discriminate.
  - by destruct s.
  - cbv zeta. set (a := cond_Zopp _ _).
    by replace (IntDef.Z.sub a a) with 0%Z by (symmetry; apply Z.sub_diag).
Qed.

(** [m - m] is NaN for an infinite [m] and for NaN. *)
Lemma sub_diag_not_finite (m : float) :
  isfinite m = false → Prim2SF (m - m) = S754_nan.
Proof.
  unfold isfinite. intros Hfin. rewrite sub_spec. unfold SF64sub, SFsub.
  destruct (Prim2SF m) as [s|s| |s mx ex]; try discriminate; [by destruct s|done].
Qed.

Lemma mul_nan_r (q d : float) : Prim2SF d = S754_nan → Prim2SF (q * d) = S754_nan.
Proof.
  intros Hd. rewrite mul_spec, Hd. unfold SF64mul, SFmul. by destruct (Prim2SF q).
Qed.

(** A finite number times a zero is a zero; an infinity or a NaN times a
    zero is NaN. *)
Lemma mul_zero_finite (q d : float) sd :
  Prim2SF d = S754_zero sd → isfinite q = true → ∃ s, Prim2SF (q * d) = S754_zero s.
Proof.
  unfold isfinite. intros Hd Hfin. rewrite mul_spec, Hd. unfold SF64mul, SFmul.
  destruct (Prim2SF q) as [s|s| |s mx ex]; try discriminate; by eexists.
Qed.

Lemma mul_zero_not_finite (q d : float) sd :
  Prim2SF d = S754_zero sd → isfinite q = false → Prim2SF (q * d) = S754_nan.
Proof.
  unfold isfinite. intros Hd Hfin. rewrite mul_spec, Hd. unfold SF64mul, SFmul.
  by destruct (Prim2SF q) as [s|s| |s mx ex].
Qed.

(** Adding a zero to, or taking a zero from, a finite number leaves the
    number. *)
Lemma add_zero_l (p m : float) s :
  Prim2SF p = S754_zero s → isfinite m = true → SFsame (Prim2SF (p + m)) (Prim2SF m).
Proof.
  unfold isfinite. intros Hp Hfin. rewrite add_spec, Hp. unfold SF64add, SFadd.
  destruct (Prim2SF m) as [s'|s'| |s' mx ex]; try discriminate.
  - right. destruct s, s'; by eexists _, _.
  - by left.
Qed.

Lemma add_zero_r (r t m : float) s :
  SFsame (Prim2SF r) (Prim2SF m) → isfinite m = true → Prim2SF t = S754_zero s →
  SFsame (Prim2SF (r + t)) (Prim2SF m).
Proof.
  unfold isfinite. intros Hr Hfin Ht. rewrite add_spec, Ht. unfold SF64add, SFadd.
  destruct Hr as [->|(s1 & s2 & -> & Hm)].
  - destruct (Prim2SF m) as [s'|s'| |s' mx ex]; try discriminate.
    + right. destruct s', s; by eexists _, _.
    + by left.
  - right. rewrite Hm. destruct s1, s; by eexists _, _.
Qed.

Lemma sub_zero_r (r t m : float) s :
  SFsame (Prim2SF r) (Prim2SF m) → isfinite m = true → Prim2SF t = S754_zero s →
  SFsame (Prim2SF (r - t)) (Prim2SF m).
Proof.
  unfold isfinite. intros Hr Hfin Ht. rewrite sub_spec, Ht. unfold SF64sub, SFsub.
  destruct Hr as [->|(s1 & s2 & -> & Hm)].
  - destruct (Prim2SF m) as [s'|s'| |s' mx ex]; try discriminate.
    + right. destruct s', s; by eexists _, _.
    + by left.
  - right. rewrite Hm. destruct s1, s; by eexists _, _.
Qed.

Lemma add_nan_l (p m : float) : Prim2SF p = S754_nan → Prim2SF (p + m) = S754_nan.
Proof. intros Hp. by rewrite add_spec, Hp. Qed.

Lemma add_nan_r (p m : float) : Prim2SF m = S754_nan → Prim2SF (p + m) = S754_nan.
Proof.
  intros Hm. rewrite add_spec, Hm. unfold SF64add, SFadd. by destruct (Prim2SF p).
Qed.

Lemma sub_nan_l (p m : float) : Prim2SF p = S754_nan → Prim2SF (p - m) = S754_nan.
Proof. intros Hp. by rewrite sub_spec, Hp. Qed.

Lemma sub_nan_r (p m : float) : Prim2SF m = S754_nan → Prim2SF (p - m) = S754_nan.
Proof.
  intros Hm. rewrite sub_spec, Hm. unfold SF64sub, SFsub. by destruct (Prim2SF p).
Qed.

(** The inverse rescaling of one statistic under a degenerate range. *)
Lemma degenerate_entry (q m : float) :
  (isfinite m && isfinite q = true → SFsame (Prim2SF (q * (m - m) + m)) (Prim2SF m)) ∧
  (isfinite m && isfinite q = false → Prim2SF (q * (m - m) + m) = S754_nan).
Proof.
  destruct (isfinite m) eqn:Hm; cbn [andb].
  - pose proof (sub_diag_finite m Hm) as Hd. split; intros Hq.
    + destruct (mul_zero_finite q (m - m) false Hd Hq) as [s Hp].
      by eapply add_zero_l.
    + apply add_nan_l. by eapply mul_zero_not_finite.
  - split; [done|]. intros _. apply add_nan_l, mul_nan_r. by apply sub_diag_not_finite.
Qed.

Lemma degenerate_dispersion (q m : float) :
  (isfinite m && isfinite q = true → ∃ s, Prim2SF (q * (m - m)) = S754_zero s) ∧
  (isfinite m && isfinite q = false → Prim2SF (q * (m - m)) = S754_nan).
Proof.
  destruct (isfinite m) eqn:Hm; cbn [andb].
  - pose proof (sub_diag_finite m Hm) as Hd. split; intros Hq.
    + by eapply mul_zero_finite.
    + by eapply mul_zero_not_finite.
  - split; [done|]. intros _. apply mul_nan_r. by apply sub_diag_not_finite.
Qed.

Lemma isnan_Prim2SF (r : float) : Prim2SF r = S754_nan → isnan r = true.
Proof. unfold isnan. by intros ->. Qed.

End Binary64Facts.

Section MulOne.
Import SpecFloat FloatOps FloatAxioms.

Lemma Prim2SF_one : Prim2SF 1%float = S754_finite false 4503599627370496 (-52).
Proof. vm_compute. reflexivity. Qed.

Lemma shr_fexp_canonical (mx : positive) (ex : Z) :
  fexp prec emax (Z.pos (digits2_pos mx) + ex) = ex →
  shr_fexp prec emax (Z.pos mx) ex loc_Exact
  = ({| shr_m := Z.pos mx; shr_r := false; shr_s := false |}, ex).
Proof.
  intros Hcanon. unfold shr_fexp. cbn [Zdigits2 shr_record_of_loc].
  rewrite Hcanon, Z.sub_diag. reflexivity.
Qed.

(** Multiplication by one is exact in binary64, special values included. *)
Lemma mul_one_r (x : float) : (x * 1)%float = x.
Proof.
  apply Prim2SF_inj. rewrite mul_spec, Prim2SF_one.
  pose proof (Prim2SF_valid x) as Hvalid.
  destruct (Prim2SF x) as [s|s| |s mx ex]; try (by destruct s); [done|].
  cbn [SpecFloat.valid_binary] in Hvalid. unfold bounded, canonical_mantissa in Hvalid.
  apply andb_prop in Hvalid as [Hcanon Hbound]. apply Z.eqb_eq in Hcanon.
  unfold SF64mul, SFmul. rewrite Pos.mul_comm.
  change (4503599627370496 * mx)%positive
    with (Pos.iter xO mx 52).
  unfold binary_round_aux.
  assert (Hfirst : shr_fexp prec emax (Z.pos (Pos.iter xO mx 52)) (ex + -52) loc_Exact
                   = ({| shr_m := Z.pos mx; shr_r := false; shr_s := false |}, ex)).
  { unfold shr_fexp. cbn [Zdigits2 shr_record_of_loc].
    replace (Z.pos (digits2_pos (Pos.iter xO mx 52)) + (ex + -52))%Z
      with (Z.pos (digits2_pos mx) + ex)%Z.
    2:{ cbn [Pos.iter digits2_pos]. lia. }
    rewrite Hcanon. replace (ex - (ex + -52))%Z with 52%Z by lia.
    unfold shr. replace (ex + -52 + 52)%Z with ex by lia. reflexivity. }
  rewrite Hfirst. cbn [shr_m loc_of_shr_record round_nearest_even].
  rewrite (shr_fexp_canonical mx ex Hcanon). cbn [shr_m].
  rewrite Hbound. by destruct s.
Qed.
End MulOne.

Section DegenerateRange.
Import SpecFloat FloatOps FloatAxioms.
Context {MinMaxScaler StandardScaler D : Type}
        `{!Sklearn.TransformerMixin float MinMaxScaler}
        `{!Sklearn.TransformerMixin float StandardScaler}
        `{!Sklearn.TransformerMixin float D}.
Context {Model Tokenizer Tr : Type} `{!ICLTrainer float Model Tokenizer Tr}.

Local Abbreviation pipeline := (DICL float MinMaxScaler StandardScaler D Tr).
Implicit Types (self : pipeline) (o : ICLObject float).

Lemma min_or_nan_mean (q m : float) :
  min_or_nan m (isfinite m && isfinite q) (q * (m - m) + m)%float.
Proof.
  destruct (degenerate_entry q m) as [Hfin Hnot]. unfold min_or_nan.
  destruct (isfinite m && isfinite q) eqn:Hboth.
  - apply andb_prop in Hboth as [Hm _]. by apply SFsame_eqb; [apply Hfin|].
  - by apply isnan_Prim2SF, Hnot.
Qed.

Lemma min_or_nan_bound (add_or_sub : float → float → float) (q qs m : float) :
  add_or_sub = PrimFloat.add ∨ add_or_sub = PrimFloat.sub →
  min_or_nan m (isfinite m && isfinite q && isfinite qs)
    (add_or_sub (q * (m - m) + m) (qs * (m - m)))%float.
Proof.
  intros Hop.
  destruct (degenerate_entry q m) as [Hfin Hnot].
  destruct (degenerate_dispersion qs m) as [Hsfin Hsnot].
  unfold min_or_nan.
  destruct (isfinite m) eqn:Hm; [destruct (isfinite q); [destruct (isfinite qs)|]|];
    cbn [andb] in *.
  - destruct Hsfin as [s Hs]; [done|]. apply SFsame_eqb; [|done].
    destruct Hop as [-> | ->]; [by eapply add_zero_r; [apply Hfin|..]
                               |by eapply sub_zero_r; [apply Hfin|..]].
  - apply isnan_Prim2SF.
    destruct Hop as [-> | ->]; [by apply add_nan_r, Hsnot|by apply sub_nan_r, Hsnot].
  - apply isnan_Prim2SF.
    destruct Hop as [-> | ->]; [by apply add_nan_l, Hnot|by apply sub_nan_l, Hnot].
  - apply isnan_Prim2SF.
    destruct Hop as [-> | ->]; [by apply add_nan_l, Hnot|by apply sub_nan_l, Hnot].
Qed.

Lemma Forall2_zip_with_fmap {A B C E F'} (P : A * B → F' → Prop) (f : A → C) (g : B → E)
    (h : C → E → F') (l : list A) (k : list B) :
  (∀ x s, P (x, s) (h (f x) (g s))) →
  Forall2 P (zip l k) (zip_with h (f <$> l) (g <$> k)).
Proof.
  intros HP. revert k. induction l as [|x l IH]; intros [|s k]; simpl; constructor; auto.
Qed.

(** The columns of a component with a degenerate range, in binary64. *)
Lemma degenerate_columns_binary64 self o :
  rescaling_max o = rescaling_min o →
  degenerate_column self (rescaling_min o) (mean_arr o) (raw_mean self o) ∧
  degenerate_column self (rescaling_min o) (mode_arr o) (raw_mode self o) ∧
  degenerate_bound self (rescaling_min o) (mean_arr o) (sigma_arr o)
    (zip_with sub (raw_mean self o) (raw_sigma self o)) ∧
  degenerate_bound self (rescaling_min o) (mean_arr o) (sigma_arr o)
    (zip_with add (raw_mean self o) (raw_sigma self o)).
Proof.
  intros Hdeg. unfold degenerate_column, degenerate_bound, raw_mean, raw_mode, raw_sigma.
  rewrite Hdeg. split; [|split; [|split]].
  - apply Forall2_fmap_r, Forall_Forall2_diag, Forall_forall. intros x _.
    apply min_or_nan_mean.
  - apply Forall2_fmap_r, Forall_Forall2_diag, Forall_forall. intros x _.
    apply min_or_nan_mean.
  - apply Forall2_zip_with_fmap. intros x s. cbn [fst snd].
    apply (min_or_nan_bound PrimFloat.sub). by right.
  - apply Forall2_zip_with_fmap. intros x s. cbn [fst snd].
    apply (min_or_nan_bound PrimFloat.add). by left.
Qed.

(** C5, as the code has it: a degenerate rescaling range ([max = min]
    recorded for a component) is not rejected; the source has no check of
    the range and no [DegenerateRangeError].  When the trainer returns
    arrays of the contracted size, [predict_single_step] and
    [predict_multi_step] return their bundles.  In binary64, for a
    degenerate component, the inversion multiplies by [max - min] and never
    divides by it: every entry of the stacked mean, mode, lower and upper
    columns is the recorded minimum where the minimum and the trainer's
    statistics the entry takes are finite, and NaN where one of them is
    infinite or NaN.  The degenerate range turns no finite statistic into
    an infinity or a NaN, and it turns an infinite one into a NaN without
    raising. *)
Theorem degenerate_range_gives_min_or_nan self (X : matrix float) (T F : nat) :
  has_shape X T F → 1 ≤ T → F = n_features self → 0 < n_components self →
  transform_shape (disentangler self) F (n_components self) →
  one_step_covers (n_components self) (iclearner self) →
  (∃ b self' objs cols,
     predict_single_step X self = (Ok b, self') ∧
     icl_object self' = Some objs ∧
     stacked_and_inverted self cols b ∧
     ∀ c o, objs !! c = Some o → rescaling_max o = rescaling_min o →
       ∃ col_mean col_mode col_lb col_ub,
         all_mean cols !! c = Some col_mean ∧ all_mode cols !! c = Some col_mode ∧
         all_lb cols !! c = Some col_lb ∧ all_ub cols !! c = Some col_ub ∧
         degenerate_column self (rescaling_min o) (mean_arr o) col_mean ∧
         degenerate_column self (rescaling_min o) (mode_arr o) col_mode ∧
         degenerate_bound self (rescaling_min o) (mean_arr o) (sigma_arr o) col_lb ∧
         degenerate_bound self (rescaling_min o) (mean_arr o) (sigma_arr o) col_ub) ∧
  (∀ (h : Z) stochastic if_true_mean_else_mode,
     (1 ≤ h < Z.of_nat T - 1)%Z →
     long_horizon_covers (n_components self) (iclearner self) →
     ∃ b self' objs cols,
       predict_multi_step X h stochastic if_true_mean_else_mode self = (Ok b, self') ∧
       icl_object self' = Some objs ∧
       stacked_and_inverted self cols b ∧
       ∀ c o, objs !! c = Some o → rescaling_max o = rescaling_min o →
         ∃ col_mean col_mode col_lb col_ub,
           all_mean cols !! c = Some col_mean ∧ all_mode cols !! c = Some col_mode ∧
           all_lb cols !! c = Some col_lb ∧ all_ub cols !! c = Some col_ub ∧
           degenerate_column self (rescaling_min o) (mean_arr o) col_mean ∧
           degenerate_column self (rescaling_min o) (mode_arr o) col_mode ∧
           degenerate_bound self (rescaling_min o) (mean_arr o) (sigma_arr o) col_lb ∧
           degenerate_bound self (rescaling_min o) (mean_arr o) (sigma_arr o) col_ub).
Proof.
  intros HX HT HF Hpos Htr Hone.
  assert (Hcolumns : ∀ objs c o, objs !! c = Some o →
    rescaling_max o = rescaling_min o →
    ∃ col_mean col_mode col_lb col_ub,
      all_mean (columns_of self objs) !! c = Some col_mean ∧
      all_mode (columns_of self objs) !! c = Some col_mode ∧
      all_lb (columns_of self objs) !! c = Some col_lb ∧
      all_ub (columns_of self objs) !! c = Some col_ub ∧
      degenerate_column self (rescaling_min o) (mean_arr o) col_mean ∧
      degenerate_column self (rescaling_min o) (mode_arr o) col_mode ∧
      degenerate_bound self (rescaling_min o) (mean_arr o) (sigma_arr o) col_lb ∧
      degenerate_bound self (rescaling_min o) (mean_arr o) (sigma_arr o) col_ub).
  { intros objs c o Ho Hdeg.
    destruct (degenerate_columns_binary64 self o Hdeg) as (Hme & Hmo & Hlb & Hub).
    eexists _, _, _, _. unfold columns_of. cbn [all_mean all_mode all_lb all_ub].
    rewrite !list_lookup_fmap, Ho. cbn [fmap option_fmap option_map].
    do 4 (split; [reflexivity|]). by repeat split. }
  split.
  - destruct (predict_single_step_covered self X T F) as (objs & Hcover & Hobjs & Hrun);
      [done..|].
    eexists (bundles_of self objs), _, objs, (columns_of self objs).
    split; [exact Hrun|]. split; [exact Hobjs|].
    split; [by eapply columns_of_stacked|]. by apply Hcolumns.
  - intros h st m Hh Hlong.
    destruct (predict_multi_step_covered self X T F h st m) as (objs & Hcover & Hobjs & Hrun);
      [done..|].
    eexists (bundles_of self objs), _, objs, (columns_of self objs).
    split; [exact Hrun|]. split; [exact Hobjs|].
    split; [by eapply columns_of_stacked|]. by apply Hcolumns.
Qed.

End DegenerateRange.

Section IdentityVariant.
Context {MinMaxScaler StandardScaler : Type}
        `{!Sklearn.TransformerMixin float MinMaxScaler}
        `{!Sklearn.TransformerMixin float StandardScaler}.
Context {Model Tokenizer Tr : Type} `{!ICLTrainer float Model Tokenizer Tr}.

(** The identity stage returns its argument, in binary64. *)
Lemma IdentityTransformer_exact (a : matrix float) :
  Sklearn.transform IdentityTransformer_init a = a ∧
  Sklearn.inverse_transform IdentityTransformer_init a = a.
Proof.
  assert (Hrows : (λ row : vector float, (λ x, x * one)%A <$> row) <$> a = a).
  { induction a as [|row a IH]; [done|]. rewrite fmap_cons, IH. f_equal. clear.
    induction row as [|x row IH]; [done|]. rewrite fmap_cons, IH. f_equal.
    apply mul_one_r. }
  by split.
Qed.

(** C8, as the code has it: in the identity variant the disentangler is
    the min-max scaler, the standard scaler and the [IdentityTransformer],
    applied in this order and undone in the reverse order.  In binary64 the
    identity stage is exact ([x * 1] is [x], special values included), so
    [inverse_transform(transform(X))] is the round trip of the two scalers
    alone, on every object and every array: it is [X] exactly when the
    scalers return [X] from their own images, which rounding need not
    allow. *)
Theorem identity_variant_round_trip_binary64
    (self : DICL float MinMaxScaler StandardScaler IdentityTransformer Tr)
    (X : matrix float) :
  let scale := Sklearn.transform (Sklearn.step0 (disentangler self)) in
  let standardize := Sklearn.transform (Sklearn.step1 (disentangler self)) in
  let unscale := Sklearn.inverse_transform (Sklearn.step0 (disentangler self)) in
  let unstandardize := Sklearn.inverse_transform (Sklearn.step1 (disentangler self)) in
  (transform X self).1 = Ok (standardize (scale X)) ∧
  (∀ a, (inverse_transform a self).1 = Ok (unscale (unstandardize a))) ∧
  (X_transformed ← transform X; inverse_transform X_transformed) self
  = (Ok (unscale (unstandardize (standardize (scale X)))), self) ∧
  ((X_transformed ← transform X; inverse_transform X_transformed) self = (Ok X, self)
   ↔ unscale (unstandardize (standardize (scale X))) = X).
Proof.
  cbv zeta.
  assert (Hforward : ∀ a, Sklearn.transform (disentangler self) a =
    Sklearn.transform (Sklearn.step1 (disentangler self))
      (Sklearn.transform (Sklearn.step0 (disentangler self)) a)).
  { intros a. cbn [Sklearn.transform Sklearn.Pipeline_transformer].
    destruct (Sklearn.step2 (disentangler self)).
    apply IdentityTransformer_exact. }
  assert (Hback : ∀ a, Sklearn.inverse_transform (disentangler self) a =
    Sklearn.inverse_transform (Sklearn.step0 (disentangler self))
      (Sklearn.inverse_transform (Sklearn.step1 (disentangler self)) a)).
  { intros a. cbn [Sklearn.inverse_transform Sklearn.Pipeline_transformer].
    destruct (Sklearn.step2 (disentangler self)).
    by destruct (IdentityTransformer_exact a) as [_ ->]. }
  assert (Hround : (X_transformed ← transform X; inverse_transform X_transformed) self
    = (Ok (Sklearn.inverse_transform (Sklearn.step0 (disentangler self))
             (Sklearn.inverse_transform (Sklearn.step1 (disentangler self))
                (Sklearn.transform (Sklearn.step1 (disentangler self))
                   (Sklearn.transform (Sklearn.step0 (disentangler self)) X)))), self)).
  { unfold transform, inverse_transform, mbind, M_bind, mret, M_ret, get.
    by rewrite Hforward, Hback. }
  split; [|split; [|split; [exact Hround|]]].
  - unfold transform, mbind, M_bind, mret, M_ret, get. cbn [fst]. by rewrite Hforward.
  - intros a. unfold inverse_transform, mbind, M_bind, mret, M_ret, get. cbn [fst].
    by rewrite Hback.
  - rewrite Hround. split; [by intros [= ->]|by intros ->].
Qed.

End IdentityVariant.

(** ** The test doubles meet the contracts *)

Section PipelineFacts.
Context {num : Type} `{!Arith num}.
Context {E0 E1 E2 : Type}
        `{!Sklearn.TransformerMixin num E0}
        `{!Sklearn.TransformerMixin num E1}
        `{!Sklearn.TransformerMixin num E2}.

Lemma Pipeline_transform_shape (p : Sklearn.Pipeline E0 E1 E2) F F1 F2 C :
  transform_shape (Sklearn.step0 p) F F1 →
  transform_shape (Sklearn.step1 p) F1 F2 →
  transform_shape (Sklearn.step2 p) F2 C →
  transform_shape p F C.
Proof. intros Hs0 Hs1 Hs2 a n Ha. by apply Hs2, Hs1, Hs0. Qed.

Lemma Pipeline_inverse_transform_shape (p : Sklearn.Pipeline E0 E1 E2) C F2 F1 F :
  inverse_transform_shape (Sklearn.step2 p) C F2 →
  inverse_transform_shape (Sklearn.step1 p) F2 F1 →
  inverse_transform_shape (Sklearn.step0 p) F1 F →
  inverse_transform_shape p C F.
Proof. intros Hs2 Hs1 Hs0 a n Ha. by apply Hs0, Hs1, Hs2. Qed.

Lemma Pipeline_inverse_transform_rowwise (p : Sklearn.Pipeline E0 E1 E2) :
  inverse_transform_rowwise (Sklearn.step0 p) →
  inverse_transform_rowwise (Sklearn.step1 p) →
  inverse_transform_rowwise (Sklearn.step2 p) →
  inverse_transform_rowwise p.
Proof. intros Hs0 Hs1 Hs2 a n. simpl. by rewrite Hs0, Hs1, Hs2. Qed.

End PipelineFacts.

Section TestDoubleFacts.
Context {num : Type} `{!Arith num}.

Lemma has_shape_fmap (g : vector num → vector num) (a : matrix num) n F F' :
  (∀ row, length row = F → length (g row) = F') →
  has_shape a n F → has_shape (g <$> a) n F'.
Proof.
  intros Hg [Hn Hrows]. split; [by rewrite length_fmap|].
  apply Forall_fmap. eapply Forall_impl; [done|]. intros row Hrow. by apply Hg.
Qed.

Lemma IdentityTransformer_transform_shape F :
  transform_shape (num := num) IdentityTransformer_init F F.
Proof.
  intros a n Ha. simpl. eapply has_shape_fmap; [|done].
  intros row Hrow. by rewrite length_fmap.
Qed.

Lemma IdentityTransformer_inverse_transform_shape F :
  inverse_transform_shape (num := num) IdentityTransformer_init F F.
Proof.
  intros a n Ha. simpl. eapply has_shape_fmap; [|done].
  intros row Hrow. by rewrite length_fmap.
Qed.

Lemma IdentityTransformer_rowwise :
  inverse_transform_rowwise (num := num) IdentityTransformer_init.
Proof. intros a n. simpl. by rewrite fmap_take. Qed.

Lemma AffineScaler_transform_shape (e : AffineScaler num) F :
  length (scale_ e) = F → length (shift_ e) = F → transform_shape e F F.
Proof.
  intros Hscale Hshift a n Ha. simpl. eapply has_shape_fmap; [|done].
  intros row Hrow. rewrite !length_zip_with. lia.
Qed.

Lemma AffineScaler_inverse_transform_shape (e : AffineScaler num) F :
  length (scale_ e) = F → length (shift_ e) = F → inverse_transform_shape e F F.
Proof.
  intros Hscale Hshift a n Ha. simpl. eapply has_shape_fmap; [|done].
  intros row Hrow. rewrite !length_zip_with. lia.
Qed.

Lemma AffineScaler_rowwise (e : AffineScaler num) : inverse_transform_rowwise e.
Proof. intros a n. simpl. by rewrite fmap_take. Qed.

Lemma stub_statistics_cover (tr : StubTrainer num) (extra : nat) :
  stats_cover (stub_n_features tr) (length (stub_context tr) + extra)
    (stub_statistics tr extra).
Proof.
  unfold stub_statistics. split.
  - by rewrite length_fmap, length_seq.
  - apply Forall_fmap, Forall_forall. intros dim _. simpl.
    by rewrite !length_replicate, length_fmap.
Qed.

Lemma StubTrainer_one_step_covers (tr : StubTrainer num) :
  one_step_covers (stub_n_features tr) tr.
Proof.
  intros ctx n [Hn _]. unfold one_step_statistics. simpl.
  replace n with (length ctx + 0) by lia.
  apply (stub_statistics_cover
           {| stub_n_features := stub_n_features tr;
              stub_up_shift := stub_up_shift tr;
              stub_context := ctx |}).
Qed.


(** The stub ignores the generation flags and its earlier contexts. *)
Lemma StubTrainer_same_behaviour (tr tr' : StubTrainer num) (h : Z) st m :
  stub_n_features tr' = stub_n_features tr →
  stub_up_shift tr' = stub_up_shift tr →
  same_trainer_behaviour (stub_n_features tr) tr tr' h st m.
Proof.
  intros Hn Hup ctx n _. unfold one_step_statistics, long_horizon_statistics. simpl.
  unfold stub_statistics. simpl. rewrite Hn, Hup.
  apply Forall2_fmap, Forall_Forall2_diag, Forall_forall. intros dim _.
  unfold continues. simpl. rewrite Nat.add_0_r, !replicate_add.
  repeat split; eexists; (split; [|reflexivity]); by rewrite length_replicate.
Qed.

End TestDoubleFacts.

(** An affine scaler with non-zero scales is undone by its inverse, in
    arithmetic without rounding. *)
Lemma AffineScaler_invertible (e : AffineScaler R) (F : nat) :
  Forall (λ s, s ≠ 0%R) (scale_ e) →
  length (scale_ e) = F → length (shift_ e) = F →
  invertible_on e F.
Proof.
  intros Hnz Hscale Hshift a n [_ Hrows]. simpl.
  induction a as [|row a IH]; [done|].
  apply Forall_cons in Hrows as [Hrow Hrows].
  rewrite !fmap_cons, IH by done. f_equal.
  clear IH Hrows. subst F. destruct e as [scale shift]. simpl in *.
  revert scale shift Hnz Hrow Hshift.
  induction row as [|x row IH]; intros [|s scale] [|b shift] Hnz; simpl; try done.
  intros [= Hrow] [= Hshift]. apply Forall_cons in Hnz as [Hs Hnz].
  f_equal; [by field|by apply IH].
Qed.

(** ** The worked examples *)

Lemma example_window_shape : has_shape example_window 4 2.
Proof. split; [done|]. by repeat constructor. Qed.

Lemma example_window_R_shape : has_shape example_window_R 4 2.
Proof. split; [done|]. by repeat constructor. Qed.

Lemma example_vICL_transform_shape : transform_shape (disentangler example_vICL) 2 2.
Proof.
  eapply Pipeline_transform_shape;
    [by apply AffineScaler_transform_shape..|apply IdentityTransformer_transform_shape].
Qed.


Lemma example_vICL_rowwise : inverse_transform_rowwise (disentangler example_vICL).
Proof.
  apply Pipeline_inverse_transform_rowwise;
    [apply AffineScaler_rowwise..|apply IdentityTransformer_rowwise].
Qed.

Lemma example_vICL_R_transform_shape : transform_shape (disentangler example_vICL_R) 2 2.
Proof.
  eapply Pipeline_transform_shape;
    [by apply AffineScaler_transform_shape..|apply IdentityTransformer_transform_shape].
Qed.

Lemma example_scaler_R_invertible : invertible_on example_scaler_R 2.
Proof.
  apply AffineScaler_invertible; [|done..].
  repeat constructor; simpl; lra.
Qed.

(** [predict_single_step] on the example window. *)
Lemma example_prediction :
  predict_single_step example_window example_vICL = (Ok example_bundles, example_predicted).
Proof. vm_compute. reflexivity. Qed.

Lemma example_completed : predict_completed example_vICL example_bundles example_predicted.
Proof. left. exists example_window. apply example_prediction. Qed.

(** C1, at a failing input: after the forecast [[0; 0]] of the row
    [[3; 4]], the per-feature squared errors are [[9; 16]], and their mean
    over the steps is stored as such; but the entry
    ["perdim_squared_error"] holds [[5]], the norm of the row of errors,
    which is the entry ["agg_squared_error"]. *)
Theorem perdim_squared_error_holds_row_norms :
  let self := (predict_single_step error_window example_vICL).2 in
  let metrics := (compute_metrics stub_ks_metric 0 self).1 in
  X self = Some [[0; 0]; [3; 4]]%float ∧
  mean self = Some [[0; 0]]%float ∧
  (square <$> broadcast2 sub (slice_from error_window 1) [[0; 0]]%float)
  = Ok [[9; 16]]%float ∧
  (lookup "average_perdim_squared_error" <$> metrics) = Ok (Some (Array1 [9; 16]%float)) ∧
  (lookup "perdim_squared_error" <$> metrics) = Ok (Some (Array1 [5]%float)) ∧
  (lookup "agg_squared_error" <$> metrics) = Ok (Some (Array1 [5]%float)) ∧
  (lookup "perdim_squared_error" <$> metrics) ≠ Ok (Some (Array2 [[9; 16]]%float)).
Proof.
  cbv zeta. do 6 (split; [vm_compute; reflexivity|]).
  vm_compute. discriminate.
Qed.

(** C5 does not hold of the code: in the first three rows of the example
    window the first component is constant, the trainer records
    [max = min = 1] for it, and [predict_single_step] returns its bundles;
    so does [predict_multi_step].  Neither raises. *)
Lemma degenerate_range_returns_bundles :
  (∃ objs o,
     icl_object example_predicted = Some objs ∧ objs !! 0 = Some o ∧
     rescaling_max o = rescaling_min o) ∧
  (predict_single_step example_window example_vICL).1 = Ok example_bundles ∧
  (predict_multi_step example_window 1 false false example_vICL).1 = Ok example_bundles ∧
  ¬ (∃ e, (predict_single_step example_window example_vICL).1 = Raise e) ∧
  ¬ (∃ e, (predict_multi_step example_window 1 false false example_vICL).1 = Raise e).
Proof.
  split; [|split; [|split; [|split]]].
  - eexists _, _. split; [vm_compute; reflexivity|]. split; [reflexivity|]. reflexivity.
  - vm_compute. reflexivity.
  - vm_compute. reflexivity.
  - intros [e He]. vm_compute in He. discriminate.
  - intros [e He]. vm_compute in He. discriminate.
Qed.

(** A degenerate range with infinite statistics: step 3 raises nothing and
    returns bundles that hold the recorded minimum 2 where the statistics
    are finite and NaN where one is infinite. *)
Lemma degenerate_range_infinite_statistics :
  rescaling_max example_degenerate_object = rescaling_min example_degenerate_object ∧
  (step3 [example_degenerate_object] example_vICL_one).1
  = Ok ([[2]; [nan]; [2]], [[2]; [nan]; [2]], [[2]; [nan]; [nan]], [[2]; [nan]; [nan]])%float.
Proof. split; [reflexivity|]. vm_compute. reflexivity. Qed.

(** C8 does not hold of the code: behind a min-max stage of scale 3, the
    observation [0.1] comes back from [inverse_transform(transform(X))] as
    [0.10000000000000002]. *)
Lemma identity_round_trip_inexact :
  has_shape [[tenth]] 1 1 ∧
  n_features example_vICL_three = 1 ∧
  (X_transformed ← transform [[tenth]]; inverse_transform X_transformed)
    example_vICL_three
  = (Ok [[tenth_above]], example_vICL_three) ∧
  PrimFloat.eqb tenth_above tenth = false ∧
  (X_transformed ← transform [[tenth]]; inverse_transform X_transformed)
    example_vICL_three
  ≠ (Ok [[tenth]], example_vICL_three).
Proof.
  split; [by split; [|repeat constructor]|]. split; [reflexivity|].
  split; [vm_compute; reflexivity|]. split; [vm_compute; reflexivity|].
  vm_compute. discriminate.
Qed.

(** The statements with hypotheses, at the examples. *)

Lemma rescaled_statistics_mapped_back_witness :
  predict_completed example_vICL example_bundles example_predicted ∧
  ∃ objs cols,
    icl_object example_predicted = Some objs ∧
    stacked_and_inverted example_vICL cols example_bundles ∧
    ∀ c, c < 2 →
      ∃ o,
        objs !! c = Some o ∧
        all_mean cols !! c =
          Some ((λ x, (x - 1.5) / 7 * (rescaling_max o - rescaling_min o)
                      + rescaling_min o)%float <$> mean_arr o).
Proof.
  split; [exact example_completed|].
  destruct (rescaled_statistics_mapped_back _ _ _ example_completed)
    as (objs & cols & Hobjs & Hinv & Hcols).
  exists objs, cols. split; [exact Hobjs|]. split; [exact Hinv|].
  intros c Hc. destruct (Hcols c Hc) as (o & l & u & Ho & Hm & _).
  exists o. split; [exact Ho|exact Hm].
Defined.

Lemma bounds_formed_before_inversion_witness :
  predict_completed example_vICL example_bundles example_predicted ∧
  ∃ cols a_mean a_lb a_ub,
    concatenate_axis1 (all_mean cols) = Ok a_mean ∧
    concatenate_axis1 (all_lb cols) = Ok a_lb ∧
    concatenate_axis1 (all_ub cols) = Ok a_ub ∧
    example_bundles.1.1.1 = Sklearn.inverse_transform (disentangler example_vICL) a_mean ∧
    example_bundles.1.2 = Sklearn.inverse_transform (disentangler example_vICL) a_lb ∧
    example_bundles.2 = Sklearn.inverse_transform (disentangler example_vICL) a_ub.
Proof.
  split; [exact example_completed|].
  destruct (bounds_formed_before_inversion example_vICL _ _ _ _ _ example_completed)
    as (objs & cols & a_mean & a_lb & a_ub & _ & Hm & Hl & Hu & Hmean & Hlb & Hub & _).
  exists cols, a_mean, a_lb, a_ub. repeat split; assumption.
Defined.


Lemma degenerate_range_gives_min_or_nan_witness :
  has_shape example_window 4 2 ∧
  transform_shape (disentangler example_vICL) 2 2 ∧
  one_step_covers 2 (iclearner example_vICL) ∧
  ∃ b self' objs cols,
    predict_single_step example_window example_vICL = (Ok b, self') ∧
    icl_object self' = Some objs ∧
    stacked_and_inverted example_vICL cols b ∧
    (∃ o, objs !! 0 = Some o ∧ rescaling_max o = rescaling_min o ∧
          isfinite (rescaling_min o) = true) ∧
    ∀ c o, objs !! c = Some o → rescaling_max o = rescaling_min o →
      ∃ col_mean col_lb col_ub,
        all_mean cols !! c = Some col_mean ∧
        all_lb cols !! c = Some col_lb ∧ all_ub cols !! c = Some col_ub ∧
        degenerate_column example_vICL (rescaling_min o) (mean_arr o) col_mean ∧
        degenerate_bound example_vICL (rescaling_min o) (mean_arr o) (sigma_arr o) col_lb ∧
        degenerate_bound example_vICL (rescaling_min o) (mean_arr o) (sigma_arr o) col_ub.
Proof.
  assert (Hone : one_step_covers 2 (iclearner example_vICL))
    by exact (StubTrainer_one_step_covers (iclearner example_vICL)).
  destruct (degenerate_range_gives_min_or_nan example_vICL example_window 4 2)
    as [(b & self' & objs & cols & Hrun & Hobjs & Hinv & Hcols) _].
  - exact example_window_shape.
  - lia.
  - reflexivity.
  - simpl. lia.
  - exact example_vICL_transform_shape.
  - exact Hone.
  - split; [exact example_window_shape|].
    split; [exact example_vICL_transform_shape|]. split; [exact Hone|].
    exists b, self', objs, cols. do 3 (split; [assumption|]).
    split.
    + pose proof example_prediction as Hex. rewrite Hrun in Hex.
      injection Hex as _ Hself. subst self'.
      vm_compute in Hobjs. injection Hobjs as <-.
      eexists. split; [reflexivity|]. split; reflexivity.
    + intros c o Ho Hdeg.
      destruct (Hcols c o Ho Hdeg)
        as (cm & _ & cl & cu & Hm & _ & Hl & Hu & Hcm & _ & Hcl & Hcu).
      exists cm, cl, cu. repeat split; assumption.
Defined.

Lemma degenerate_range_not_rejected_example :
  has_shape example_window_R 4 2 ∧
  transform_shape (disentangler example_vICL_R) 2 2 ∧
  one_step_covers 2 (iclearner example_vICL_R) ∧
  ∃ b self' objs cols,
    predict_single_step example_window_R example_vICL_R = (Ok b, self') ∧
    icl_object self' = Some objs ∧
    stacked_and_inverted example_vICL_R cols b ∧
    ∀ c o, objs !! c = Some o → rescaling_max o = rescaling_min o →
      all_mean cols !! c = Some (replicate 3 (rescaling_min o)) ∧
      all_lb cols !! c = Some (replicate 3 (rescaling_min o)) ∧
      all_ub cols !! c = Some (replicate 3 (rescaling_min o)).
Proof.
  assert (Hone : one_step_covers 2 (iclearner example_vICL_R))
    by exact (StubTrainer_one_step_covers (iclearner example_vICL_R)).
  destruct (degenerate_range_not_rejected example_vICL_R example_window_R 4 2)
    as [(b & self' & objs & cols & Hrun & Hobjs & Hinv & Hcols) _].
  - exact example_window_R_shape.
  - lia.
  - reflexivity.
  - simpl. lia.
  - exact example_vICL_R_transform_shape.
  - exact Hone.
  - split; [exact example_window_R_shape|].
    split; [exact example_vICL_R_transform_shape|]. split; [exact Hone|].
    exists b, self', objs, cols. do 3 (split; [assumption|]).
    intros c o Ho Hdeg. destruct (Hcols c o Ho Hdeg) as (Hm & _ & Hl & Hu).
    repeat split; assumption.
Defined.

Lemma multi_step_one_step_portion_witness :
  has_shape example_window 4 2 ∧
  same_configuration example_vICL example_predicted ∧
  same_trainer_behaviour 2 (iclearner example_vICL) (iclearner example_predicted)
    1 false false ∧
  ∃ mean1 mode1 lb1 ub1 self1 mean2 mode2 lb2 ub2 self2,
    predict_single_step (slice_to example_window 3) example_vICL
    = (Ok (mean1, mode1, lb1, ub1), self1) ∧
    predict_multi_step example_window 1 false false example_predicted
    = (Ok (mean2, mode2, lb2, ub2), self2) ∧
    take 2 mean2 = mean1 ∧ take 2 mode2 = mode1 ∧
    take 2 lb2 = lb1 ∧ take 2 ub2 = ub1.
Proof.
  assert (Hcfg : same_configuration example_vICL example_predicted)
    by (repeat split; vm_compute; reflexivity).
  assert (Hsame : same_trainer_behaviour 2 (iclearner example_vICL)
                    (iclearner example_predicted) 1 false false).
  { apply (StubTrainer_same_behaviour (iclearner example_vICL)
             (iclearner example_predicted) 1 false false);
      vm_compute; reflexivity. }
  split; [exact example_window_shape|]. split; [exact Hcfg|]. split; [exact Hsame|].
  apply (multi_step_one_step_portion example_vICL example_predicted example_window 4 2
           false false).
  - exact example_window_shape.
  - lia.
  - reflexivity.
  - simpl. lia.
  - exact Hcfg.
  - exact example_vICL_transform_shape.
  - exact example_vICL_rowwise.
  - exact (StubTrainer_one_step_covers (iclearner example_vICL)).
  - exact Hsame.
Defined.

Lemma identity_variant_round_trip_example :
  has_shape example_window_R 4 2 ∧
  invertible_on (Sklearn.step0 (disentangler example_vICL_R)) 2 ∧
  transform_shape (Sklearn.step0 (disentangler example_vICL_R)) 2 2 ∧
  invertible_on (Sklearn.step1 (disentangler example_vICL_R)) 2 ∧
  (X_transformed ← transform example_window_R; inverse_transform X_transformed)
    example_vICL_R
  = (Ok example_window_R, example_vICL_R).
Proof.
  assert (Hshape : transform_shape example_scaler_R 2 2)
    by (by apply AffineScaler_transform_shape).
  split; [exact example_window_R_shape|].
  split; [exact example_scaler_R_invertible|].
  split; [exact Hshape|].
  split; [exact example_scaler_R_invertible|].
  apply (identity_variant_round_trip example_vICL_R example_window_R 4 2).
  - exact example_window_R_shape.
  - reflexivity.
  - exact example_scaler_R_invertible.
  - exact Hshape.
  - exact example_scaler_R_invertible.
Defined.

Lemma metrics_record_consistent_witness :
  ∃ m,
    compute_metrics stub_ks_metric 0 example_predicted = (Ok m, example_predicted) ∧
    ∃ kss agg,
      m !! "perdim_ks" = Some (Array1 kss) ∧
      m !! "agg_ks" = Some (Scalar (foldl add zero kss / of_nat (length kss))%A) ∧
      m !! "agg_squared_error" = Some (Array1 agg) ∧
      m !! "average_agg_squared_error"
      = Some (Scalar (foldl add zero (drop (Z.to_nat 0) agg)
                      / of_nat (length (drop (Z.to_nat 0) agg)))%A).
Proof.
  destruct (compute_metrics_run stub_ks_metric 0 example_predicted
              example_window [[1; 2]; [1; 2]; [1; 2]]%float
              (stub_statistics (iclearner example_predicted) 0)
              [[0; 1]; [0; 3]; [1; 2]]%float) as [m Hrun];
    [vm_compute; reflexivity..|].
  exists m. split; [exact Hrun|].
  apply (metrics_record_consistent stub_ks_metric 0 example_predicted m example_predicted).
  - lia.
  - exact Hrun.
Defined.

(** * Further properties *)

(** ** Step 3, outcome by outcome *)

Section Step3Facts.
Context {num : Type} `{!Arith num}.
Context {MinMaxScaler StandardScaler : Type}
        `{!Sklearn.TransformerMixin num MinMaxScaler}
        `{!Sklearn.TransformerMixin num StandardScaler}.
Context {D : Type} `{!Sklearn.TransformerMixin num D}.
Context {Model Tokenizer Tr : Type} `{!ICLTrainer num Model Tokenizer Tr}.

Local Abbreviation pipeline := (DICL num MinMaxScaler StandardScaler D Tr).
Implicit Types (self : pipeline) (o : ICLObject num) (objs : list (ICLObject num)).

Lemma bind_inverse_transform {B} a (f : matrix num → M pipeline B) self :
  (inverse_transform a ≫= f) self = f (Sklearn.inverse_transform (disentangler self) a) self.
Proof. done. Qed.

Lemma inverse_transform_predictions_step3 self objs :
  icl_object self = Some objs →
  inverse_transform_predictions self = step3 objs self.
Proof.
  intros Hobjs. unfold inverse_transform_predictions, step3.
  rewrite bind_get, bind_getattr, Hobjs, bind_lift.
  destruct (for_each _ _ _) as [cols|e]; [|done].
  rewrite bind_lift. destruct (concatenate_axis1 (all_mean cols)) as [a_mean|e]; [|done].
  rewrite bind_inverse_transform, bind_modify, bind_lift.
  destruct (concatenate_axis1 (all_mode cols)) as [a_mode|e]; [|done].
  rewrite bind_inverse_transform, bind_modify, bind_lift.
  destruct (concatenate_axis1 (all_lb cols)) as [a_lb|e]; [|done].
  rewrite bind_inverse_transform, bind_modify, bind_lift.
  destruct (concatenate_axis1 (all_ub cols)) as [a_ub|e]; [|done].
  rewrite bind_inverse_transform, bind_modify.
  by rewrite !bind_getattr.
Qed.

Lemma main_predict_single_step_eq X self :
  Main.predict_single_step X self =
  if shape1 X =? n_features self
  then step3 (one_step_statistics (iclearner self)
                (Sklearn.transform (disentangler self) (slice_to X (-1))))
         (main_single_step_forecast X self)
  else (Raise AssertionError, self).
Proof.
  unfold Main.predict_single_step. rewrite bind_get, bind_assert.
  destruct (shape1 X =? n_features self); [|done].
  rewrite !bind_modify, bind_transform, !bind_modify, bind_get.
  unfold main_single_step_forecast, one_step_statistics, step3. cbv zeta.
  cbn [iclearner set_iclearner disentangler set_X set_context_length].
  destruct (compute_statistics _) as [stats tr].
  rewrite bind_modify, bind_get, bind_lift. cbn [fst snd].
  destruct (for_each _ _ _) as [cols|e]; [|done].
  rewrite bind_lift. destruct (concatenate_axis1 (all_mean cols)) as [a_mean|e]; [|done].
  rewrite bind_inverse_transform, bind_modify, bind_lift.
  destruct (concatenate_axis1 (all_mode cols)) as [a_mode|e]; [|done].
  rewrite bind_inverse_transform, bind_modify, bind_lift.
  destruct (concatenate_axis1 (all_lb cols)) as [a_lb|e]; [|done].
  rewrite bind_inverse_transform, bind_modify, bind_lift.
  destruct (concatenate_axis1 (all_ub cols)) as [a_ub|e]; [|done].
  rewrite bind_inverse_transform, bind_modify.
  by rewrite !bind_getattr.
Qed.

Lemma for_each_ext {A V} (l : list A) (body body' : A → V → result V) (v : V) :
  (∀ x v, body x v = body' x v) → for_each l body v = for_each l body' v.
Proof.
  intros Hbody. revert v. induction l as [|x l IH]; intros v; [done|].
  rewrite !for_each_cons, Hbody. destruct (body' x v); [apply IH|done].
Qed.

(** Step 3 reads the object's configuration only: two objects with the same
    number of components, rescaling constants and disentangler get the same
    result. *)
Lemma step3_result_ext objs self self' :
  n_components self' = n_components self →
  rescale_factor self' = rescale_factor self →
  up_shift self' = up_shift self →
  disentangler self' = disentangler self →
  (step3 objs self').1 = (step3 objs self).1.
Proof.
  intros Hnc Hrf Hup Hdis. unfold step3. rewrite Hnc, Hdis.
  rewrite (for_each_ext _ (inverse_rescale_dim self' objs) (inverse_rescale_dim self objs)).
  2:{ intros dim acc. unfold inverse_rescale_dim. by rewrite Hrf, Hup. }
  destruct (for_each _ _ _) as [cols|e]; [|done].
  destruct (concatenate_axis1 (all_mean cols)) as [a_mean|e]; [|done].
  destruct (concatenate_axis1 (all_mode cols)) as [a_mode|e]; [|done].
  destruct (concatenate_axis1 (all_lb cols)) as [a_lb|e]; [|done].
  by destruct (concatenate_axis1 (all_ub cols)) as [a_ub|e].
Qed.

(** Step 3 assigns the four bundles and nothing else. *)
Lemma step3_frame objs self :
  let self' := (step3 objs self).2 in
  same_configuration self self' ∧
  iclearner self' = iclearner self ∧
  context_length self' = context_length self ∧
  X self' = X self ∧
  prediction_horizon self' = prediction_horizon self ∧
  icl_object self' = icl_object self.
Proof.
  unfold step3, same_configuration.
  destruct (for_each _ _ _) as [cols|e]; [|done].
  destruct (concatenate_axis1 (all_mean cols)) as [a_mean|e]; [|done].
  destruct (concatenate_axis1 (all_mode cols)) as [a_mode|e]; [|done].
  destruct (concatenate_axis1 (all_lb cols)) as [a_lb|e]; [|done].
  by destruct (concatenate_axis1 (all_ub cols)) as [a_ub|e].
Qed.

(** When step 3 returns, the bundles it returns are the bundles it has
    stored. *)
Lemma step3_Ok objs self mean_ mode_ lb_ ub_ self' :
  step3 objs self = (Ok (mean_, mode_, lb_, ub_), self') →
  mean self' = Some mean_ ∧ mode self' = Some mode_ ∧
  lb self' = Some lb_ ∧ ub self' = Some ub_.
Proof.
  unfold step3.
  destruct (for_each _ _ _) as [cols|e]; [|done].
  destruct (concatenate_axis1 (all_mean cols)) as [a_mean|e]; [|done].
  destruct (concatenate_axis1 (all_mode cols)) as [a_mode|e]; [|done].
  destruct (concatenate_axis1 (all_lb cols)) as [a_lb|e]; [|done].
  destruct (concatenate_axis1 (all_ub cols)) as [a_ub|e]; [|done].
  by intros [= <- <- <- <- <-].
Qed.

(** Whether the trainer output is stored on the object makes no difference
    to step 3. *)
Lemma step3_set_icl_object v objs self :
  (step3 objs (set_icl_object v self)).1 = (step3 objs self).1 ∧
  (step3 objs (set_icl_object v self)).2 = set_icl_object v (step3 objs self).2.
Proof.
  unfold step3. cbn [n_components disentangler set_icl_object].
  change (inverse_rescale_dim (set_icl_object v self) objs)
    with (inverse_rescale_dim self objs).
  destruct (for_each _ _ _) as [cols|e]; [|done].
  destruct (concatenate_axis1 (all_mean cols)) as [a_mean|e]; [|done].
  destruct (concatenate_axis1 (all_mode cols)) as [a_mode|e]; [|done].
  destruct (concatenate_axis1 (all_lb cols)) as [a_lb|e]; [|done].
  by destruct (concatenate_axis1 (all_ub cols)) as [a_ub|e].
Qed.

Lemma predict_single_step_step3 X self :
  predict_single_step X self =
  if shape1 X =? n_features self
  then step3 (one_step_statistics (iclearner self)
                (Sklearn.transform (disentangler self) (slice_to X (-1))))
         (single_step_forecast X self)
  else (Raise AssertionError, self).
Proof.
  rewrite predict_single_step_eq. destruct (shape1 X =? n_features self); [|done].
  by apply inverse_transform_predictions_step3.
Qed.

Lemma predict_multi_step_step3 X (h : Z) stochastic if_true_mean_else_mode self :
  predict_multi_step X h stochastic if_true_mean_else_mode self =
  if shape1 X =? n_features self
  then step3 (long_horizon_statistics (iclearner self)
                (Sklearn.transform (disentangler self) (slice_to X (-1 - h)))
                h stochastic if_true_mean_else_mode)
         (multi_step_forecast X h stochastic if_true_mean_else_mode self)
  else (Raise AssertionError, self).
Proof.
  rewrite predict_multi_step_eq. destruct (shape1 X =? n_features self); [|done].
  by apply inverse_transform_predictions_step3.
Qed.

End Step3Facts.

(** ** What a prediction call leaves on the object *)

Section PredictionState.
Context {num : Type} `{!Arith num}.
Context {MinMaxScaler StandardScaler : Type}
        `{!Sklearn.TransformerMixin num MinMaxScaler}
        `{!Sklearn.TransformerMixin num StandardScaler}.
Context {D : Type} `{!Sklearn.TransformerMixin num D}.
Context {Model Tokenizer Tr : Type} `{!ICLTrainer num Model Tokenizer Tr}.

Local Abbreviation pipeline := (DICL num MinMaxScaler StandardScaler D Tr).
Implicit Types (self : pipeline) (o : ICLObject num) (objs : list (ICLObject num)).

(** X1: a window whose number of columns is not the configured number of
    features makes [predict_single_step] and [predict_multi_step] raise
    [AssertionError] before anything is assigned: the object is left as it
    was. *)
Theorem shape_mismatch_fails_fast self X T F (h : Z) stochastic if_true_mean_else_mode :
  has_shape X T F → 1 ≤ T → F ≠ n_features self →
  predict_single_step X self = (Raise AssertionError, self) ∧
  predict_multi_step X h stochastic if_true_mean_else_mode self
  = (Raise AssertionError, self).
Proof.
  intros HX HT HF.
  assert (Hcols : (shape1 X =? n_features self) = false).
  { apply Nat.eqb_neq. by rewrite (shape1_has_shape X T F). }
  by rewrite predict_single_step_eq, predict_multi_step_eq, Hcols.
Qed.

(** X2: when [predict_single_step] returns, the object holds the window,
    its number of rows, the trainer's one-step statistics on the
    disentangled context, and the four bundles it has returned; the
    horizon of an earlier multi-step call and the configuration are left
    as they were. *)
Theorem single_step_stores_forecast window self mean_ mode_ lb_ ub_ self' :
  predict_single_step window self = (Ok (mean_, mode_, lb_, ub_), self') →
  X self' = Some window ∧
  context_length self' = Some (length window) ∧
  icl_object self' =
    Some (one_step_statistics (iclearner self)
            (Sklearn.transform (disentangler self) (slice_to window (-1)))) ∧
  mean self' = Some mean_ ∧ mode self' = Some mode_ ∧
  lb self' = Some lb_ ∧ ub self' = Some ub_ ∧
  prediction_horizon self' = prediction_horizon self ∧
  same_configuration self self'.
Proof.
  rewrite predict_single_step_step3. destruct (shape1 window =? n_features self); [|done].
  intros Hrun.
  match type of Hrun with step3 ?objs ?s = _ =>
    pose proof (step3_frame objs s) as Hframe end.
  cbv zeta in Hframe. rewrite Hrun in Hframe.
  destruct Hframe as (Hcfg & _ & Hcl & HX & Hh & Hobjs).
  apply step3_Ok in Hrun as (Hmean & Hmode & Hlb & Hub).
  split; [exact HX|]. split; [exact Hcl|]. split; [exact Hobjs|].
  split; [exact Hmean|]. split; [exact Hmode|]. split; [exact Hlb|].
  split; [exact Hub|]. split; [exact Hh|exact Hcfg].
Qed.

(** X3: when [predict_multi_step] returns, the object holds the window,
    its number of rows, the horizon, the trainer's long-horizon statistics
    on the disentangled context (the window without its last
    [prediction_horizon + 1] rows), and the four bundles it has returned. *)
Theorem multi_step_stores_forecast window (h : Z) stochastic if_true_mean_else_mode self
    mean_ mode_ lb_ ub_ self' :
  predict_multi_step window h stochastic if_true_mean_else_mode self
  = (Ok (mean_, mode_, lb_, ub_), self') →
  X self' = Some window ∧
  context_length self' = Some (length window) ∧
  prediction_horizon self' = Some h ∧
  icl_object self' =
    Some (long_horizon_statistics (iclearner self)
            (Sklearn.transform (disentangler self) (slice_to window (-1 - h)))
            h stochastic if_true_mean_else_mode) ∧
  mean self' = Some mean_ ∧ mode self' = Some mode_ ∧
  lb self' = Some lb_ ∧ ub self' = Some ub_ ∧
  same_configuration self self'.
Proof.
  rewrite predict_multi_step_step3. destruct (shape1 window =? n_features self); [|done].
  intros Hrun.
  match type of Hrun with step3 ?objs ?s = _ =>
    pose proof (step3_frame objs s) as Hframe end.
  cbv zeta in Hframe. rewrite Hrun in Hframe.
  destruct Hframe as (Hcfg & _ & Hcl & HX & Hh & Hobjs).
  apply step3_Ok in Hrun as (Hmean & Hmode & Hlb & Hub).
  split; [exact HX|]. split; [exact Hcl|]. split; [exact Hh|]. split; [exact Hobjs|].
  split; [exact Hmean|]. split; [exact Hmode|]. split; [exact Hlb|].
  split; [exact Hub|exact Hcfg].
Qed.

(** X4: a prediction keeps no history.  From two states of a pipeline
    with the same configuration, whatever window, bundles and horizon they
    hold, both prediction methods return the same result on the same
    window, provided the trainer returns the same statistics from both
    states. *)
Theorem prediction_ignores_stored_forecast self self' X :
  same_configuration self self' →
  (∀ ctx, one_step_statistics (iclearner self') ctx
          = one_step_statistics (iclearner self) ctx) →
  (∀ ctx h stochastic if_true_mean_else_mode,
     long_horizon_statistics (iclearner self') ctx h stochastic if_true_mean_else_mode
     = long_horizon_statistics (iclearner self) ctx h stochastic if_true_mean_else_mode) →
  (predict_single_step X self').1 = (predict_single_step X self).1 ∧
  ∀ (h : Z) stochastic if_true_mean_else_mode,
    (predict_multi_step X h stochastic if_true_mean_else_mode self').1
    = (predict_multi_step X h stochastic if_true_mean_else_mode self).1.
Proof.
  intros (Hnf & Hnc & Hrf & Hup & Hdis) Hone Hlong. split.
  - rewrite !predict_single_step_step3, Hnf, Hdis, Hone.
    destruct (shape1 X =? n_features self); [|done].
    by apply step3_result_ext.
  - intros h st m.
    rewrite !predict_multi_step_step3, Hnf, Hdis, Hlong.
    destruct (shape1 X =? n_features self); [|done].
    by apply step3_result_ext.
Qed.


Lemma set_icl_object_same v self : same_but_icl_object (set_icl_object v self) self.
Proof. by repeat split. Qed.

(** X7: the earlier copy of [predict_single_step]
    ([src/dicl/main/dicl.py]) returns what the later one returns, raising
    the same exception if it raises, and leaves the same object, except
    that it does not store the trainer's output: [icl_object] is as it
    was. *)
Theorem earlier_copy_agrees X self :
  (Main.predict_single_step X self).1 = (predict_single_step X self).1 ∧
  same_but_icl_object (predict_single_step X self).2 (Main.predict_single_step X self).2 ∧
  icl_object (Main.predict_single_step X self).2 = icl_object self.
Proof.
  rewrite main_predict_single_step_eq, predict_single_step_step3.
  destruct (shape1 X =? n_features self); [|by repeat split].
  set (objs := one_step_statistics _ _).
  change (single_step_forecast X self)
    with (set_icl_object objs (main_single_step_forecast X self)).
  destruct (step3_set_icl_object objs objs (main_single_step_forecast X self)) as [-> ->].
  split; [reflexivity|]. split; [apply set_icl_object_same|].
  generalize (step3_frame objs (main_single_step_forecast X self)). cbv zeta.
  by intros (_ & _ & _ & _ & _ & ->).
Qed.

End PredictionState.

(** The earlier copy's [vICL] refuses a number of components that is not
    the number of features. *)
Lemma main_vICL_init_checks {num} `{!Arith num} {MinMaxScaler StandardScaler : Type}
    `{!Sklearn.TransformerMixin num MinMaxScaler}
    `{!Sklearn.TransformerMixin num StandardScaler}
    (MinMaxScaler_init : MinMaxScaler) (StandardScaler_init : StandardScaler)
    {Model Tokenizer Tr : Type} `{!ICLTrainer num Model Tokenizer Tr}
    (n_features n_components : nat) (model : Model) (tokenizer : Tokenizer)
    (rescale_factor up_shift : num) :
  Main.vICL_init MinMaxScaler_init StandardScaler_init n_features n_components
    model tokenizer rescale_factor up_shift =
  if decide (n_features = n_components)
  then Ok (vICL_init MinMaxScaler_init StandardScaler_init n_features
             model tokenizer rescale_factor up_shift)
  else Raise AssertionError.
Proof.
  unfold Main.vICL_init, vICL_init.
  destruct (Nat.eqb_spec n_features n_components) as [->|Hne].
  - by rewrite decide_True.
  - by rewrite decide_False.
Qed.


Section PlotFacts.
Context {num : Type} `{!Arith num}.
Context {MinMaxScaler StandardScaler : Type}
        `{!Sklearn.TransformerMixin num MinMaxScaler}
        `{!Sklearn.TransformerMixin num StandardScaler}.
Context {D : Type} `{!Sklearn.TransformerMixin num D}.
Context {Model Tokenizer Tr : Type} `{!ICLTrainer num Model Tokenizer Tr}.

Local Abbreviation pipeline := (DICL num MinMaxScaler StandardScaler D Tr).
Implicit Types (self : pipeline).

Lemma column_Ok (a : matrix num) r c dim :
  has_shape a r c → dim < c →
  ∃ v, column a dim = Ok v ∧ length v = r ∧
       Forall2 (λ (row : vector num) x, row !! dim = Some x) a v.
Proof.
  intros [Hr Hrows] Hdim. subst r. induction Hrows as [|row a Hrow _ (v & Hv & Hlen & Hall)].
  - by exists [].
  - destruct (lookup_lt_is_Some_2 row dim) as [x Hx]; [lia|].
    assert (Hget : getitem row dim = Ok x) by (unfold getitem; by rewrite Hx).
    exists (x :: v). unfold column in *. cbn [mapM]. rewrite Hget, bind_Ok, Hv, bind_Ok. split; [done|]. split; [by rewrite !length_cons, Hlen|].
    by constructor.
Qed.

Lemma for_each_seq_invariant {V} (P : nat → V → Prop) (body : nat → V → result V) n :
  ∀ a v,
    P a v →
    (∀ i v, a ≤ i < a + n → P i v → ∃ v', body i v = Ok v' ∧ P (S i) v') →
    ∃ v', for_each (seq a n) body v = Ok v' ∧ P (a + n) v'.
Proof.
  induction n as [|n IH]; intros a v Hv Hbody.
  - exists v. by rewrite Nat.add_0_r.
  - destruct (Hbody a v) as (v' & Hv' & HP); [lia|done|].
    cbn [seq]. rewrite for_each_cons, Hv', bind_Ok.
    destruct (IH (S a) v') as (v'' & Hrun & HP''); [done| |].
    + intros i w Hi. apply Hbody. lia.
    + exists v''. split; [done|]. by replace (a + S n) with (S a + n) by lia.
Qed.

Lemma length_arange (stop : Z) : length (arange stop) = Z.to_nat stop.
Proof. unfold arange. by rewrite length_fmap, length_seq. Qed.


Lemma axes_grid_lookup self dim :
  dim < n_features self → getitem (axes_grid self) dim = Ok dim.
Proof.
  intros Hdim. unfold getitem, axes_grid. rewrite lookup_seq_lt; [done|].
  pose proof (Nat.div_mod_eq (n_features self) 3).
  pose proof (Nat.mod_upper_bound (n_features self) 3). lia.
Qed.

Lemma feature_names_lookup self F feature_names dim :
  n_features self = F → feature_names_cover F feature_names → dim < F →
  ∃ name, getitem (feature_names_or_default self feature_names) dim = Ok name.
Proof.
  intros HF Hcover Hdim. unfold getitem.
  destruct (lookup_lt_is_Some_2 (feature_names_or_default self feature_names) dim)
    as [name ->]; [|by exists name].
  unfold feature_names_or_default, default_feature_names.
  destruct feature_names as [[|name names]|]; simpl in *;
    rewrite ?length_fmap, ?length_seq; lia.
Qed.


(** The loop body of [plot_single_step] on an object that holds a
    forecast: only the look-up of the feature's name can raise. *)
Lemma plot_single_step_dim_eq self T F names xlim dim :
  forecast_stored self T F → dim < F →
  ∃ y0 y1 y2 y3 y4 lim,
    length y0 = T - 1 ∧ length y1 = T - 1 ∧ length y2 = T - 1 ∧
    length y3 = T - 1 ∧ length y4 = T - 1 ∧
    ∀ acc,
      plot_single_step_dim self names xlim dim acc =
      (name ← getitem names dim;
       Ok (acc.1 ++
           [Plt.on_axes dim
              (Plt.plot (arange (Z.of_nat T - 1)) y0 "groundtruth" (Some (Plt.named "red")));
            Plt.on_axes dim
              (Plt.plot (arange (Z.of_nat T - 1)) y1 "mode" (Some (Plt.named "black")));
            Plt.on_axes dim
              (Plt.plot (arange (Z.of_nat T - 1)) y2 "mean $\pm$ std"
                 (Some (Plt.colorblind 0)));
            Plt.on_axes dim
              (Plt.fill_between (arange (Z.of_nat T - 1)) y3 y4 (Some (Plt.colorblind 0)));
            Plt.on_axes dim (Plt.set_ylabel name);
            Plt.on_axes dim (Plt.set_yticklabels []);
            Plt.on_axes dim (Plt.set_xlim lim)],
           Some dim)).
Proof.
  intros (HF & Hcl & (X_ & HX & HXs) & (mean_ & Hmean & Hmeans) & (mode_ & Hmode & Hmodes) &
          (lb_ & Hlb & Hlbs) & (ub_ & Hub & Hubs)) Hdim.
  assert (HXtail : has_shape (slice_from X_ 1) (T - 1) F)
    by (rewrite slice_from_nonneg by lia; by apply has_shape_drop).
  destruct (column_Ok _ _ _ dim HXtail Hdim) as (y0 & Hc0 & Hy0 & _).
  destruct (column_Ok _ _ _ dim Hmodes Hdim) as (y1 & Hc1 & Hy1 & _).
  destruct (column_Ok _ _ _ dim Hmeans Hdim) as (y2 & Hc2 & Hy2 & _).
  destruct (column_Ok _ _ _ dim Hlbs Hdim) as (y3 & Hc3 & Hy3 & _).
  destruct (column_Ok _ _ _ dim Hubs Hdim) as (y4 & Hc4 & Hy4 & _).
  exists y0, y1, y2, y3, y4. eexists. do 5 (split; [done|]). intros acc.
  unfold plot_single_step_dim.
  rewrite axes_grid_lookup by lia. rewrite bind_Ok, Hcl, HX, Hmode, Hmean, Hlb, Hub.
  cbn [attr]. rewrite !bind_Ok, Hc0, !bind_Ok, Hc1, !bind_Ok, Hc2, !bind_Ok, Hc3, !bind_Ok,
    Hc4, !bind_Ok.
  reflexivity.
Qed.




End PlotFacts.


(** ** Plotting *)

Section Plots.
Context {num : Type} `{!Arith num}.
Context {MinMaxScaler StandardScaler : Type}
        `{!Sklearn.TransformerMixin num MinMaxScaler}
        `{!Sklearn.TransformerMixin num StandardScaler}.
Context {D : Type} `{!Sklearn.TransformerMixin num D}.
Context {Model Tokenizer Tr : Type} `{!ICLTrainer num Model Tokenizer Tr}.

Local Abbreviation pipeline := (DICL num MinMaxScaler StandardScaler D Tr).
Implicit Types (self : pipeline).

Lemma finish_plot_Drawn self savefigpath events ax :
  ∃ tail,
    finish_plot self savefigpath (Ok (events, Some ax)) =
    Plt.Drawn ([Plt.on_plt (Plt.subplots (n_features self / 3 + 1) 3)] ++ events ++
               [Plt.on_axes ax Plt.legend] ++ tail) ∧
    Forall (λ e, ∃ c, e = Plt.on_plt c) tail.
Proof.
  destruct savefigpath as [[|c p]|]; eexists; (split; [reflexivity|]);
    repeat constructor; by eexists.
Qed.

Lemma on_plt_aligned (tail : list (Plt.event num)) :
  Forall (λ e, ∃ c, e = Plt.on_plt c) tail → Forall Plt.aligned tail.
Proof. intros Htail. eapply Forall_impl; [exact Htail|]. by intros e [c ->]. Qed.

Lemma on_plt_within_axes F (tail : list (Plt.event num)) :
  Forall (λ e, ∃ c, e = Plt.on_plt c) tail → Forall (within_axes F) tail.
Proof. intros Htail. eapply Forall_impl; [exact Htail|]. by intros e [c ->]. Qed.

(** The loop of [plot_single_step] on an object that holds a forecast. *)
Lemma plot_single_step_loop self T F feature_names xlim :
  forecast_stored self T F → feature_names_cover F feature_names →
  ∃ events,
    for_each (seq 0 (n_features self))
      (plot_single_step_dim self (feature_names_or_default self feature_names) xlim)
      ([], None)
    = Ok (events, match F with 0 => None | S j => Some j end) ∧
    Forall Plt.aligned events ∧ Forall (within_axes F) events.
Proof.
  intros Hst Hcover. pose proof Hst as (Hn & _).
  destruct (for_each_seq_invariant
    (λ i (acc : list (Plt.event num) * option nat),
       Forall Plt.aligned acc.1 ∧ Forall (within_axes F) acc.1 ∧
       acc.2 = match i with 0 => None | S j => Some j end)
    (plot_single_step_dim self (feature_names_or_default self feature_names) xlim)
    (n_features self) 0 ([], None)) as ([events ax] & -> & Ha & Hw & Hax).
  { by repeat split. }
  { intros i acc Hi (Ha & Hw & _).
    destruct (plot_single_step_dim_eq self T F
                (feature_names_or_default self feature_names) xlim i Hst)
      as (y0 & y1 & y2 & y3 & y4 & lim & Hy0 & Hy1 & Hy2 & Hy3 & Hy4 & ->); [lia|].
    destruct (feature_names_lookup self F feature_names i Hn Hcover) as [name ->]; [lia|].
    rewrite bind_Ok. eexists. split; [reflexivity|]. cbn [fst snd].
    assert (Hx : length (arange (Z.of_nat T - 1)) = T - 1) by (rewrite length_arange; lia).
    split; [|split; [|done]].
    - apply Forall_app. split; [done|]. repeat constructor; simpl; lia.
    - apply Forall_app. split; [done|]. repeat constructor; simpl; lia. }
  cbn [fst snd] in *. rewrite Hn in Hax. subst ax. by exists events.
Qed.

(** X8: on an object that holds a forecast of a window of [T] rows and
    [F >= 1] features, with a name for every feature, [plot_single_step]
    raises nothing of its own and issues its calls: every curve and band is
    given as many x values as y values, only the first [F] axes of the grid
    are drawn on, the grid has at least one axes more than there are
    features, and the legend is put on the axes of the last feature. *)
Theorem plot_single_step_draws self T F feature_names xlim savefigpath :
  forecast_stored self T F → 1 ≤ F → feature_names_cover F feature_names →
  ∃ events,
    plot_single_step feature_names xlim savefigpath self = Plt.Drawn events ∧
    Forall Plt.aligned events ∧
    Forall (within_axes F) events ∧
    F < length (axes_grid self) ∧
    Plt.on_axes (F - 1) Plt.legend ∈ events.
Proof.
  intros Hst HF Hcover. pose proof Hst as (Hn & _).
  unfold plot_single_step. cbv zeta.
  destruct (plot_single_step_loop self T F feature_names xlim Hst Hcover)
    as (events & -> & Ha & Hw).
  destruct F as [|F']; [lia|]. replace (S F' - 1) with F' by lia.
  destruct (finish_plot_Drawn self savefigpath events F') as (tail & -> & Htail).
  eexists. split; [reflexivity|]. split; [|split; [|split]].
  - repeat (apply Forall_app; split); try done; [by repeat constructor..|].
    by apply on_plt_aligned.
  - repeat (apply Forall_app; split); try done; [repeat constructor; simpl; lia..|].
    by apply on_plt_within_axes.
  - unfold axes_grid. rewrite length_seq, Hn.
    pose proof (Nat.div_mod_eq (S F') 3). pose proof (Nat.mod_upper_bound (S F') 3). lia.
  - rewrite !elem_of_app, !elem_of_cons. auto.
Qed.










(** X12: before any prediction, on an object with a feature to plot, both
    plotting methods raise [AttributeError] for [context_length], the first
    attribute the loop reads. *)
Theorem plot_before_prediction self feature_names xlim savefigpath :
  context_length self = None → 1 ≤ n_features self →
  plot_single_step feature_names xlim savefigpath self
  = Plt.Raised (AttributeError "context_length") ∧
  plot_multi_step feature_names xlim savefigpath self
  = Plt.Raised (AttributeError "context_length").
Proof.
  intros Hcl Hn.
  assert (Hsingle : ∀ names acc,
            plot_single_step_dim self names xlim 0 acc
            = Raise (AttributeError "context_length")).
  { intros names acc. unfold plot_single_step_dim.
    rewrite axes_grid_lookup by lia. by rewrite bind_Ok, Hcl. }
  assert (Hmulti : ∀ names acc,
            plot_multi_step_dim self names xlim 0 acc
            = Raise (AttributeError "context_length")).
  { intros names acc. unfold plot_multi_step_dim.
    rewrite axes_grid_lookup by lia. by rewrite bind_Ok, Hcl. }
  unfold plot_single_step, plot_multi_step. cbv zeta.
  destruct (n_features self) as [|n]; [lia|].
  cbn [seq]. by rewrite !for_each_cons, Hsingle, Hmulti.
Qed.

(** X13: on an object with no feature both loops are empty, and the call
    [ax.legend] after them finds [ax] unbound: both plotting methods raise
    [UnboundLocalError]. *)
Theorem plot_without_features self feature_names xlim savefigpath :
  n_features self = 0 →
  plot_single_step feature_names xlim savefigpath self = Plt.RaisedUnboundLocal "ax" ∧
  plot_multi_step feature_names xlim savefigpath self = Plt.RaisedUnboundLocal "ax".
Proof. intros Hn. unfold plot_single_step, plot_multi_step. by rewrite Hn. Qed.

End Plots.


(** ** The two copies of [plot_single_step] *)

Section PlotCopies.
Context {num : Type} `{!Arith num}.
Context {MinMaxScaler StandardScaler : Type}
        `{!Sklearn.TransformerMixin num MinMaxScaler}
        `{!Sklearn.TransformerMixin num StandardScaler}.
Context {D : Type} `{!Sklearn.TransformerMixin num D}.
Context {Model Tokenizer Tr : Type} `{!ICLTrainer num Model Tokenizer Tr}.

Local Abbreviation pipeline := (DICL num MinMaxScaler StandardScaler D Tr).
Implicit Types (self : pipeline) (events : list (Plt.event num)).

Lemma without_xlim_app events events' :
  without_xlim (events ++ events') = without_xlim events ++ without_xlim events'.
Proof. apply List.filter_app. Qed.

Lemma xlim_on_app ax events events' :
  xlim_on ax (events ++ events') =
  match xlim_on ax events' with
  | Some l => Some l
  | None => xlim_on ax events
  end.
Proof. unfold xlim_on. by rewrite omap_app, last_app. Qed.

Lemma for_each_same {A} (l : list A)
    (body body' : A → list (Plt.event num) * option nat →
                  result (list (Plt.event num) * option nat)) :
  (∀ x acc acc', same_so_far acc acc' → same_result (body x acc) (body' x acc')) →
  ∀ acc acc', same_so_far acc acc' →
    same_result (for_each l body acc) (for_each l body' acc').
Proof.
  intros Hbody. induction l as [|x l IH]; intros acc acc' Hacc; [done|].
  rewrite !for_each_cons. pose proof (Hbody x acc acc' Hacc) as Hx.
  destruct (body x acc) as [v|e], (body' x acc') as [v'|e']; try done.
  rewrite !bind_Ok. by apply IH.
Qed.

(** One round of the two loops. *)
Lemma plot_single_step_dim_same self names xlim dim acc acc' :
  same_so_far acc acc' →
  same_result (Main.plot_single_step_dim self names xlim dim acc)
              (plot_single_step_dim self names xlim dim acc').
Proof.
  intros (Hw & Hx & Hax). unfold Main.plot_single_step_dim, plot_single_step_dim.
  destruct (getitem (axes_grid self) dim) as [ax|e]; [|done]. rewrite !bind_Ok.
  destruct (attr "context_length" (context_length self)) as [T|e]; [|done]. rewrite !bind_Ok.
  destruct (attr "X" (X self)) as [X_|e]; [|done]. rewrite !bind_Ok.
  destruct (column (slice_from X_ 1) dim) as [y0|e]; [|done]. rewrite !bind_Ok.
  destruct (attr "mode" (mode self)) as [mode_|e]; [|done]. rewrite !bind_Ok.
  destruct (column mode_ dim) as [y1|e]; [|done]. rewrite !bind_Ok.
  destruct (attr "mean" (mean self)) as [mean_|e]; [|done]. rewrite !bind_Ok.
  destruct (column mean_ dim) as [y2|e]; [|done]. rewrite !bind_Ok.
  destruct (attr "lb" (lb self)) as [lb_|e]; [|done]. rewrite !bind_Ok.
  destruct (column lb_ dim) as [y3|e]; [|done]. rewrite !bind_Ok.
  destruct (attr "ub" (ub self)) as [ub_|e]; [|done]. rewrite !bind_Ok.
  destruct (column ub_ dim) as [y4|e]; [|done]. rewrite !bind_Ok.
  destruct (getitem names dim) as [name|e]; [|done]. rewrite !bind_Ok.
  split; [|split; [|done]]; cbn [fst snd].
  - rewrite !fmap_app, !without_xlim_app, Hw. f_equal. by destruct xlim.
  - intros ax'. rewrite !xlim_on_app, Hx. unfold xlim_on.
    destruct xlim as [l|]; simpl; by destruct (ax =? ax').
Qed.

(** X18: the earlier copy of [plot_single_step]
    ([src/dicl/main/dicl.py]) and the later one agree, on every object and
    for all arguments, up to two differences: they raise the same
    exception, or they make the same calls with the same data and the same
    colours, apart from the colour of the mean curve and of the band and
    from the calls that set the limits of the x axis, and leave every axes
    with the same limits.  The earlier copy gives the mean curve and the
    band no colour, the later one the first colour of the colorblind
    palette; the earlier copy sets the default limits before the label and
    a given [xlim] after it, the later one sets the one or the other. *)
Theorem earlier_copy_draws_the_same self feature_names xlim savefigpath :
  same_drawing (Main.plot_single_step feature_names xlim savefigpath self)
               (plot_single_step feature_names xlim savefigpath self).
Proof.
  unfold Main.plot_single_step, plot_single_step. cbv zeta.
  assert (Hloop : same_result
    (for_each (seq 0 (n_features self))
       (Main.plot_single_step_dim self (feature_names_or_default self feature_names) xlim)
       ([], None))
    (for_each (seq 0 (n_features self))
       (plot_single_step_dim self (feature_names_or_default self feature_names) xlim)
       ([], None))).
  { apply for_each_same; [|done]. intros dim acc acc'. apply plot_single_step_dim_same. }
  destruct (for_each _ (Main.plot_single_step_dim _ _ _) _) as [[events ax]|e],
    (for_each _ (plot_single_step_dim _ _ _) _) as [[events' ax']|e']; try done.
  destruct Hloop as (Hw & Hx & Hax). cbn [fst snd] in *. subst ax'.
  destruct ax as [ax|]; [|done]. unfold finish_plot, same_drawing. split.
  - by rewrite !fmap_app, !without_xlim_app, Hw.
  - intros ax'. by rewrite !xlim_on_app, Hx.
Qed.

End PlotCopies.

(** ** Metrics of a stored forecast *)

Section MetricsFacts.
Context {num : Type} `{!Arith num}.
Implicit Types (a b : matrix num).

(** On two arrays of one shape, broadcasting is entry-by-entry. *)
Lemma broadcast2_same_shape (f : num → num → num) a b r c :
  has_shape a r c → has_shape b r c →
  broadcast2 f a b = Ok (zip_with (zip_with f) a b).
Proof.
  intros [Hra Hca] [Hrb Hcb]. unfold broadcast2.
  rewrite Hra, Hrb, Nat.eqb_refl, bind_Ok. clear Hra Hrb r.
  revert b Hcb. induction Hca as [|row a Hrow _ IH]; intros [|row' b] Hcb; try done.
  apply Forall_cons in Hcb as [Hrow' Hcb].
  cbn [zip zip_with mapM fst snd].
  rewrite broadcast1_same_length by congruence.
  by rewrite bind_Ok, IH, bind_Ok.
Qed.

Lemma has_shape_zip_with (f : num → num → num) a b r c :
  has_shape a r c → has_shape b r c → has_shape (zip_with (zip_with f) a b) r c.
Proof.
  intros [Hra Hca] [Hrb Hcb]. split; [rewrite length_zip_with; lia|].
  clear Hra Hrb. revert b Hcb.
  induction Hca as [|row a Hrow _ IH]; intros [|row' b] Hcb; try done.
  apply Forall_cons in Hcb as [Hrow' Hcb]. constructor; [|by apply IH].
  rewrite length_zip_with. lia.
Qed.

Lemma has_shape_square a r c : has_shape a r c → has_shape (square a) r c.
Proof.
  intros [Hr Hc]. split; [by unfold square; rewrite length_fmap|].
  apply Forall_fmap. eapply Forall_impl; [exact Hc|]. intros row Hrow. simpl.
  by rewrite length_fmap.
Qed.

Lemma length_mean_axis0 a r c : has_shape a r c → 1 ≤ r → length (mean_axis0 a) = c.
Proof.
  intros [Hr Hc] Hpos. unfold mean_axis0. rewrite length_fmap.
  destruct (transpose_shape a c) as [Hlen _]; [by intros ->; simpl in *; lia|done|done].
Qed.

End MetricsFacts.

Section MetricsOfForecast.
Context {num : Type} `{!Arith num}.
Context {MinMaxScaler StandardScaler : Type}
        `{!Sklearn.TransformerMixin num MinMaxScaler}
        `{!Sklearn.TransformerMixin num StandardScaler}.
Context {D : Type} `{!Sklearn.TransformerMixin num D}.
Context {Model Tokenizer Tr : Type} `{!ICLTrainer num Model Tokenizer Tr}.
Context {Quantiles : Type}
        (compute_ks_metric :
           matrix num → list (ICLObject num) → nat → nat →
           (matrix num → matrix num) → Z → vector num * Quantiles).

Local Abbreviation pipeline := (DICL num MinMaxScaler StandardScaler D Tr).
Implicit Types (self : pipeline).

(** On an object that holds a forecast, the difference of
    [compute_metrics] is taken row by row, entry by entry. *)
Lemma forecast_errors self T F :
  forecast_stored self T F →
  ∃ X_ mean_,
    X self = Some X_ ∧ mean self = Some mean_ ∧
    has_shape (slice_from X_ 1) (T - 1) F ∧ has_shape mean_ (T - 1) F ∧
    broadcast2 sub (slice_from X_ 1) mean_
    = Ok (zip_with (zip_with sub) (slice_from X_ 1) mean_).
Proof.
  intros (_ & _ & (X_ & HX & HXs) & (mean_ & Hmean & Hmeans) & _).
  assert (HXtail : has_shape (slice_from X_ 1) (T - 1) F)
    by (rewrite slice_from_nonneg by lia; by apply has_shape_drop).
  exists X_, mean_. do 4 (split; [done|]). by eapply broadcast2_same_shape.
Qed.

(** X14: on an object that holds a forecast and the trainer's output,
    [compute_metrics] with a burn-in [0 <= burnin < T - 1] returns and leaves
    the object as it is; the record has exactly the six keys, its
    ["agg_squared_error"] has one entry per forecast step ([T - 1]) and its
    ["average_perdim_squared_error"] one per feature ([F]). *)
Theorem metrics_after_prediction burnin self T F objs :
  forecast_stored self T F → icl_object self = Some objs →
  (0 ≤ burnin < Z.of_nat T - 1)%Z →
  ∃ m agg avg_perdim,
    compute_metrics compute_ks_metric burnin self = (Ok m, self) ∧
    dom m = list_to_set
              ["average_agg_squared_error"; "agg_squared_error";
               "average_perdim_squared_error"; "perdim_squared_error";
               "perdim_ks"; "agg_ks"] ∧
    m !! "agg_squared_error" = Some (Array1 agg) ∧ length agg = T - 1 ∧
    m !! "average_perdim_squared_error" = Some (Array1 avg_perdim) ∧
    length avg_perdim = F.
Proof.
  intros Hst Hobjs Hb.
  destruct (forecast_errors self T F Hst) as (X_ & mean_ & HX & Hmean & HXs & Hmeans & Hd).
  destruct (compute_metrics_run compute_ks_metric burnin self _ _ _ _ HX Hmean Hobjs Hd)
    as [m Hrun].
  exists m.
  destruct (compute_metrics_Ok compute_ks_metric burnin self m self Hrun)
    as (X' & mean' & objs' & d & HX' & Hmean' & _ & Hd' & Hm).
  assert (X' = X_) as -> by congruence. assert (mean' = mean_) as -> by congruence.
  assert (d = zip_with (zip_with sub) (slice_from X_ 1) mean_) as -> by congruence.
  cbv zeta in Hm. subst m. eexists _, _. split; [exact Hrun|].
  split; [rewrite !dom_insert_L, dom_empty_L; set_solver|].
  split; [by simplify_map_eq|].
  split.
  { unfold linalg_norm_axis1. rewrite length_fmap.
    by destruct (has_shape_zip_with sub _ _ _ _ HXs Hmeans). }
  split; [by simplify_map_eq|].
  rewrite slice_from_nonneg by lia.
  eapply (length_mean_axis0 _ (T - 1 - Z.to_nat burnin)); [|lia].
  apply has_shape_drop, has_shape_square. by apply has_shape_zip_with.
Qed.

(** X15: the burn-in is not checked against the number of forecast steps:
    for [burnin >= T - 1], [compute_metrics] still returns, and
    ["average_agg_squared_error"] is the mean of an array without entries,
    [0 / 0] (NaN in binary64). *)
Theorem burnin_beyond_forecast burnin self T F objs :
  forecast_stored self T F → icl_object self = Some objs →
  (Z.of_nat T - 1 ≤ burnin)%Z → 1 ≤ T →
  ∃ m,
    compute_metrics compute_ks_metric burnin self = (Ok m, self) ∧
    m !! "average_agg_squared_error" = Some (Scalar (zero / of_nat 0)%A).
Proof.
  intros Hst Hobjs Hb HT.
  destruct (forecast_errors self T F Hst) as (X_ & mean_ & HX & Hmean & HXs & Hmeans & Hd).
  destruct (compute_metrics_run compute_ks_metric burnin self _ _ _ _ HX Hmean Hobjs Hd)
    as [m Hrun].
  exists m. split; [exact Hrun|].
  destruct (compute_metrics_Ok compute_ks_metric burnin self m self Hrun)
    as (X' & mean' & objs' & d & HX' & Hmean' & _ & Hd' & Hm).
  assert (X' = X_) as -> by congruence. assert (mean' = mean_) as -> by congruence.
  assert (d = zip_with (zip_with sub) (slice_from X_ 1) mean_) as -> by congruence.
  cbv zeta in Hm. subst m.
  assert (Hempty : slice_from (linalg_norm_axis1
                     (zip_with (zip_with sub) (slice_from X_ 1) mean_)) burnin = []).
  { rewrite slice_from_nonneg by lia. apply drop_ge.
    unfold linalg_norm_axis1. rewrite length_fmap.
    destruct (has_shape_zip_with sub _ _ _ _ HXs Hmeans) as [-> _]. lia. }
  rewrite Hempty. by simplify_map_eq.
Qed.

End MetricsOfForecast.


(** ** The aggregate error, in arithmetic without rounding *)

Section ExactErrors.
Context {MinMaxScaler StandardScaler : Type}
        `{!Sklearn.TransformerMixin R MinMaxScaler}
        `{!Sklearn.TransformerMixin R StandardScaler}.
Context {D : Type} `{!Sklearn.TransformerMixin R D}.
Context {Model Tokenizer Tr : Type} `{!ICLTrainer R Model Tokenizer Tr}.
Context {Quantiles : Type}
        (compute_ks_metric :
           matrix R → list (ICLObject R) → nat → nat →
           (matrix R → matrix R) → Z → vector R * Quantiles).

Local Abbreviation pipeline := (DICL R MinMaxScaler StandardScaler D Tr).
Implicit Types (self : pipeline).

Lemma squares_of_differences (v w : vector R) :
  (λ x, x * x)%A <$> zip_with sub v w = zip_with (λ x y, (x - y) * (x - y))%R v w.
Proof.
  revert w. induction v as [|x v IH]; intros [|y w]; simpl; try done. by rewrite IH.
Qed.

Lemma sum_squares_nonneg (v w : vector R) acc :
  (0 <= acc)%R → (0 <= foldl Rplus acc (zip_with (λ x y, (x - y) * (x - y))%R v w))%R.
Proof.
  revert w acc. induction v as [|x v IH]; intros [|y w] acc Hacc; simpl; try done.
  apply IH. pose proof (Rle_0_sqr (x - y)) as Hsq. unfold Rsqr in Hsq. lra.
Qed.

Lemma sum_squares_zero (v w : vector R) acc :
  (0 <= acc)%R → length v = length w →
  foldl Rplus acc (zip_with (λ x y, (x - y) * (x - y))%R v w) = 0%R →
  acc = 0%R ∧ v = w.
Proof.
  revert w acc. induction v as [|x v IH]; intros [|y w] acc Hacc Hlen; simpl in *; try done.
  intros Hsum. pose proof (Rle_0_sqr (x - y)) as Hsq. unfold Rsqr in Hsq.
  destruct (IH w (acc + (x - y) * (x - y))%R) as [Hzero ->]; [lra|lia|done|].
  assert (acc = 0%R) by lra. assert (Hxy : ((x - y) * (x - y))%R = 0%R) by lra.
  apply Rmult_integral in Hxy. assert (x = y) by lra. by subst.
Qed.

Lemma sum_squares_same (v : vector R) acc :
  foldl Rplus acc (zip_with (λ x y, (x - y) * (x - y))%R v v) = acc.
Proof.
  revert acc. induction v as [|x v IH]; intros acc; simpl; [done|].
  rewrite IH. lra.
Qed.

(** X16: in arithmetic without rounding, every entry of
    ["agg_squared_error"] is the Euclidean distance between the observed row
    [X[t + 1]] and the forecast row [mean[t]]: it is not negative, its
    square is the sum of the squared differences, and it is zero exactly
    when the forecast row is the observed row. *)
Theorem aggregate_error_is_distance burnin self T F m self' :
  forecast_stored self T F →
  compute_metrics compute_ks_metric burnin self = (Ok m, self') →
  ∃ X_ mean_ agg,
    X self = Some X_ ∧ mean self = Some mean_ ∧
    m !! "agg_squared_error" = Some (Array1 agg) ∧
    ∀ t observed forecast,
      X_ !! S t = Some observed → mean_ !! t = Some forecast →
      ∃ e,
        agg !! t = Some e ∧ (0 <= e)%R ∧
        (e * e)%R = Np.sum (zip_with (λ x y, (x - y) * (x - y))%R observed forecast) ∧
        (e = 0%R ↔ observed = forecast).
Proof.
  intros Hst Hrun.
  destruct (forecast_errors self T F Hst) as (X_ & mean_ & HX & Hmean & HXs & Hmeans & Hd).
  destruct (compute_metrics_Ok compute_ks_metric burnin self m self' Hrun)
    as (X' & mean' & objs' & d & HX' & Hmean' & _ & Hd' & Hm).
  assert (X' = X_) as -> by congruence. assert (mean' = mean_) as -> by congruence.
  assert (d = zip_with (zip_with sub) (slice_from X_ 1) mean_) as -> by congruence.
  cbv zeta in Hm. subst m. exists X_, mean_. eexists.
  split; [done|]. split; [done|]. split; [by simplify_map_eq|].
  intros t observed forecast Hobserved Hforecast.
  assert (Hlen : length observed = length forecast).
  { destruct HXs as [_ HXs], Hmeans as [_ Hmeans]. rewrite Forall_forall in HXs, Hmeans.
    rewrite (Hmeans forecast) by (by eapply list_elem_of_lookup_2).
    apply HXs. rewrite slice_from_nonneg by lia. apply (list_elem_of_lookup_2 _ t).
    by rewrite lookup_drop. }
  set (S2 := foldl Rplus 0%R (zip_with (λ x y, (x - y) * (x - y))%R observed forecast)).
  assert (HS2 : (0 <= S2)%R) by (apply sum_squares_nonneg; lra).
  exists (R_sqrt.sqrt S2).
  split.
  { unfold linalg_norm_axis1. rewrite list_lookup_fmap, lookup_zip_with.
    rewrite slice_from_nonneg by lia. rewrite lookup_drop. simpl.
    rewrite Hobserved. simpl. rewrite Hforecast. simpl.
    by rewrite squares_of_differences. }
  split; [by apply sqrt_pos|]. split; [by apply sqrt_sqrt|].
  split.
  - intros Hzero. apply sqrt_eq_0 in Hzero; [|done].
    by destruct (sum_squares_zero observed forecast 0%R) as [_ ->]; [lra|done|done|].
  - intros ->. unfold S2. rewrite sum_squares_same. apply sqrt_0.
Qed.

End ExactErrors.


(** ** From a prediction to its metrics and plots *)

Section Composition.
Context {num : Type} `{!Arith num}.
Context {MinMaxScaler StandardScaler : Type}
        `{!Sklearn.TransformerMixin num MinMaxScaler}
        `{!Sklearn.TransformerMixin num StandardScaler}.
Context {D : Type} `{!Sklearn.TransformerMixin num D}.
Context {Model Tokenizer Tr : Type} `{!ICLTrainer num Model Tokenizer Tr}.
Context {Quantiles : Type}
        (compute_ks_metric :
           matrix num → list (ICLObject num) → nat → nat →
           (matrix num → matrix num) → Z → vector num * Quantiles).

Local Abbreviation pipeline := (DICL num MinMaxScaler StandardScaler D Tr).
Implicit Types (self : pipeline) (objs : list (ICLObject num)).

(** Storing bundles of [T - 1] rows and [F] columns on an object that holds
    a window of [T] rows gives an object that holds a forecast. *)
Lemma store_bundles_forecast_stored self objs window T F :
  n_features self = F → context_length self = Some T →
  X self = Some window → has_shape window T F →
  stats_cover (n_components self) (T - 1) objs → 0 < n_components self →
  inverse_transform_shape (disentangler self) (n_components self) F →
  forecast_stored (store_bundles (bundles_of self objs) self) T F.
Proof.
  intros Hn Hcl HX Hwindow Hcover Hpos Hinv.
  destruct (bundles_of_shape self objs (T - 1) F Hcover Hpos Hinv) as (Hs1 & Hs2 & Hs3 & Hs4).
  split; [exact Hn|]. split; [exact Hcl|]. split; [by exists window|].
  split; [by eexists|]. split; [by eexists|]. split; by eexists.
Qed.

Lemma predict_single_step_forecast_stored self window T F :
  has_shape window T F → 1 ≤ T → F = n_features self → 0 < n_components self →
  transform_shape (disentangler self) F (n_components self) →
  inverse_transform_shape (disentangler self) (n_components self) F →
  one_step_covers (n_components self) (iclearner self) →
  ∃ b self',
    predict_single_step window self = (Ok b, self') ∧
    forecast_stored self' T F ∧ is_Some (icl_object self').
Proof.
  intros Hwindow HT HF Hpos Htr Hinv Hone.
  destruct (predict_single_step_covered self window T F Hwindow HT HF Hpos Htr Hone)
    as (objs & Hcover & Hobjs & Hrun).
  eexists _, _. split; [exact Hrun|]. split.
  - change (bundles_of self objs)
      with (bundles_of (single_step_forecast window self) objs).
    apply (store_bundles_forecast_stored _ _ window); try done.
    by destruct Hwindow as [<- _].
  - exists objs. exact Hobjs.
Qed.




End Composition.


(** ** The further statements, at the examples *)

Lemma StubTrainer_one_step_ext {num} `{!Arith num} (tr tr' : StubTrainer num) ctx :
  stub_n_features tr' = stub_n_features tr → stub_up_shift tr' = stub_up_shift tr →
  one_step_statistics tr' ctx = one_step_statistics tr ctx.
Proof.
  intros Hn Hup. unfold one_step_statistics. simpl. unfold stub_statistics. simpl.
  by rewrite Hn, Hup.
Qed.

Lemma StubTrainer_long_horizon_ext {num} `{!Arith num} (tr tr' : StubTrainer num) ctx
    (h : Z) st md :
  stub_n_features tr' = stub_n_features tr → stub_up_shift tr' = stub_up_shift tr →
  long_horizon_statistics tr' ctx h st md = long_horizon_statistics tr ctx h st md.
Proof.
  intros Hn Hup. unfold long_horizon_statistics. simpl. unfold stub_statistics. simpl.
  by rewrite Hn, Hup.
Qed.

Lemma example_vICL_R_inverse_transform_shape :
  inverse_transform_shape (disentangler example_vICL_R) 2 2.
Proof.
  eapply Pipeline_inverse_transform_shape;
    [apply IdentityTransformer_inverse_transform_shape
    |by apply AffineScaler_inverse_transform_shape..].
Qed.

(** [predict_multi_step] on the example window, for the horizon 1. *)
Lemma example_multi_prediction :
  predict_multi_step example_window 1 false false example_vICL
  = (Ok example_bundles, example_multi_predicted).
Proof. vm_compute. reflexivity. Qed.

Lemma example_bundle_shape : has_shape [[1; 2]; [1; 2]; [1; 2]]%float 3 2.
Proof. split; [done|]. by repeat constructor. Qed.

Lemma example_predicted_stored : forecast_stored example_predicted 4 2.
Proof.
  split; [reflexivity|]. split; [reflexivity|].
  split; [exists example_window; split; [reflexivity|exact example_window_shape]|].
  split; [eexists; split; [vm_compute; reflexivity|exact example_bundle_shape]|].
  split; [eexists; split; [vm_compute; reflexivity|exact example_bundle_shape]|].
  split; [eexists; split; [vm_compute; reflexivity|exact example_bundle_shape]|].
  eexists; split; [vm_compute; reflexivity|exact example_bundle_shape].
Qed.


Lemma example_predicted_R_stored :
  forecast_stored example_predicted_R 4 2 ∧ is_Some (icl_object example_predicted_R).
Proof.
  destruct (predict_single_step_forecast_stored example_vICL_R example_window_R 4 2)
    as (b & self' & Hrun & Hst & Hobjs).
  - exact example_window_R_shape.
  - lia.
  - reflexivity.
  - simpl. lia.
  - exact example_vICL_R_transform_shape.
  - exact example_vICL_R_inverse_transform_shape.
  - exact (StubTrainer_one_step_covers (iclearner example_vICL_R)).
  - unfold example_predicted_R. rewrite Hrun. by split.
Qed.

Lemma shape_mismatch_fails_fast_witness :
  has_shape wide_window 1 3 ∧ 3 ≠ n_features example_vICL ∧
  predict_single_step wide_window example_vICL = (Raise AssertionError, example_vICL) ∧
  predict_multi_step wide_window 1 false false example_vICL
  = (Raise AssertionError, example_vICL).
Proof.
  assert (Hshape : has_shape wide_window 1 3) by (split; [reflexivity|by repeat constructor]).
  assert (Hne : 3 ≠ n_features example_vICL) by (simpl; lia).
  split; [exact Hshape|]. split; [exact Hne|].
  apply (shape_mismatch_fails_fast example_vICL wide_window 1 3 1 false false Hshape);
    [lia|exact Hne].
Defined.

Lemma single_step_stores_forecast_witness :
  predict_single_step example_window example_vICL = (Ok example_bundles, example_predicted) ∧
  X example_predicted = Some example_window ∧
  context_length example_predicted = Some 4 ∧
  mean example_predicted = Some [[1; 2]; [1; 2]; [1; 2]]%float ∧
  prediction_horizon example_predicted = None.
Proof.
  split; [exact example_prediction|].
  destruct (single_step_stores_forecast example_window example_vICL _ _ _ _ _
              example_prediction) as (HX & Hcl & _ & Hmean & _ & _ & _ & Hh & _).
  split; [exact HX|]. split; [exact Hcl|]. split; [exact Hmean|exact Hh].
Defined.

Lemma multi_step_stores_forecast_witness :
  predict_multi_step example_window 1 false false example_vICL
  = (Ok example_bundles, example_multi_predicted) ∧
  X example_multi_predicted = Some example_window ∧
  context_length example_multi_predicted = Some 4 ∧
  prediction_horizon example_multi_predicted = Some 1%Z ∧
  ub example_multi_predicted = Some [[1; 2]; [1; 2]; [1; 2]]%float.
Proof.
  split; [exact example_multi_prediction|].
  destruct (multi_step_stores_forecast example_window 1 false false example_vICL _ _ _ _ _
              example_multi_prediction) as (HX & Hcl & Hh & _ & _ & _ & _ & Hub & _).
  split; [exact HX|]. split; [exact Hcl|]. split; [exact Hh|exact Hub].
Defined.

Lemma prediction_ignores_stored_forecast_witness :
  same_configuration example_vICL example_predicted ∧
  (predict_single_step example_window example_predicted).1
  = (predict_single_step example_window example_vICL).1 ∧
  (predict_multi_step example_window 1 false false example_predicted).1
  = (predict_multi_step example_window 1 false false example_vICL).1.
Proof.
  assert (Hcfg : same_configuration example_vICL example_predicted)
    by (repeat split; vm_compute; reflexivity).
  destruct (prediction_ignores_stored_forecast example_vICL example_predicted
              example_window Hcfg) as [Hsingle Hmulti].
  - intros ctx. apply StubTrainer_one_step_ext; vm_compute; reflexivity.
  - intros ctx h st md. apply StubTrainer_long_horizon_ext; vm_compute; reflexivity.
  - split; [exact Hcfg|]. split; [exact Hsingle|exact (Hmulti 1%Z false false)].
Defined.


(** The two copies on the example: the mean curve of the first feature,
    without a colour in the earlier copy and with the first colour of the
    colorblind palette in the later one. *)
Lemma copies_differ_in_the_mean_colour :
  (∃ events,
     Main.plot_single_step None None None example_predicted = Plt.Drawn events ∧
     Plt.on_axes 0 (Plt.plot [0; 1; 2]%Z [1; 1; 1]%float "mean $\pm$ std" None) ∈ events) ∧
  (∃ events,
     plot_single_step None None None example_predicted = Plt.Drawn events ∧
     Plt.on_axes 0 (Plt.plot [0; 1; 2]%Z [1; 1; 1]%float "mean $\pm$ std"
                      (Some (Plt.colorblind 0))) ∈ events).
Proof.
  split; (eexists; split; [vm_compute; reflexivity|]);
    do 3 apply list_elem_of_further; apply list_elem_of_here.
Qed.

Lemma plot_single_step_draws_witness :
  forecast_stored example_predicted 4 2 ∧
  ∃ events : list (Plt.event float),
    plot_single_step None None None example_predicted = Plt.Drawn events ∧
    Forall Plt.aligned events ∧
    Plt.on_axes 1 Plt.legend ∈ events.
Proof.
  split; [exact example_predicted_stored|].
  destruct (plot_single_step_draws example_predicted 4 2 None None None
              example_predicted_stored) as (events & Hplot & Haligned & _ & _ & Hlegend);
    [lia|exact I|].
  exists events. split; [exact Hplot|]. split; [exact Haligned|exact Hlegend].
Defined.



Lemma plot_before_prediction_witness :
  context_length example_vICL = None ∧ 1 ≤ n_features example_vICL ∧
  plot_single_step None None None example_vICL
  = Plt.Raised (AttributeError "context_length") ∧
  plot_multi_step None None None example_vICL
  = Plt.Raised (AttributeError "context_length").
Proof.
  assert (Hn : 1 ≤ n_features example_vICL) by (simpl; lia).
  split; [reflexivity|]. split; [exact Hn|].
  apply (plot_before_prediction example_vICL None None None eq_refl Hn).
Defined.

Lemma plot_without_features_witness :
  n_features example_no_features = 0 ∧
  plot_single_step None None None example_no_features = Plt.RaisedUnboundLocal "ax" ∧
  plot_multi_step None None None example_no_features = Plt.RaisedUnboundLocal "ax".
Proof.
  split; [reflexivity|].
  apply (plot_without_features example_no_features None None None eq_refl).
Defined.

Lemma metrics_after_prediction_witness :
  forecast_stored example_predicted 4 2 ∧
  ∃ m agg avg_perdim,
    compute_metrics stub_ks_metric 0 example_predicted = (Ok m, example_predicted) ∧
    m !! "agg_squared_error" = Some (Array1 agg) ∧ length agg = 3 ∧
    m !! "average_perdim_squared_error" = Some (Array1 avg_perdim) ∧
    length avg_perdim = 2.
Proof.
  split; [exact example_predicted_stored|].
  destruct (metrics_after_prediction stub_ks_metric 0 example_predicted 4 2
              (stub_statistics (iclearner example_predicted) 0) example_predicted_stored)
    as (m & agg & avg & Hrun & _ & Hagg & Hlen & Havg & Hlen');
    [vm_compute; reflexivity|lia|].
  exists m, agg, avg. split; [exact Hrun|]. split; [exact Hagg|]. split; [exact Hlen|].
  split; [exact Havg|exact Hlen'].
Defined.

Lemma aggregate_error_is_distance_witness :
  forecast_stored example_predicted_R 4 2 ∧
  ∃ m X_ mean_ agg,
    compute_metrics stub_ks_metric 0 example_predicted_R = (Ok m, example_predicted_R) ∧
    X example_predicted_R = Some X_ ∧ mean example_predicted_R = Some mean_ ∧
    m !! "agg_squared_error" = Some (Array1 agg) ∧
    ∀ t observed forecast,
      X_ !! S t = Some observed → mean_ !! t = Some forecast →
      ∃ e, agg !! t = Some e ∧ (0 <= e)%R ∧ (e = 0%R ↔ observed = forecast).
Proof.
  destruct example_predicted_R_stored as [Hst [objs Hobjs]].
  split; [exact Hst|].
  destruct (forecast_errors example_predicted_R 4 2 Hst)
    as (X_ & mean_ & HX & Hmean & _ & _ & Hd).
  destruct (compute_metrics_run stub_ks_metric 0 example_predicted_R _ _ _ _
              HX Hmean Hobjs Hd) as [m Hrun].
  destruct (aggregate_error_is_distance stub_ks_metric 0 example_predicted_R 4 2 m
              example_predicted_R Hst Hrun)
    as (X' & mean' & agg & HX' & Hmean' & Hagg & Hall).
  exists m, X', mean', agg. split; [exact Hrun|]. split; [exact HX'|].
  split; [exact Hmean'|]. split; [exact Hagg|].
  intros t observed forecast Ho Hf.
  destruct (Hall t observed forecast Ho Hf) as (e & He & Hpos & _ & Hzero).
  exists e. split; [exact He|]. split; [exact Hpos|exact Hzero].
Defined.

Lemma burnin_beyond_forecast_witness :
  forecast_stored example_predicted 4 2 ∧
  PrimFloat.is_nan (zero / of_nat 0)%A = true ∧
  ∃ m,
    compute_metrics stub_ks_metric 3 example_predicted = (Ok m, example_predicted) ∧
    m !! "average_agg_squared_error" = Some (Scalar (zero / of_nat 0)%A).
Proof.
  split; [exact example_predicted_stored|]. split; [reflexivity|].
  apply (burnin_beyond_forecast stub_ks_metric 3 example_predicted 4 2
           (stub_statistics (iclearner example_predicted) 0) example_predicted_stored);
    [vm_compute; reflexivity|lia|lia].
Defined.

